(** * create_appimage.py: a shallow embedding and its specification

    The script [packaging/linux/appimage/create_appimage.py] assembles an
    AppImage for the [diskfmt] binary.  It is a linear orchestration of
    file-system operations, two downloads and a handful of external
    processes.  This development embeds it as a state-and-exception monad
    over an explicit world (environment variables, file system, the two
    output streams, and a log of the interactions with the outside), and
    proves the properties the specification states about it.

    What the script cannot decide by itself is taken from a record of
    externals: the answers of the network, of the spawned programs, of the
    [PATH] lookup, of the TOML parser, the removals the operating system
    refuses, and whether the script runs as root.  Everything else is
    computed. *)

From Stdlib Require Import ZArith String Ascii List Lia DecimalString.
From stdpp Require Import base option list strings gmap.

Open Scope string_scope.
Open Scope list_scope.
Open Scope Z_scope.

(** ** Text *)

Definition LF : ascii := "010"%char.
Definition CR : ascii := "013"%char.
Definition newline : string := String LF "".

(** [text.startswith(pre)] *)
Fixpoint startswith (pre text : string) : bool :=
  match pre, text with
  | EmptyString, _ => true
  | String a pre', String b text' => Ascii.eqb a b && startswith pre' text'
  | String _ _, EmptyString => false
  end.

(** [sub in text], Python's substring test. *)
Fixpoint contains (sub text : string) : bool :=
  startswith sub text ||
  match text with
  | EmptyString => false
  | String _ rest => contains sub rest
  end.

(** [data.endswith(b"\n")] *)
Fixpoint endswith_newline (data : string) : bool :=
  match data with
  | EmptyString => false
  | String c EmptyString => Ascii.eqb c LF
  | String _ rest => endswith_newline rest
  end.

(** Text-mode reading ([newline=None]): the line endings CR LF and CR both
    read as LF.  The model identifies a text with its encoded bytes, so this
    translation is all that [read_text] does to the bytes of a file; on
    Linux [write_text] writes LF as it is. *)
Fixpoint universal_newlines (data : string) : string :=
  match data with
  | EmptyString => EmptyString
  | String c rest =>
      if Ascii.eqb c CR then
        String LF
          match rest with
          | String c' rest' =>
              if Ascii.eqb c' LF then universal_newlines rest'
              else universal_newlines rest
          | EmptyString => EmptyString
          end
      else String c (universal_newlines rest)
  end.

(** *** Decoding

    [Path.read_text()] and [Path.write_text()] without an encoding use the
    encoding of the locale, taken here to be UTF-8 (what Python uses under a
    UTF-8 locale and under the C locale), with [errors="strict"].  A text is
    kept as its UTF-8 bytes; bytes that are no UTF-8 cannot be read as text,
    and a text that holds them (a lone surrogate that came in through
    [os.environ]) cannot be written. *)

(** Where the decoder stands: between two characters, or inside one, after
    a lead byte that restricts the byte that follows it ([0xE0], [0xED],
    [0xF0], [0xF4]: no overlong forms, no surrogates, nothing above
    U+10FFFF), or with one, two or three continuation bytes to come. *)
Inductive utf8_state :=
  Boundary | AfterE0 | AfterED | AfterF0 | AfterF4 | Tail1 | Tail2 | Tail3.

Definition between (lo hi b : N) : bool := (lo <=? b)%N && (b <=? hi)%N.

Definition utf8_step (st : utf8_state) (b : N) : option utf8_state :=
  match st with
  | Boundary =>
      if between 0x00 0x7F b then Some Boundary
      else if between 0xC2 0xDF b then Some Tail1
      else if between 0xE0 0xE0 b then Some AfterE0
      else if between 0xED 0xED b then Some AfterED
      else if between 0xE1 0xEF b then Some Tail2
      else if between 0xF0 0xF0 b then Some AfterF0
      else if between 0xF1 0xF3 b then Some Tail3
      else if between 0xF4 0xF4 b then Some AfterF4
      else None
  | AfterE0 => if between 0xA0 0xBF b then Some Tail1 else None
  | AfterED => if between 0x80 0x9F b then Some Tail1 else None
  | AfterF0 => if between 0x90 0xBF b then Some Tail2 else None
  | AfterF4 => if between 0x80 0x8F b then Some Tail2 else None
  | Tail1 => if between 0x80 0xBF b then Some Boundary else None
  | Tail2 => if between 0x80 0xBF b then Some Tail1 else None
  | Tail3 => if between 0x80 0xBF b then Some Tail2 else None
  end.

Fixpoint utf8_from (st : utf8_state) (data : string) : bool :=
  match data with
  | EmptyString => match st with Boundary => true | _ => false end
  | String c rest =>
      match utf8_step st (N_of_ascii c) with
      | Some st' => utf8_from st' rest
      | None => false
      end
  end.

(** [data.decode("utf-8")] does not raise. *)
Definition utf8_valid (data : string) : bool := utf8_from Boundary data.

(** [str.split(sep)] for a one-character separator. *)
Fixpoint split_on (sep : ascii) (s : string) : list string :=
  match s with
  | EmptyString => [EmptyString]
  | String c rest =>
      if Ascii.eqb c sep then EmptyString :: split_on sep rest
      else match split_on sep rest with
           | [] => [String c EmptyString]
           | hd :: tl => String c hd :: tl
           end
  end.

Definition join (sep : string) (l : list string) : string := String.concat sep l.


(** [f"{n}"] for an integer. *)
Definition decimal (z : Z) : string := NilZero.string_of_int (Z.to_int z).

(** ** Paths, as [pathlib] keeps them *)

(** [doubled]: the path began with exactly two slashes, which [pathlib]
    keeps as the root [//]; the system reads such a path as it reads the one
    with a single slash. *)
Record Path := mkPath { anchored : bool; doubled : bool; parts : list string }.

Definition keep_part (s : string) : bool :=
  negb (String.eqb s "") && negb (String.eqb s ".").

(** [Path(s)]: repeated slashes and [.] components disappear, [..] stays. *)
Definition Path_of (s : string) : Path :=
  mkPath (startswith "/" s) (startswith "//" s && negb (startswith "///" s))
    (List.filter keep_part (split_on "/"%char s)).

(** [str(p)] *)
Definition path_str (p : Path) : string :=
  match anchored p, parts p with
  | true, ps => (if doubled p then "//" else "/") +:+ join "/" ps
  | false, [] => "."
  | false, ps => join "/" ps
  end.

(** [p / s] *)
Definition joinpath (p : Path) (s : string) : Path :=
  let q := Path_of s in
  if anchored q then q else mkPath (anchored p) (doubled p) (parts p ++ parts q).

Infix "//" := joinpath (at level 40, left associativity).

(** [p.parent] and [p.name] *)
Definition parent (p : Path) : Path :=
  mkPath (anchored p) (doubled p) (removelast (parts p)).
Definition name (p : Path) : string := List.last (parts p) "".

(** A location is the list of directory names from the root down to a node
    of the file system.  [..] climbs, and stays at the root there. *)
Abbreviation loc := (list string).

Fixpoint climb (acc : list string) (ps : list string) : list string :=
  match ps with
  | [] => List.rev acc
  | p :: rest =>
      if String.eqb p ".." then climb (List.tl acc) rest
      else climb (p :: acc) rest
  end.

Definition locate (base : loc) (p : Path) : loc :=
  climb [] (if anchored p then parts p else base ++ parts p).

Definition at_loc (l : loc) : Path := mkPath true false l.

(** ** The file system *)

Inductive node :=
| File (mode : Z) (data : string)
| Dir
| Link (target : string).

Abbreviation FS := (gmap (list string) node).

Inductive errno :=
  ENOENT | ENOTDIR | EISDIR | EEXIST | ELOOP | EACCES | ENOSPC | ESAMEFILE.

(** The root is a directory of every file system. *)
Definition node_at (fs : FS) (l : loc) : option node :=
  match l with
  | [] => Some Dir
  | _ => fs !! l
  end.

(** [l] lies at or below [top].  *)
Definition under (top l : loc) : Prop := top `prefix_of` l.

(** A symbolic link in the last position of a path is followed, as [stat],
    [open] and [is_file] do, up to the kernel's limit of forty links.  Links
    in the middle of a path are outside the model: every directory on the way
    to a node is taken to be a directory proper. *)
Fixpoint follow (fuel : nat) (fs : FS) (l : loc) : option loc :=
  match node_at fs l with
  | Some (Link target) =>
      match fuel with
      | O => None
      | S fuel' => follow fuel' fs (locate (removelast l) (Path_of target))
      end
  | _ => Some l
  end.

Definition MAXSYMLINKS : nat := 40.

Definition stat (fs : FS) (l : loc) : option node :=
  match follow MAXSYMLINKS fs l with
  | Some r => node_at fs r
  | None => None
  end.

Definition is_file (fs : FS) (l : loc) : bool :=
  match stat fs l with Some (File _ _) => true | _ => false end.

Definition is_dir (fs : FS) (l : loc) : bool :=
  match stat fs l with Some Dir => true | _ => false end.

Definition exists_ (fs : FS) (l : loc) : bool :=
  match stat fs l with Some _ => true | None => false end.

(** [os.access(p, os.X_OK)], read off the mode bits. *)
Definition S_IXALL : Z := 73. (* S_IXUSR | S_IXGRP | S_IXOTH = 0o111 *)

Definition access_x (fs : FS) (l : loc) : bool :=
  match stat fs l with
  | Some (File mode _) => negb (Z.eqb (Z.land mode S_IXALL) 0)
  | Some _ => true
  | None => false
  end.

(** [os.mkdir] *)
Definition os_mkdir (fs : FS) (l : loc) : errno + FS :=
  match node_at fs l with
  | Some _ => inl EEXIST
  | None =>
      match node_at fs (removelast l) with
      | Some Dir => inr (<[l := Dir]> fs)
      | Some _ => inl ENOTDIR
      | None => inl ENOENT
      end
  end.

(** [Path.mkdir(parents=True, exist_ok=True)], as pathlib writes it: try the
    directory itself, on a missing parent make the parent first, and let any
    other error pass when the directory is there. *)
Fixpoint mkdir_parents (depth : nat) (fs : FS) (l : loc) : errno + FS :=
  match os_mkdir fs l with
  | inr fs' => inr fs'
  | inl ENOENT =>
      match depth, l with
      | S depth', _ :: _ =>
          match mkdir_parents depth' fs (removelast l) with
          | inl e => inl e
          | inr fs1 =>
              match os_mkdir fs1 l with
              | inr fs2 => inr fs2
              | inl e => if is_dir fs1 l then inr fs1 else inl e
              end
          end
      | _, _ => inl ENOENT
      end
  | inl e => if is_dir fs l then inr fs else inl e
  end.

Definition mkdir_p (fs : FS) (l : loc) : errno + FS :=
  mkdir_parents (length l) fs l.

(** [open(p, "wb")]: the file is created, or emptied, at the place the path
    leads to; [new_mode] is the mode a new file gets under the umask. *)
Definition open_wb (new_mode : Z) (fs : FS) (l : loc) : errno + (loc * FS) :=
  match follow MAXSYMLINKS fs l with
  | None => inl ELOOP
  | Some r =>
      match node_at fs r with
      | Some Dir => inl EISDIR
      | Some (File mode _) => inr (r, <[r := File mode ""]> fs)
      | Some (Link _) => inl ELOOP
      | None =>
          match node_at fs (removelast r) with
          | Some Dir => inr (r, <[r := File new_mode ""]> fs)
          | Some _ => inl ENOTDIR
          | None => inl ENOENT
          end
      end
  end.

(** [out.write(data)] on a file opened at [r]. *)
Definition write_at (fs : FS) (r : loc) (data : string) : FS :=
  match fs !! r with
  | Some (File mode _) => <[r := File mode data]> fs
  | _ => fs
  end.

(** [Path.read_bytes] *)
Definition read_bytes (fs : FS) (l : loc) : errno + string :=
  match stat fs l with
  | Some (File _ data) => inr data
  | Some Dir => inl EISDIR
  | Some (Link _) => inl ELOOP
  | None => inl ENOENT
  end.

(** [Path.write_bytes] *)
Definition write_bytes (new_mode : Z) (fs : FS) (l : loc) (data : string)
  : errno + FS :=
  match open_wb new_mode fs l with
  | inl e => inl e
  | inr (r, fs') => inr (write_at fs' r data)
  end.

(** [shutil.copy2(src, dst)]: into [dst] when that is a directory; the same
    file on both sides is an error; data and mode bits are copied. *)
Definition copy2 (new_mode : Z) (fs : FS) (src dst : loc) : errno + FS :=
  let dst := if is_dir fs dst then dst ++ [List.last src ""] else dst in
  match follow MAXSYMLINKS fs src, stat fs src with
  | Some rs, Some (File mode data) =>
      if bool_decide (follow MAXSYMLINKS fs dst = Some rs) then inl ESAMEFILE
      else match open_wb new_mode fs dst with
           | inl e => inl e
           | inr (r, fs') => inr (<[r := File mode data]> fs')
           end
  | _, Some Dir => inl EISDIR
  | _, _ => inl ENOENT
  end.

(** [Path.unlink]: the entry itself, a link included; [refused] are the
    removals the operating system does not allow. *)
Definition unlink (refused : loc → bool) (fs : FS) (l : loc) : errno + FS :=
  match node_at fs l with
  | None => inl ENOENT
  | Some Dir => inl EISDIR
  | Some _ => if refused l then inl EACCES else inr (delete l fs)
  end.

(** [Path.symlink_to] *)
Definition symlink_to (fs : FS) (l : loc) (target : string) : errno + FS :=
  match node_at fs l with
  | Some _ => inl EEXIST
  | None =>
      match node_at fs (removelast l) with
      | Some Dir => inr (<[l := Link target]> fs)
      | Some _ => inl ENOTDIR
      | None => inl ENOENT
      end
  end.

(** [path.chmod(st.st_mode | bits)] after [path.stat()] *)
Definition chmod_or (fs : FS) (l : loc) (bits : Z) : errno + FS :=
  match follow MAXSYMLINKS fs l with
  | None => inl ELOOP
  | Some r =>
      match node_at fs r with
      | Some (File mode data) => inr (<[r := File (Z.lor mode bits) data]> fs)
      | Some _ => inr fs
      | None => inl ENOENT
      end
  end.

(** An entry survives [rmtree] when the removal of it, or of something
    below it, is refused: a directory that is not empty cannot go. *)
Definition pinned (refused : loc → bool) (fs : FS) (l : loc) : Prop :=
  map_Exists (λ r _, l `prefix_of` r ∧ refused r = true) fs.

#[global] Instance pinned_dec refused fs l : Decision (pinned refused fs l).
Proof. unfold pinned. apply _. Defined.

(** [shutil.rmtree(top, ignore_errors=True)]: everything at or below a
    directory [top] goes, except what is pinned; called on anything else
    (nothing there, a file, a symbolic link) it raises, which is ignored. *)
Definition rmtree_ignore_errors (refused : loc → bool) (fs : FS) (top : loc) : FS :=
  match fs !! top with
  | Some Dir =>
      filter (λ kv, ¬ top `prefix_of` kv.1 ∨ pinned refused fs kv.1) fs
  | _ => fs
  end.

(** ** Python values, exceptions, the world *)

(** What [toml.loads] can put under a key, as far as the script looks at
    it: strings, integers, booleans and tables are kept; any other value
    (float, date, array) is seen by its truth value and its [str()] only. *)
#[warnings="-register-all"] Inductive obj :=
| Str (s : string)
| Int (z : Z)
| Bool (b : bool)
| Table (items : list (string * obj))
| Other (truth : bool) (shown : string).

Fixpoint dict_get (key : string) (items : list (string * obj)) : option obj :=
  match items with
  | [] => None
  | (k, v) :: rest => if String.eqb k key then Some v else dict_get key rest
  end.

(** [bool(v)], with [None] for Python's [None]. *)
Definition truthy (v : option obj) : bool :=
  match v with
  | None => false
  | Some (Str s) => negb (String.eqb s "")
  | Some (Int z) => negb (Z.eqb z 0)
  | Some (Bool b) => b
  | Some (Table items) => match items with [] => false | _ => true end
  | Some (Other truth _) => truth
  end.

Inductive exn :=
| SystemExit (code : Z)
| ProcessExecutionError (retcode : Z) (report : string)
| CommandNotFound (program : string)
| ImportError (what : string)
| OSError (e : errno) (place : string)
| URLError (reason : string)
| TomlDecodeError
| AttributeError (what : string)
| UnicodeDecodeError
| UnicodeEncodeError.

(** [except Exception] lets [SystemExit] through. *)
Definition is_Exception (e : exn) : bool :=
  match e with SystemExit _ => false | _ => true end.

Definition errno_str (e : errno) : string :=
  match e with
  | ENOENT => "No such file or directory"
  | ENOTDIR => "Not a directory"
  | EISDIR => "Is a directory"
  | EEXIST => "File exists"
  | ELOOP => "Too many levels of symbolic links"
  | EACCES => "Permission denied"
  | ENOSPC => "No space left on device"
  | ESAMEFILE => "are the same file"
  end.

(** The number [str()] shows for an [OSError]; [shutil.SameFileError] has
    none. *)
Definition errno_num (e : errno) : option Z :=
  match e with
  | ENOENT => Some 2
  | EACCES => Some 13
  | EEXIST => Some 17
  | ENOTDIR => Some 20
  | EISDIR => Some 21
  | ENOSPC => Some 28
  | ELOOP => Some 40
  | ESAMEFILE => None
  end.

(** [str(e)]: for an [OSError], [[Errno 2] No such file or directory: '/x'].
    The text of a decoding error names the byte and its position as well,
    which are left out: no message of the script shows it. *)
Definition exn_str (e : exn) : string :=
  match e with
  | SystemExit code => decimal code
  | ProcessExecutionError _ report => report
  | CommandNotFound program => program
  | ImportError what => "cannot import name '" +:+ what +:+ "' from 'plumbum.cmd'"
  | OSError e place =>
      match errno_num e with
      | Some n => "[Errno " +:+ decimal n +:+ "] "
      | None => ""
      end +:+ errno_str e +:+ ": '" +:+ place +:+ "'"
  | URLError reason => reason
  | TomlDecodeError => "invalid TOML"
  | AttributeError what => what
  | UnicodeDecodeError => "'utf-8' codec can't decode bytes"
  | UnicodeEncodeError => "'utf-8' codec can't encode characters"
  end.

(** What the network answers to one [urlopen]. *)
Inductive response :=
| ConnectFails (reason : string)   (* [urlopen] raises *)
| ReadFails (reason : string)      (* connected, [resp.read()] raises *)
| Body (data : string).            (* [resp.read()] returns the whole body *)

(** How a spawned program ends: with a return code, the text plumbum puts
    into its error, and the file system it leaves; or it cannot be started. *)
Inductive outcome :=
| Exited (retcode : Z) (report : string) (after : FS)
| NotStarted (e : errno).

(** The interactions with the outside, in the order they happen.  A spawn
    records the file system the program finds when it starts. *)
Inductive event :=
| Urlopen (url : string)
| Sleep (seconds : Z)
| Spawn (program : string) (args : list string) (seen : FS).

(** A line on the error stream: printed by the script, or the traceback the
    interpreter prints for an exception nobody caught. *)
Inductive err_line :=
| Printed (msg : string)
| Traceback (e : exn).

Record World := mkWorld {
  env : gmap string string;
  fs : FS;
  stdout : list string;
  stderr : list err_line;
  log : list event
}.

Record Externals := mkExternals {
  script_file : loc;                  (* [Path(__file__).resolve()] *)
  cwd : loc;                          (* the working directory *)
  uname_machine : string;             (* [os.uname().machine] *)
  which : string → option string;     (* plumbum's lookup on [PATH] *)
  toml_loads : string → option (list (string * obj));
  dict_str : list (string * obj) → string;   (* [str()] of a table *)
  urlopen : nat → string → response;  (* the n-th call of [urlopen] *)
  write_fault : nat → option nat;     (* bytes stored before [out.write] fails *)
  spawn : string → list string → loc → gmap string string → FS → outcome;
  rm_refused : loc → bool;            (* removals the system refuses *)
  new_file_mode : Z;                  (* [0o666 & ~umask] *)
  superuser : bool                    (* the script runs as root *)
}.

Definition set_fs (f : FS) (w : World) : World :=
  mkWorld (env w) f (stdout w) (stderr w) (log w).
Definition set_env (e : gmap string string) (w : World) : World :=
  mkWorld e (fs w) (stdout w) (stderr w) (log w).
Definition add_stdout (s : string) (w : World) : World :=
  mkWorld (env w) (fs w) (stdout w ++ [s]) (stderr w) (log w).
Definition add_stderr (l : err_line) (w : World) : World :=
  mkWorld (env w) (fs w) (stdout w) (stderr w ++ [l]) (log w).
Definition add_log (ev : event) (w : World) : World :=
  mkWorld (env w) (fs w) (stdout w) (stderr w) (log w ++ [ev]).

(** ** The monad of the script: state, and Python exceptions *)

Inductive res (A : Type) :=
| Ok (a : A)
| Raise (e : exn).
Arguments Ok {A} a.
Arguments Raise {A} e.

Definition M (A : Type) : Type := World → res A * World.

#[global] Instance M_ret : MRet M := λ A a w, (Ok a, w).
#[global] Instance M_bind : MBind M := λ A B f m w,
  match m w with
  | (Ok a, w1) => f a w1
  | (Raise e, w1) => (Raise e, w1)
  end.

Definition raise {A} (e : exn) : M A := λ w, (Raise e, w).
Definition pass : M unit := mret tt.

(** [try: body / except <caught> as e: handler e] *)
Definition try_except {A} (body : M A) (caught : exn → bool) (handler : exn → M A) : M A :=
  λ w, match body w with
       | (Raise e, w1) => if caught e then handler e w1 else (Raise e, w1)
       | r => r
       end.

Definition print (msg : string) : M unit := λ w, (Ok tt, add_stdout msg w).
Definition environ_get (key : string) : M (option string) := λ w, (Ok (env w !! key), w).
Definition environ_set (key value : string) : M unit :=
  λ w, (Ok tt, set_env (<[key := value]> (env w)) w).
Definition environ_setdefault (key value : string) : M unit :=
  λ w, match env w !! key with
       | Some _ => (Ok tt, w)
       | None => (Ok tt, set_env (<[key := value]> (env w)) w)
       end.
Definition sleep (seconds : Z) : M unit := λ w, (Ok tt, add_log (Sleep seconds) w).

(** A query of the file system, and an operation on it that raises
    [OSError] for the path [p] when it fails. *)
Definition ask {A} (q : FS → A) : M A := λ w, (Ok (q (fs w)), w).
Definition fs_op (X : Externals) (p : Path) (op : FS → loc → errno + FS) : M unit :=
  λ w, match op (fs w) (locate (cwd X) p) with
       | inr fs' => (Ok tt, set_fs fs' w)
       | inl e => (Raise (OSError e (path_str p)), w)
       end.

Definition here (X : Externals) (p : Path) : loc := locate (cwd X) p.

(** The file the script reads and rewrites in place (lines 76-78 and
    158-162) is the staged desktop entry, a copy it made itself and that
    carries the mode bits of its source ([copy2]): whether the script may
    read and write it is decided by the owner's bits of that mode, unless
    the script runs as root.  [allowed X bit f l]: the file [l] leads to, if
    there is one, grants [bit] to the script.  Everywhere else the mode bits
    are taken to refuse nothing. *)
Definition S_IRUSR : Z := 256. (* 0o400 *)
Definition S_IWUSR : Z := 128. (* 0o200 *)

Definition grants (X : Externals) (bit mode : Z) : bool :=
  superuser X || negb (Z.eqb (Z.land mode bit) 0).

Definition allowed (X : Externals) (bit : Z) (f : FS) (l : loc) : bool :=
  match stat f l with
  | Some (File mode _) => grants X bit mode
  | _ => true
  end.

(** [Path.read_bytes()] *)
Definition path_read_bytes (X : Externals) (p : Path) : M string :=
  λ w, if negb (allowed X S_IRUSR (fs w) (here X p))
       then (Raise (OSError EACCES (path_str p)), w)
       else match read_bytes (fs w) (here X p) with
            | inr data => (Ok data, w)
            | inl e => (Raise (OSError e (path_str p)), w)
            end.

(** [Path.write_bytes(data)] *)
Definition path_write_bytes (X : Externals) (p : Path) (data : string) : M unit :=
  λ w, if negb (allowed X S_IWUSR (fs w) (here X p))
       then (Raise (OSError EACCES (path_str p)), w)
       else fs_op X p (λ f l, write_bytes (new_file_mode X) f l data) w.

(** [Path.read_text(encoding="utf-8")] of the manifest.  Its text goes to
    the TOML parser and nowhere else: which bytes make a manifest, the
    decoding included, is left to [toml_loads], and the manifest is taken to
    be readable. *)
Definition read_text (X : Externals) (p : Path) : M string :=
  λ w, match read_bytes (fs w) (here X p) with
       | inr data => (Ok (universal_newlines data), w)
       | inl e => (Raise (OSError e (path_str p)), w)
       end.

(** [Path.read_text()]: the bytes are decoded, then the line endings
    translated. *)
Definition read_text_locale (X : Externals) (p : Path) : M string :=
  data ← path_read_bytes X p;
  if utf8_valid data then mret (universal_newlines data)
  else raise UnicodeDecodeError.

(** [Path.write_text(text)]: the file is opened, and so emptied, before the
    text is encoded. *)
Definition write_text (X : Externals) (p : Path) (text : string) : M unit :=
  λ w, if negb (allowed X S_IWUSR (fs w) (here X p))
       then (Raise (OSError EACCES (path_str p)), w)
       else match open_wb (new_file_mode X) (fs w) (here X p) with
            | inl e => (Raise (OSError e (path_str p)), w)
            | inr (r, fs1) =>
                if utf8_valid text then (Ok tt, set_fs (write_at fs1 r text) w)
                else (Raise UnicodeEncodeError, set_fs fs1 w)
            end.

Definition mkdir (X : Externals) (p : Path) : M unit := fs_op X p mkdir_p.

Definition shutil_copy2 (X : Externals) (src dst : Path) : M unit :=
  fs_op X dst (λ f l, copy2 (new_file_mode X) f (here X src) l).

(** ** Commands (plumbum) *)

(** [local[cmd]]: a name with a slash is a path, made absolute; any other
    name is looked up on [PATH].  The absolute path is written with one
    leading slash; plumbum keeps two where the name given has exactly two. *)
Definition local_get (X : Externals) (cmd : string) : M string :=
  if contains "/" cmd || contains "\" cmd
  then mret (path_str (at_loc (here X (Path_of cmd))))
  else match which X cmd with
       | Some program => mret program
       | None => raise (CommandNotFound cmd)
       end.

(** [command(args...)]: run to the end; a return code other than 0 raises
    [ProcessExecutionError].  The program is handed the environment of the
    script as it is at the call; plumbum hands it the copy of the
    environment it made when it was imported, which lines 120-121 do not
    reach.  What is stated of a program for one environment only is to be
    read with this in mind; where it matters the statements are made for
    every environment. *)
Definition call (X : Externals) (program : string) (args : list string) (wd : loc) : M unit :=
  λ w,
    let w1 := add_log (Spawn program args (fs w)) w in
    match spawn X program args wd (env w) (fs w) with
    | Exited retcode report after =>
        if Z.eqb retcode 0 then (Ok tt, set_fs after w1)
        else (Raise (ProcessExecutionError retcode report), set_fs after w1)
    | NotStarted e => (Raise (OSError e program), w1)
    end.

(** [from plumbum.cmd import name]: the lookup happens at the import, and a
    program that is not on [PATH] makes the import fail. *)
Definition import_cmd (X : Externals) (prog : string) : M string :=
  match which X prog with
  | Some program => mret program
  | None => raise (ImportError prog)
  end.

(** ** The script *)

Definition SIZES : list Z := [16; 32; 48; 64; 128; 256].

(** [die(msg, code)]; every call of the script leaves [code] at its
    default, 1. *)
Definition die {A} (msg : string) (code : Z) : M A :=
  λ w, (Raise (SystemExit code), add_stderr (Printed msg) w).

Definition read_version_from_cargo (X : Externals) (cargo_toml : Path) : M (option obj) :=
  found ← ask (λ f, is_file f (here X cargo_toml));
  if negb found then mret None
  else
    text ← read_text X cargo_toml;
    match toml_loads X text with
    | None => raise TomlDecodeError
    | Some data =>
        match dict_get "package" data with
        | None => mret None                          (* [{}.get("version")] *)
        | Some (Table package) => mret (dict_get "version" package)
        | Some _ => raise (AttributeError "get")
        end
    end.

Definition ensure_executable (X : Externals) (path : Path) : M unit :=
  fs_op X path (λ f l, chmod_or f l S_IXALL).

Definition is_urlopen (ev : event) : bool :=
  match ev with Urlopen _ => true | _ => false end.

(** How many times [urlopen] has been called so far. *)
Definition fetches (l : list event) : nat := length (List.filter is_urlopen l).

(** One attempt, the body of the [try]:
    [with urlopen(url) as resp, target.open("wb") as out: out.write(resp.read())].
    The connection comes first, then the file is opened, then the body is
    read, then written. *)
Definition fetch_into (X : Externals) (url : string) (target : Path) : M unit :=
  λ w,
    let n := fetches (log w) in
    let w1 := add_log (Urlopen url) w in
    match urlopen X n url with
    | ConnectFails reason => (Raise (URLError reason), w1)
    | answer =>
        match open_wb (new_file_mode X) (fs w1) (here X target) with
        | inl e => (Raise (OSError e (path_str target)), w1)
        | inr (r, fs1) =>
            match answer with
            | Body data =>
                match write_fault X n with
                | None => (Ok tt, set_fs (write_at fs1 r data) w1)
                | Some k =>
                    (Raise (OSError ENOSPC (path_str target)),
                     set_fs (write_at fs1 r (String.substring 0 k data)) w1)
                end
            | ReadFails reason => (Raise (URLError reason), set_fs fs1 w1)
            | ConnectFails reason => (Raise (URLError reason), w1)
            end
        end
    end.

(** The loop [for attempt in range(1, attempts + 1)] over what is left of
    the range. *)
Fixpoint download_attempts (X : Externals) (url : string) (target : Path)
    (attempts : nat) (range : list nat) : M unit :=
  match range with
  | [] => pass
  | attempt :: rest =>
      λ w,
        match fetch_into X url target w with
        | (Ok _, w1) => (Ok tt, w1)                                  (* [break] *)
        | (Raise e, w1) =>
            if is_Exception e then
              ((if Nat.eqb attempt attempts
                then die ("Failed to download " +:+ url +:+ ": " +:+ exn_str e) 1
                else
                  print ("Download failed (attempt " +:+ decimal (Z.of_nat attempt) +:+ "/"
                         +:+ decimal (Z.of_nat attempts) +:+ "), retrying…");;
                  sleep 2);;
               download_attempts X url target attempts rest) w1
            else (Raise e, w1)
        end
  end.

Definition download_tool (X : Externals) (url : string) (target : Path) : M unit :=
  present ← ask (λ f, is_file f (here X target));
  if (present : bool) then pass
  else
    print ("Downloading " +:+ name target +:+ " from " +:+ url);;
    let attempts := 3%nat in
    download_attempts X url target attempts (seq 1 attempts);;
    ensure_executable X target.

Definition ensure_newline_at_end (X : Externals) (path : Path) : M unit :=
  found ← ask (λ f, is_file f (here X path));
  if negb found then pass
  else
    data ← path_read_bytes X path;
    if negb (String.eqb data "") && negb (endswith_newline data)
    then path_write_bytes X path (data +:+ newline)
    else pass.

(** *** The paths [main] computes *)

Definition script_dir (X : Externals) : Path := parent (at_loc (script_file X)).
(** [(script_dir / ".." / ".." / "..").resolve()] *)
Definition root_dir (X : Externals) : Path :=
  at_loc (locate [] (script_dir X // ".." // ".." // "..")).
Definition build_dir (X : Externals) : Path := root_dir X // "target".
Definition appimage_dir (X : Externals) : Path := build_dir X // "appimage".
Definition appdir (X : Externals) : Path := appimage_dir X // "AppDir".
Definition bin_path (X : Externals) : Path := build_dir X // "release" // "diskfmt".
Definition desktop_file (X : Externals) : Path := script_dir X // "diskfmt.desktop".
Definition metadata_file (X : Externals) : Path :=
  root_dir X // "packaging" // "linux" // "diskfmt.metainfo.xml".
Definition desktop_target (X : Externals) : Path :=
  appdir X // "usr/share/applications/diskfmt.desktop".

(** [f"{version}"] *)
Definition format_obj (X : Externals) (v : obj) : string :=
  match v with
  | Str s => s
  | Int z => decimal z
  | Bool b => if b then "True" else "False"
  | Table items => dict_str X items
  | Other _ shown => shown
  end.

Definition stamp_key : string := "X-AppImage-Version=".

(** [os.environ.get("OUTPUT", appimage_dir / f"diskfmt-{version}-{arch}.AppImage")] *)
Definition output_path (X : Externals) (e : gmap string string) (version : obj) (arch : string)
  : Path :=
  match e !! "OUTPUT" with
  | Some s => Path_of s
  | None => appimage_dir X // ("diskfmt-" +:+ format_obj X version +:+ "-" +:+ arch +:+ ".AppImage")
  end.

(** *** The blocks of [main], in the order of the source *)

(** Lines 97-102: the version, from [VERSION] or from [Cargo.toml]. *)
Definition resolve_version (X : Externals) : M obj :=
  override ← environ_get "VERSION";
  version ← (if truthy (Str <$> override) then mret (Str <$> override)
             else read_version_from_cargo X (root_dir X // "Cargo.toml"));
  match version with
  | Some v => if truthy (Some v) then mret v
              else die "Failed to read version from Cargo.toml" 1
  | None => die "Failed to read version from Cargo.toml" 1
  end.

(** Lines 123-134, "Tool checks". *)
Definition tool_checks (X : Externals) (icon_src : Path) : M string :=
  im_convert ← try_except (local_get X "convert")
                  (λ e, match e with CommandNotFound _ => true | _ => false end)
                  (λ _, die "ImageMagick 'convert' is required to generate icons" 1);
  found ← ask (λ f, is_file f (here X (desktop_file X)));
  (if negb found then die ("Desktop file not found: " +:+ path_str (desktop_file X)) 1 else pass);;
  found ← ask (λ f, is_file f (here X icon_src));
  (if negb found then die ("Icon not found: " +:+ path_str icon_src) 1 else pass);;
  found ← ask (λ f, is_file f (here X (metadata_file X)));
  (if negb found then die ("Metadata not found: " +:+ path_str (metadata_file X)) 1 else pass);;
  mret im_convert.

(** Lines 142-146, "Build if binary missing". *)
Definition build_if_missing (X : Externals) (cargo : string) : M unit :=
  built ← ask (λ f, is_file f (here X (bin_path X)) && access_x f (here X (bin_path X)));
  if negb built then
    print ("Building release binary (missing at " +:+ path_str (bin_path X) +:+ ")");;
    call X cargo ["build"; "--release"] (here X (root_dir X))
  else pass.

(** Lines 148-152, "Clean AppDir". *)
Definition clean_appdir (X : Externals) : M unit :=
  (λ w, (Ok tt, set_fs (rmtree_ignore_errors (rm_refused X) (fs w) (here X (appdir X))) w));;
  mkdir X (appdir X // "usr/share/applications").

(** Lines 158-162: the version stamp of the staged desktop entry. *)
Definition stamp_version (X : Externals) (version : obj) : M unit :=
  text ← read_text_locale X (desktop_target X);
  if negb (contains stamp_key text) then
    ensure_newline_at_end X (desktop_target X);;
    text ← read_text_locale X (desktop_target X);
    write_text X (desktop_target X) (text +:+ stamp_key +:+ format_obj X version +:+ newline)
  else pass.

(** Lines 154-162, "Desktop file". *)
Definition stage_desktop (X : Externals) (version : obj) : M unit :=
  shutil_copy2 X (desktop_file X) (desktop_target X);;
  stamp_version X version.

(** Lines 164-168, "Symlink". *)
Definition stage_symlink (X : Externals) : M unit :=
  let symlink := appdir X // "diskfmt.desktop" in
  there ← ask (λ f, exists_ f (here X symlink));
  (if (there : bool) then fs_op X symlink (unlink (rm_refused X)) else pass);;
  fs_op X symlink (λ f l, symlink_to f l "usr/share/applications/diskfmt.desktop").

(** Lines 170-173, "Metadata". *)
Definition stage_metadata (X : Externals) : M unit :=
  let metainfo_dir := appdir X // "usr/share/metainfo" in
  mkdir X metainfo_dir;;
  shutil_copy2 X (metadata_file X) (metainfo_dir // "diskfmt.metainfo.xml").

Definition icon_dir (X : Externals) (size : Z) : Path :=
  appdir X // ("usr/share/icons/hicolor/" +:+ decimal size +:+ "x" +:+ decimal size +:+ "/apps").

Definition resize_args (X : Externals) (icon_src : Path) (size : Z) : list string :=
  [path_str icon_src; "-resize"; decimal size +:+ "x" +:+ decimal size;
   path_str (icon_dir X size // "diskfmt.png")].

(** Lines 176-179: [for size in SIZES]. *)
Fixpoint make_icons (X : Externals) (im_convert : string) (icon_src : Path) (sizes : list Z)
  : M unit :=
  match sizes with
  | [] => pass
  | size :: rest =>
      mkdir X (icon_dir X size);;
      call X im_convert (resize_args X icon_src size) (cwd X);;
      make_icons X im_convert icon_src rest
  end.

(** Lines 175-184, "Icons". *)
Definition stage_icons (X : Externals) (im_convert : string) (icon_src : Path) : M unit :=
  make_icons X im_convert icon_src SIZES;;
  shutil_copy2 X (appdir X // "usr/share/icons/hicolor/256x256/apps/diskfmt.png")
                 (appdir X // "diskfmt.png").

Definition deploy_args (X : Externals) : list string :=
  ["--appdir"; path_str (appdir X);
   "--executable"; path_str (bin_path X);
   "--desktop-file"; path_str (desktop_target X);
   "--icon-file"; path_str (appdir X // "diskfmt.png")].

(** Lines 186-192, "linuxdeploy". *)
Definition run_linuxdeploy (X : Externals) (linuxdeploy : Path) : M unit :=
  tool ← local_get X (path_str linuxdeploy);
  call X tool (deploy_args X) (cwd X).

(** Lines 194-206, "appimagetool". *)
Definition package (X : Externals) (version : obj) (arch : string) (appimagetool : Path)
  : M unit :=
  e ← (λ w, (Ok (env w), w));
  let output := output_path X e version arch in
  mkdir X (parent output);;
  there ← ask (λ f, exists_ f (here X output));
  (if (there : bool) then fs_op X output (unlink (rm_refused X)) else pass);;
  tool ← local_get X (path_str appimagetool);
  call X tool [path_str (appdir X); path_str output] (cwd X);;
  print ("Created " +:+ path_str output).

Definition main (X : Externals) (cargo : string) : M unit :=
  icon_env ← environ_get "ICON_SRC";
  let icon_src := from_option Path_of (root_dir X // "assets" // "icon.png") icon_env in
  arch_env ← environ_get "ARCH";
  let arch := default (uname_machine X) arch_env in
  version ← resolve_version X;
  tool_env ← environ_get "LINUXDEPLOY";
  let linuxdeploy :=
    from_option Path_of (appimage_dir X // ("linuxdeploy-" +:+ arch +:+ ".AppImage")) tool_env in
  tool_env ← environ_get "APPIMAGETOOL";
  let appimagetool :=
    from_option Path_of (appimage_dir X // ("appimagetool-" +:+ arch +:+ ".AppImage")) tool_env in
  url_env ← environ_get "LINUXDEPLOY_URL";
  let linuxdeploy_url :=
    default ("https://github.com/linuxdeploy/linuxdeploy/releases/download/continuous/linuxdeploy-"
             +:+ arch +:+ ".AppImage") url_env in
  url_env ← environ_get "APPIMAGETOOL_URL";
  let appimagetool_url :=
    default ("https://github.com/AppImage/AppImageKit/releases/download/continuous/appimagetool-"
             +:+ arch +:+ ".AppImage") url_env in
  environ_set "ARCH" arch;;
  environ_setdefault "APPIMAGE_EXTRACT_AND_RUN" "1";;
  im_convert ← tool_checks X icon_src;
  mkdir X (appimage_dir X);;
  (* Download dependencies *)
  download_tool X linuxdeploy_url linuxdeploy;;
  download_tool X appimagetool_url appimagetool;;
  build_if_missing X cargo;;
  clean_appdir X;;
  stage_desktop X version;;
  stage_symlink X;;
  stage_metadata X;;
  stage_icons X im_convert icon_src;;
  run_linuxdeploy X linuxdeploy;;
  package X version arch appimagetool.

(** Lines 17-20: the imports at the top of the module look both programs
    up when the module is loaded. *)
Definition module_imports (X : Externals) : M string :=
  import_cmd X "convert";;
  import_cmd X "cargo".

(** Lines 209-213, the [__main__] block. *)
Definition script (X : Externals) : M unit :=
  cargo ← module_imports X;
  try_except (main X cargo)
    (λ e, match e with ProcessExecutionError _ _ => true | _ => false end)
    (λ e, match e with
          | ProcessExecutionError retcode _ =>
              die ("Command failed (" +:+ decimal retcode +:+ "): " +:+ exn_str e) 1
          | _ => raise e
          end).

(** The process: its exit code and the world it leaves.  An exception that
    reaches the interpreter is printed as a traceback and exits with 1;
    [SystemExit] exits with its code. *)
Definition run (X : Externals) (w : World) : Z * World :=
  match script X w with
  | (Ok _, w') => (0, w')
  | (Raise (SystemExit code), w') => (code, w')
  | (Raise e, w') => (1, add_stderr (Traceback e) w')
  end.

(** ** Vocabulary of the specification *)

(** The symbolic links of a file system: [follow] looks at nothing else. *)
Definition link_of (o : option node) : option string :=
  match o with Some (Link target) => Some target | _ => None end.

Definition same_links (f g : FS) : Prop := ∀ q, link_of (f !! q) = link_of (g !! q).

(** What [ensure_newline_at_end] makes of the bytes of a file. *)
Definition with_final_newline (data : string) : string :=
  if negb (String.eqb data "") && negb (endswith_newline data) then data +:+ newline else data.

(** The line the script adds to the desktop entry. *)
Definition stamp_line (X : Externals) (version : obj) : string :=
  stamp_key +:+ format_obj X version +:+ newline.

(** The staged desktop entry, from the bytes of the copy. *)
Definition stamped (X : Externals) (version : obj) (data : string) : string :=
  if contains stamp_key (universal_newlines data) then data
  else universal_newlines (with_final_newline data) +:+ stamp_line X version.

(** The parts of the world a computation may change. *)
Record footprint := mkFootprint {
  on_env : bool; on_fs : bool; on_stdout : bool; on_stderr : bool; on_log : bool
}.

Definition within (c : footprint) (w w' : World) : Prop :=
  (on_env c = false → env w' = env w) ∧
  (on_fs c = false → fs w' = fs w) ∧
  (on_stdout c = false → stdout w' = stdout w) ∧
  (on_stderr c = false → stderr w' = stderr w) ∧
  (on_log c = false → log w' = log w).

Definition touches {A} (c : footprint) (m : M A) : Prop := ∀ w, within c w (m w).2.

(** A computation that never raises [SystemExit]. *)
Definition never_exits {A} (m : M A) : Prop := ∀ w c, (m w).1 ≠ Raise (SystemExit c).

(** The programs a stretch of the log starts, with their arguments. *)
Definition spawns (evs : list event) : list (string * list string) :=
  flat_map (λ ev, match ev with Spawn program args _ => [(program, args)] | _ => [] end) evs.

(** A computation that adds to the log, and starts no program. *)
Definition nospawn {A} (m : M A) : Prop :=
  ∀ w, ∃ evs, log (m w).2 = log w ++ evs ∧ spawns evs = [].

(** What [main] reads from the environment. *)
Definition icon_src_of (X : Externals) (e : gmap string string) : Path :=
  from_option Path_of (root_dir X // "assets" // "icon.png") (e !! "ICON_SRC").
Definition arch_of (X : Externals) (e : gmap string string) : string :=
  default (uname_machine X) (e !! "ARCH").
Definition linuxdeploy_of (X : Externals) (e : gmap string string) : Path :=
  from_option Path_of (appimage_dir X // ("linuxdeploy-" +:+ arch_of X e +:+ ".AppImage"))
    (e !! "LINUXDEPLOY").
Definition appimagetool_of (X : Externals) (e : gmap string string) : Path :=
  from_option Path_of (appimage_dir X // ("appimagetool-" +:+ arch_of X e +:+ ".AppImage"))
    (e !! "APPIMAGETOOL").
Definition linuxdeploy_url_of (X : Externals) (e : gmap string string) : string :=
  default ("https://github.com/linuxdeploy/linuxdeploy/releases/download/continuous/linuxdeploy-"
           +:+ arch_of X e +:+ ".AppImage") (e !! "LINUXDEPLOY_URL").
Definition appimagetool_url_of (X : Externals) (e : gmap string string) : string :=
  default ("https://github.com/AppImage/AppImageKit/releases/download/continuous/appimagetool-"
           +:+ arch_of X e +:+ ".AppImage") (e !! "APPIMAGETOOL_URL").

(** [main] from line 148 on: the staging tree, then the two helper tools;
    [e] is the environment the script started with. *)
Definition staging (X : Externals) (e : gmap string string) (version : obj)
    (im_convert : string) : M unit :=
  clean_appdir X;;
  stage_desktop X version;;
  stage_symlink X;;
  stage_metadata X;;
  stage_icons X im_convert (icon_src_of X e);;
  run_linuxdeploy X (linuxdeploy_of X e);;
  package X version (arch_of X e) (appimagetool_of X e).

(** [main] from line 136 on. *)
Definition acquire (X : Externals) (cargo : string) (e : gmap string string)
    (version : obj) (im_convert : string) : M unit :=
  mkdir X (appimage_dir X);;
  download_tool X (linuxdeploy_url_of X e) (linuxdeploy_of X e);;
  download_tool X (appimagetool_url_of X e) (appimagetool_of X e);;
  build_if_missing X cargo;;
  staging X e version im_convert.

(** [main] from line 104 on, once the version is known. *)
Definition main_with_version (X : Externals) (cargo : string) (e : gmap string string)
    (version : obj) : M unit :=
  environ_set "ARCH" (arch_of X e);;
  environ_setdefault "APPIMAGE_EXTRACT_AND_RUN" "1";;
  im_convert ← tool_checks X (icon_src_of X e);
  acquire X cargo e version im_convert.

(** The environment after lines 120-121. *)
Definition child_env (X : Externals) (e : gmap string string) : gmap string string :=
  let e1 := <["ARCH" := arch_of X e]> e in
  match e1 !! "APPIMAGE_EXTRACT_AND_RUN" with
  | Some _ => e1
  | None => <["APPIMAGE_EXTRACT_AND_RUN" := "1"]> e1
  end.

(** What a call of [download_tool] may do to the file system: nothing, or
    a new file at the place its target leads to. *)
Definition wrote_tool (X : Externals) (target : Path) (f f' : FS) : Prop :=
  f' = f ∨
  ∃ r0 mode data, follow MAXSYMLINKS f (here X target) = Some r0 ∧ f !! r0 = None ∧
                  f' = <[r0 := File mode data]> f.

(** Where the downloads and the directory made for them may write. *)
Definition download_frame (X : Externals) (e : gmap string string) (f f' : FS) : Prop :=
  ∀ q, f' !! q = f !! q ∨
       q `prefix_of` here X (appimage_dir X) ∨
       follow MAXSYMLINKS f (here X (linuxdeploy_of X e)) = Some q ∨
       follow MAXSYMLINKS f (here X (appimagetool_of X e)) = Some q.

Definition fp_le (c c' : footprint) : bool :=
  implb (on_env c) (on_env c') && implb (on_fs c) (on_fs c') &&
  implb (on_stdout c) (on_stdout c') && implb (on_stderr c) (on_stderr c') &&
  implb (on_log c) (on_log c').

Definition fp_none : footprint := mkFootprint false false false false false.
Definition fp_stderr : footprint := mkFootprint false false false true false.
Definition fp_fs : footprint := mkFootprint false true false false false.
Definition fp_download : footprint := mkFootprint false true true true true.
(** The file system, the output and the log: what the script works on
    once the tools are there. *)
Definition fp_work : footprint := mkFootprint false true true false true.

(** The body the n-th call of [urlopen] delivers and the disk stores in
    full, if it does. *)
Definition delivered (X : Externals) (n : nat) (url : string) : option string :=
  match urlopen X n url, write_fault X n with
  | Body data, None => Some data
  | _, _ => None
  end.

(** Whether [target.open("wb")] succeeds. *)
Definition can_open (X : Externals) (f : FS) (target : Path) : bool :=
  match open_wb (new_file_mode X) f (here X target) with
  | inr _ => true
  | inl _ => false
  end.

(** The file system during the download of a tool that was not there at
    [f0]: as it was, or with a new file at the place the target leads to. *)
Definition tool_state (X : Externals) (target : Path) (f0 f : FS) : Prop :=
  f = f0 ∨
  ∃ r0 data, follow MAXSYMLINKS f0 (here X target) = Some r0 ∧ r0 ≠ [] ∧
             f0 !! r0 = None ∧ can_open X f0 target = true ∧
             f = <[r0 := File (new_file_mode X) data]> f0.

(** The log of [k] attempts: a pause of two seconds between one and the next. *)
Definition retry_trace (url : string) (k : nat) : list event :=
  match k with
  | O => []
  | S j => Urlopen url :: flat_map (λ _, [Sleep 2; Urlopen url]) (seq 0 j)
  end.

Definition retry_message (attempt : nat) : string :=
  "Download failed (attempt " +:+ decimal (Z.of_nat attempt) +:+ "/3), retrying…".

(** What the process makes of the way [main] ends (the [__main__] block and
    the interpreter). *)
Definition exit_of (r : res unit * World) : Z * World :=
  match r with
  | (Ok _, w') => (0, w')
  | (Raise (SystemExit code), w') => (code, w')
  | (Raise (ProcessExecutionError retcode report), w') =>
      (1, add_stderr (Printed ("Command failed (" +:+ decimal retcode +:+ "): " +:+ report)) w')
  | (Raise e, w') => (1, add_stderr (Traceback e) w')
  end.

(** The message of the first check of lines 129-134 that fails. *)
Definition missing_input (X : Externals) (f : FS) (icon_src : Path) : option string :=
  if negb (is_file f (here X (desktop_file X)))
  then Some ("Desktop file not found: " +:+ path_str (desktop_file X))
  else if negb (is_file f (here X icon_src))
  then Some ("Icon not found: " +:+ path_str icon_src)
  else if negb (is_file f (here X (metadata_file X)))
  then Some ("Metadata not found: " +:+ path_str (metadata_file X))
  else None.

(** The ways [main] ends, from the world [w] it starts in. *)
Inductive ending (X : Externals) (w : World) : res unit → World → Prop :=
| no_version :
    ending X w (Raise (SystemExit 1))
      (add_stderr (Printed "Failed to read version from Cargo.toml") w)
| manifest_unreadable (e : exn) :
    (∀ c, e ≠ SystemExit c) → ending X w (Raise e) w
| check_failed (msg : string) :
    (which X "convert" = None ∧ msg = "ImageMagick 'convert' is required to generate icons")
    ∨ (is_Some (which X "convert") ∧
       missing_input X (fs w) (icon_src_of X (env w)) = Some msg) →
    ending X w (Raise (SystemExit 1))
      (add_stderr (Printed msg) (set_env (child_env X (env w)) w))
| no_build_directory (e : errno) :
    ending X w (Raise (OSError e (path_str (appimage_dir X))))
      (set_env (child_env X (env w)) w)
| download_failed (w' : World) (url reason : string) (evs : list event) :
    stderr w' = stderr w ++ [Printed ("Failed to download " +:+ url +:+ ": " +:+ reason)] →
    log w' = log w ++ evs → spawns evs = [] →
    download_frame X (env w) (fs w) (fs w') →
    ending X w (Raise (SystemExit 1)) w'
| went_on (r : res unit) (w' : World) :
    stderr w' = stderr w → (∀ c, r ≠ Raise (SystemExit c)) →
    ending X w r w'.

(** A computation that raises [ProcessExecutionError] only for the program
    it started last, with the return code and the report of that program. *)
Definition command_errors_sound (X : Externals) {A} (m : M A) : Prop :=
  ∀ w w' retcode report,
    m w = (Raise (ProcessExecutionError retcode report), w') →
    retcode ≠ 0 ∧
    ∃ program args wd seen,
      last (log w') = Some (Spawn program args seen) ∧
      spawn X program args wd (env w') seen = Exited retcode report (fs w').

(** What the build of lines 142-146 adds to the log, from the file system
    it finds. *)
Definition build_events (X : Externals) (cargo : string) (f : FS) : list event :=
  if is_file f (here X (bin_path X)) && access_x f (here X (bin_path X)) then []
  else [Spawn cargo ["build"; "--release"] f].

(** The call of [convert] for one size: its arguments, and the directory of
    that size is there when it starts. *)
Definition resize_event (X : Externals) (im_convert : string) (icon_src : Path)
    (size : Z) (ev : event) : Prop :=
  ∃ seen, ev = Spawn im_convert (resize_args X icon_src size) seen ∧
          is_dir seen (here X (icon_dir X size)) = true.

(** A file system without the entries at and below [top]. *)
Definition outside (top : loc) (f : FS) : FS := filter (λ kv, ¬ top `prefix_of` kv.1) f.

(** The staging directory can be removed for good: it is a directory, or
    nothing is there, and the system refuses no removal below it. *)
Definition removable (X : Externals) (f : FS) : Prop :=
  (f !! here X (appdir X) = Some Dir ∨ ∀ q, here X (appdir X) `prefix_of` q → f !! q = None) ∧
  ∀ r, here X (appdir X) `prefix_of` r → is_Some (f !! r) → rm_refused X r = false.

(** The file systems the programs whose name holds [part] found when they
    were started. *)
Definition seen_by (part : string) (evs : list event) : list FS :=
  flat_map (λ ev, match ev with
                  | Spawn program _ seen => if contains part program then [seen] else []
                  | _ => []
                  end) evs.

(** The addresses a stretch of the log fetches, in order. *)
Definition fetched (evs : list event) : list string :=
  flat_map (λ ev, match ev with Urlopen url => [url] | _ => [] end) evs.

(** A computation that adds to the log, and fetches nothing. *)
Definition fetchless {A} (m : M A) : Prop :=
  ∀ w, ∃ evs, log (m w).2 = log w ++ evs ∧ fetched evs = [].

(** A start of a program, in the working directory [wd] and with the
    environment [e], that returned 0. *)
Definition returned_zero (X : Externals) (wd : loc) (e : gmap string string) (ev : event)
  : Prop :=
  ∃ program args seen report after,
    ev = Spawn program args seen ∧ spawn X program args wd e seen = Exited 0 report after.

(** A regular file is at [q] itself. *)
Definition regular (f : FS) (q : loc) : Prop :=
  ∃ mode data, node_at f q = Some (File mode data).

(** From [f] to [f'] every regular file stays one, whatever it holds. *)
Definition keeps (f f' : FS) : Prop := ∀ q, regular f q → regular f' q.

(** What the script expects of the programs it starts once the staging
    tree is made, when they return 0, whatever environment they are handed:
    [convert] has written its last argument and taken no file away; the two
    helper tools have taken no file away; the second helper tool has written
    the output. *)
Definition convert_obeys (X : Externals) (im_convert : string) (icon_src : Path) : Prop :=
  ∀ size e f report after,
    In size SIZES →
    spawn X im_convert (resize_args X icon_src size) (cwd X) e f = Exited 0 report after →
    keeps f after ∧ regular after (here X (icon_dir X size // "diskfmt.png")).

Definition helpers_keep (X : Externals) (tool1 tool2 : string) (output : Path) : Prop :=
  ∀ e f report after,
    spawn X tool1 (deploy_args X) (cwd X) e f = Exited 0 report after
    ∨ spawn X tool2 [path_str (appdir X); path_str output] (cwd X) e f
      = Exited 0 report after →
    keeps f after.

Definition packager_writes (X : Externals) (tool2 : string) (output : Path) : Prop :=
  ∀ e f report after,
    spawn X tool2 [path_str (appdir X); path_str output] (cwd X) e f = Exited 0 report after →
    is_file after (here X output) = true.
(** ** A sample repository, for the witnesses and the counterexamples *)

Definition sample_dirs (l : list loc) (f : FS) : FS := foldr (λ d acc, <[d := Dir]> acc) f l.

(** The manifest of the checkout, and one whose [package] entry is not a
    table. *)
Definition sample_manifest : string :=
  "[package]" +:+ newline +:+ "name = 'diskfmt'" +:+ newline
  +:+ "version = '1.2.3'" +:+ newline.

Definition sample_odd_manifest : string := "package = 'diskfmt'" +:+ newline.

(** What the parser makes of the two manifests; it refuses any other text. *)
Definition sample_toml (text : string) : option (list (string * obj)) :=
  if String.eqb text sample_manifest
  then Some [("package", Table [("name", Str "diskfmt"); ("version", Str "1.2.3")])]
  else if String.eqb text sample_odd_manifest
  then Some [("package", Str "diskfmt")]
  else None.

(** The sources of a checkout at [/repo], with the release binary built. *)
Definition sample_fs : FS :=
  sample_dirs
    [ ["repo"]; ["repo"; "packaging"]; ["repo"; "packaging"; "linux"];
      ["repo"; "packaging"; "linux"; "appimage"]; ["repo"; "assets"];
      ["repo"; "target"]; ["repo"; "target"; "release"] ]
    (<[ ["repo"; "packaging"; "linux"; "appimage"; "diskfmt.desktop"] :=
          File 420 "[Desktop Entry]" ]>
    (<[ ["repo"; "packaging"; "linux"; "diskfmt.metainfo.xml"] := File 420 "<component/>" ]>
    (<[ ["repo"; "assets"; "icon.png"] := File 420 "PNG" ]>
    (<[ ["repo"; "Cargo.toml"] := File 420 sample_manifest ]>
    (<[ ["repo"; "target"; "release"; "diskfmt"] := File 493 "ELF" ]> ∅))))).

(** A program that writes a file at [l], unless a directory or a symbolic
    link is there. *)
Definition sample_write (f : FS) (l : loc) (mode : Z) (data : string) : outcome :=
  match node_at f l with
  | Some Dir | Some (Link _) => Exited 1 "cannot write" f
  | _ => Exited 0 "" (<[l := File mode data]> f)
  end.

(** Programs that do what is asked of them: [convert] writes its last
    argument, [appimagetool] writes the output file, the others nothing. *)
Definition sample_spawn (program : string) (args : list string) (wd : loc)
    (e : gmap string string) (f : FS) : outcome :=
  if String.eqb program "/usr/bin/convert" then
    sample_write f (locate wd (Path_of (List.last args ""))) 420 "PNG"
  else if contains "appimagetool" program then
    sample_write f (locate wd (Path_of (List.last args ""))) 493 "AppImage"
  else Exited 0 "" f.

Definition sample_which (prog : string) : option string :=
  if String.eqb prog "convert" then Some "/usr/bin/convert"
  else if String.eqb prog "cargo" then Some "/usr/bin/cargo"
  else None.

(** Sample externals; the network and the removals the system refuses are
    left to choose. *)
Definition sample (net : nat → string → response) (refused : loc → bool) : Externals :=
  {| script_file := ["repo"; "packaging"; "linux"; "appimage"; "create_appimage.py"];
     cwd := ["repo"];
     uname_machine := "x86_64";
     which := sample_which;
     toml_loads := sample_toml;
     dict_str := λ _, "{}";
     urlopen := net;
     write_fault := λ _, None;
     spawn := sample_spawn;
     rm_refused := refused;
     new_file_mode := 420;
     superuser := false |}.

Definition net_down : nat → string → response := λ _ _, ConnectFails "timed out".
Definition net_up : nat → string → response := λ _ _, Body "tool".
(** The first two connections fail, the third delivers. *)
Definition net_flaky : nat → string → response :=
  λ n _, if (n <? 2)%nat then ConnectFails "timed out" else Body "tool".

Definition sample_X : Externals := sample net_up (λ _, false).

Definition sample_world (e : gmap string string) (f : FS) : World := mkWorld e f [] [] [].

(** A staging tree left by an earlier run. *)
Definition sample_appdir : loc := ["repo"; "target"; "appimage"; "AppDir"].

Definition sample_staged_desktop : loc :=
  sample_appdir ++ ["usr"; "share"; "applications"; "diskfmt.desktop"].

(** The first two connections fail; the third is made and breaks while the
    body is read. *)
Definition net_cut : nat → string → response :=
  λ n _, if (n <? 2)%nat then ConnectFails "timed out" else ReadFails "connection reset".

(** The checkout with the directory of the helper tools made. *)
Definition sample_ready_fs : FS := <[ ["repo"; "target"; "appimage"] := Dir ]> sample_fs.

Definition sample_linuxdeploy : loc :=
  ["repo"; "target"; "appimage"; "linuxdeploy-x86_64.AppImage"].
Definition sample_appimagetool : loc :=
  ["repo"; "target"; "appimage"; "appimagetool-x86_64.AppImage"].

(** The checkout with a staging tree left by an earlier run. *)
Definition sample_staged_fs : FS := <[ sample_appdir := Dir ]> sample_ready_fs.

(** A configuration that keeps the first helper tool in the staging tree. *)
Definition sample_env_tool_in_appdir : gmap string string :=
  {[ "LINUXDEPLOY" := "target/appimage/AppDir/linuxdeploy" ]}.

Definition sample_env_version : gmap string string := {[ "VERSION" := "1.2.3" ]}.

(** A library left by an earlier run, in a directory that lets nothing be
    removed. *)
Definition sample_stale : loc := sample_appdir ++ ["usr"; "lib"; "libold.so"].

Definition sample_stale_fs : FS :=
  <[ sample_stale := File 420 "old" ]>
    (sample_dirs [sample_appdir; sample_appdir ++ ["usr"]; sample_appdir ++ ["usr"; "lib"]]
       sample_ready_fs).

(** A first helper tool that fails with return code 3. *)
Definition sample_spawn_failing (program : string) (args : list string) (wd : loc)
    (e : gmap string string) (f : FS) : outcome :=
  if contains "linuxdeploy" program then Exited 3 "linuxdeploy: no such library" f
  else sample_spawn program args wd e f.

Definition sample_X_failing : Externals :=
  {| script_file := script_file sample_X; cwd := cwd sample_X;
     uname_machine := uname_machine sample_X; which := which sample_X;
     toml_loads := toml_loads sample_X; dict_str := dict_str sample_X;
     urlopen := urlopen sample_X; write_fault := write_fault sample_X;
     spawn := sample_spawn_failing; rm_refused := rm_refused sample_X;
     new_file_mode := new_file_mode sample_X; superuser := superuser sample_X |}.

(** The checkout with the staging tree cleaned and its first directories made. *)
Definition sample_skeleton_fs : FS :=
  sample_dirs
    [ sample_appdir; sample_appdir ++ ["usr"]; sample_appdir ++ ["usr"; "share"];
      sample_appdir ++ ["usr"; "share"; "applications"] ]
    sample_ready_fs.

(** The checkout with both helper tools downloaded. *)
Definition sample_tools_fs : FS :=
  <[ sample_linuxdeploy := File 493 "tool" ]>
    (<[ sample_appimagetool := File 493 "tool" ]> sample_ready_fs).

(** A build that fails with return code 101. *)
Definition sample_spawn_no_build (program : string) (args : list string) (wd : loc)
    (e : gmap string string) (f : FS) : outcome :=
  if String.eqb program "/usr/bin/cargo" then Exited 101 "error: could not compile" f
  else sample_spawn program args wd e f.

Definition sample_X_no_build : Externals :=
  {| script_file := script_file sample_X; cwd := cwd sample_X;
     uname_machine := uname_machine sample_X; which := which sample_X;
     toml_loads := toml_loads sample_X; dict_str := dict_str sample_X;
     urlopen := urlopen sample_X; write_fault := write_fault sample_X;
     spawn := sample_spawn_no_build; rm_refused := rm_refused sample_X;
     new_file_mode := new_file_mode sample_X; superuser := superuser sample_X |}.

(** The checkout with a manifest whose [package] entry is not a table. *)
Definition sample_odd_fs : FS :=
  <[ ["repo"; "Cargo.toml"] := File 420 sample_odd_manifest ]> sample_fs.

(** A checkout in which [target] is a file. *)
Definition sample_blocked_fs : FS :=
  <[ ["repo"; "target"] := File 420 "" ]> (delete ["repo"; "target"; "release"] 
    (delete ["repo"; "target"; "release"; "diskfmt"] sample_fs)).



(** A machine on which ImageMagick is not installed. *)
Definition sample_X_no_convert : Externals :=
  {| script_file := script_file sample_X; cwd := cwd sample_X;
     uname_machine := uname_machine sample_X;
     which := λ prog, if String.eqb prog "cargo" then Some "/usr/bin/cargo" else None;
     toml_loads := toml_loads sample_X; dict_str := dict_str sample_X;
     urlopen := urlopen sample_X; write_fault := write_fault sample_X;
     spawn := spawn sample_X; rm_refused := rm_refused sample_X;
     new_file_mode := new_file_mode sample_X; superuser := superuser sample_X |}.

(** Programs that return 0 whatever they have done: this [convert] writes
    the icon of size 256 and no other, and the helper tools write nothing. *)
Definition sample_spawn_idle (program : string) (args : list string) (wd : loc)
    (e : gmap string string) (f : FS) : outcome :=
  if String.eqb program "/usr/bin/convert" && contains "256x256" (List.last args "") then
    sample_write f (locate wd (Path_of (List.last args ""))) 420 "PNG"
  else Exited 0 "" f.

Definition sample_X_idle : Externals :=
  {| script_file := script_file sample_X; cwd := cwd sample_X;
     uname_machine := uname_machine sample_X; which := which sample_X;
     toml_loads := toml_loads sample_X; dict_str := dict_str sample_X;
     urlopen := urlopen sample_X; write_fault := write_fault sample_X;
     spawn := sample_spawn_idle; rm_refused := rm_refused sample_X;
     new_file_mode := new_file_mode sample_X; superuser := superuser sample_X |}.

(** A [convert] that cannot read the icon. *)
Definition sample_spawn_no_icons (program : string) (args : list string) (wd : loc)
    (e : gmap string string) (f : FS) : outcome :=
  if String.eqb program "/usr/bin/convert" then Exited 1 "convert: no decode delegate" f
  else sample_spawn program args wd e f.

Definition sample_X_no_icons : Externals :=
  {| script_file := script_file sample_X; cwd := cwd sample_X;
     uname_machine := uname_machine sample_X; which := which sample_X;
     toml_loads := toml_loads sample_X; dict_str := dict_str sample_X;
     urlopen := urlopen sample_X; write_fault := write_fault sample_X;
     spawn := sample_spawn_no_icons; rm_refused := rm_refused sample_X;
     new_file_mode := new_file_mode sample_X; superuser := superuser sample_X |}.

(** The staging tree with a read-only entry (mode 0o444). *)
Definition sample_readonly_fs : FS :=
  <[ sample_staged_desktop := File 292 "[Desktop Entry]" ]> sample_skeleton_fs.


(** A checkout whose desktop entry is read-only. *)
Definition sample_readonly_source_fs : FS :=
  <[ ["repo"; "packaging"; "linux"; "appimage"; "diskfmt.desktop"] :=
       File 292 "[Desktop Entry]" ]> sample_fs.
(** ** Lemmas on texts *)

Lemma app_empty_l (s : string) : "" +:+ s = s.
Proof. done. Qed.

Lemma app_String_l (c : ascii) (a s : string) : String c a +:+ s = String c (a +:+ s).
Proof. done. Qed.

Lemma app_empty_r (s : string) : s +:+ "" = s.
Proof. induction s as [|c s IH]; [done|]. by rewrite app_String_l, IH. Qed.


Lemma contains_cons (sub : string) (c : ascii) (text : string) :
  contains sub (String c text) = startswith sub (String c text) || contains sub text.
Proof. done. Qed.

Lemma startswith_app_self (a b : string) : startswith a (a +:+ b) = true.
Proof.
  induction a as [|c a IH]; [done|].
  rewrite app_String_l. cbn [startswith]. by rewrite Ascii.eqb_refl, IH.
Qed.

Lemma contains_startswith (sub text : string) :
  startswith sub text = true → contains sub text = true.
Proof. intros H. destruct text; cbn [contains]; by rewrite H. Qed.

Lemma contains_app_r (sub a b : string) : contains sub (a +:+ sub +:+ b) = true.
Proof.
  induction a as [|c a IH].
  - rewrite app_empty_l. apply contains_startswith, startswith_app_self.
  - rewrite app_String_l, contains_cons, IH. apply orb_true_r.
Qed.

Lemma no_cr_cons (c : ascii) (s : string) :
  contains (String CR "") (String c s) = false ↔ c ≠ CR ∧ contains (String CR "") s = false.
Proof.
  rewrite contains_cons. cbn [startswith]. rewrite andb_true_r, orb_false_iff.
  rewrite Ascii.eqb_neq. split; intros [? ?]; split; congruence.
Qed.

Lemma universal_newlines_cons (c : ascii) (s : string) :
  universal_newlines (String c s) =
    if Ascii.eqb c CR then
      String LF
        match s with
        | String c' rest' =>
            if Ascii.eqb c' LF then universal_newlines rest' else universal_newlines s
        | EmptyString => EmptyString
        end
    else String c (universal_newlines s).
Proof. done. Qed.

Lemma universal_newlines_no_cr_aux (n : nat) (s : string) :
  (String.length s ≤ n)%nat → contains (String CR "") (universal_newlines s) = false.
Proof.
  revert s. induction n as [|n IH]; intros s Hn.
  - destruct s; [done|simpl in Hn; lia].
  - destruct s as [|c s]; [done|]. simpl in Hn. rewrite universal_newlines_cons.
    destruct (Ascii.eqb c CR) eqn:E.
    + apply no_cr_cons. split; [done|].
      destruct s as [|c' s']; [done|]. simpl in Hn.
      destruct (Ascii.eqb c' LF); apply IH; simpl; lia.
    + apply no_cr_cons. split; [by apply Ascii.eqb_neq|]. apply IH. lia.
Qed.

Lemma universal_newlines_no_cr (s : string) :
  contains (String CR "") (universal_newlines s) = false.
Proof. by apply (universal_newlines_no_cr_aux (String.length s)). Qed.

Lemma universal_newlines_app_plain (a b : string) :
  contains (String CR "") a = false →
  universal_newlines (a +:+ b) = a +:+ universal_newlines b.
Proof.
  induction a as [|c a IH]; [done|].
  intros [Hc Ha]%no_cr_cons. rewrite !app_String_l, universal_newlines_cons.
  apply Ascii.eqb_neq in Hc. rewrite Hc. by rewrite IH.
Qed.

Lemma universal_newlines_plain (a : string) :
  contains (String CR "") a = false → universal_newlines a = a.
Proof.
  intros H. rewrite <- (app_empty_r a) at 1.
  rewrite universal_newlines_app_plain by done. apply app_empty_r.
Qed.

Lemma endswith_newline_app (s : string) : endswith_newline (s +:+ newline) = true.
Proof.
  induction s as [|c s IH]; [done|]. rewrite app_String_l.
  destruct s as [|c' s]; [done|]. rewrite app_String_l in *. exact IH.
Qed.

(** ** Lines and decoding *)

Lemma contains_char_cons (c d : ascii) (s : string) :
  contains (String c "") (String d s) = Ascii.eqb c d || contains (String c "") s.
Proof. rewrite contains_cons. cbn [startswith]. by rewrite andb_true_r. Qed.








Lemma utf8_from_app (st : utf8_state) (a b : string) :
  utf8_from st a = true → utf8_from st (a +:+ b) = utf8_from Boundary b.
Proof.
  revert st. induction a as [|c a IH]; intros st.
  - by destruct st.
  - rewrite app_String_l. cbn [utf8_from].
    destruct (utf8_step st (N_of_ascii c)) as [st'|]; [apply IH|done].
Qed.

Lemma utf8_valid_app (a b : string) :
  utf8_valid a = true → utf8_valid (a +:+ b) = utf8_valid b.
Proof. apply utf8_from_app. Qed.

(** A line feed is a character of its own: it cannot end a text whose last
    character is not complete. *)
Lemma utf8_from_newline (st : utf8_state) (a : string) :
  utf8_from st (a +:+ newline) = utf8_from st a.
Proof.
  revert st. induction a as [|c a IH]; intros st.
  - by destruct st.
  - rewrite app_String_l. cbn [utf8_from].
    destruct (utf8_step st (N_of_ascii c)) as [st'|]; [apply IH|done].
Qed.

Lemma utf8_cr (st : utf8_state) (s : string) :
  utf8_from st (String CR s) = true → st = Boundary ∧ utf8_from Boundary s = true.
Proof. by destruct st. Qed.

Lemma utf8_universal_newlines_aux (n : nat) (st : utf8_state) (s : string) :
  (String.length s ≤ n)%nat →
  utf8_from st s = true → utf8_from st (universal_newlines s) = true.
Proof.
  revert st s. induction n as [|n IH]; intros st s Hn.
  - destruct s; [done|simpl in Hn; lia].
  - destruct s as [|c s]; [done|]. simpl in Hn. rewrite universal_newlines_cons.
    destruct (Ascii.eqb c CR) eqn:E.
    + apply Ascii.eqb_eq in E as ->. intros [-> H]%utf8_cr.
      change (utf8_from Boundary (String LF ?x)) with (utf8_from Boundary x).
      destruct s as [|c' s']; [done|]. simpl in Hn.
      destruct (Ascii.eqb c' LF) eqn:E'.
      * apply Ascii.eqb_eq in E' as ->. apply IH; [lia|exact H].
      * apply IH; [simpl; lia|exact H].
    + cbn [utf8_from]. destruct (utf8_step st (N_of_ascii c)) as [st'|]; [|done].
      apply IH. lia.
Qed.

Lemma utf8_universal_newlines (s : string) :
  utf8_valid s = true → utf8_valid (universal_newlines s) = true.
Proof. by apply (utf8_universal_newlines_aux (String.length s)). Qed.



(** ** Lemmas on the file system *)

Lemma MAXSYMLINKS_eq : MAXSYMLINKS = 40%nat.
Proof. done. Qed.

(** The limit is a number to compute with, not to unfold in proofs. *)
#[global] Opaque MAXSYMLINKS.

Lemma node_at_cons (f : FS) (x : string) (l : loc) : node_at f (x :: l) = f !! (x :: l).
Proof. done. Qed.

Lemma node_at_links (f g : FS) (l : loc) :
  same_links f g → link_of (node_at f l) = link_of (node_at g l).
Proof. intros H. destruct l; [done|]. apply H. Qed.

Lemma follow_same_links (fuel : nat) (f g : FS) (l : loc) :
  same_links f g → follow fuel f l = follow fuel g l.
Proof.
  intros H. revert l. induction fuel as [|fuel IH]; intros l; simpl;
    pose proof (node_at_links f g l H) as E;
    destruct (node_at f l) as [[]|], (node_at g l) as [[]|]; simpl in E;
    try discriminate; try done.
  injection E as ->. apply IH.
Qed.

Lemma follow_not_link (fuel : nat) (f : FS) (l r : loc) :
  follow fuel f l = Some r → link_of (node_at f r) = None.
Proof.
  revert l. induction fuel as [|fuel IH]; intros l; simpl;
    destruct (node_at f l) as [[]|] eqn:E; intros H; simplify_eq; try by rewrite E.
  by eapply IH.
Qed.

Lemma same_links_refl (f : FS) : same_links f f.
Proof. done. Qed.

Lemma same_links_trans (f g h : FS) : same_links f g → same_links g h → same_links f h.
Proof. intros H1 H2 q. by rewrite H1. Qed.

Lemma same_links_insert (f : FS) (r : loc) (n : node) :
  link_of (f !! r) = None → link_of (Some n) = None → same_links f (<[r := n]> f).
Proof.
  intros H1 H2 q. destruct (decide (r = q)) as [->|Hne].
  - by rewrite lookup_insert_eq, H1, H2.
  - by rewrite lookup_insert_ne.
Qed.

Lemma follow_nonroot_lookup (f : FS) (r : loc) (n : node) :
  node_at f r = Some n → n ≠ Dir → r ≠ [] ∧ f !! r = Some n.
Proof. destruct r; simpl; intros H Hn; [by simplify_eq|done]. Qed.

Lemma stat_insert (f : FS) (l r : loc) (n : node) :
  follow MAXSYMLINKS f l = Some r → r ≠ [] → link_of (Some n) = None →
  follow MAXSYMLINKS (<[r := n]> f) l = Some r ∧ stat (<[r := n]> f) l = Some n.
Proof.
  intros Hf Hr Hn.
  assert (follow MAXSYMLINKS (<[r := n]> f) l = Some r) as E.
  { rewrite <- Hf. symmetry. apply follow_same_links, same_links_insert; [|done].
    apply follow_not_link in Hf. by destruct r. }
  split; [done|]. unfold stat. rewrite E. destruct r; [done|].
  by rewrite node_at_cons, lookup_insert_eq.
Qed.

Lemma stat_file_inv (f : FS) (l : loc) (mode : Z) (data : string) :
  stat f l = Some (File mode data) →
  ∃ r, follow MAXSYMLINKS f l = Some r ∧ r ≠ [] ∧ f !! r = Some (File mode data).
Proof.
  unfold stat. destruct (follow MAXSYMLINKS f l) as [r|] eqn:E; [|done].
  intros H. exists r. split; [done|]. by apply follow_nonroot_lookup.
Qed.

Lemma open_wb_inv (nm : Z) (f f' : FS) (l r : loc) :
  open_wb nm f l = inr (r, f') →
  follow MAXSYMLINKS f l = Some r ∧ r ≠ [] ∧
  ∃ mode, f' = <[r := File mode ""]> f ∧
          (f !! r = None ∧ mode = nm ∨ ∃ data, f !! r = Some (File mode data)).
Proof.
  unfold open_wb. destruct (follow MAXSYMLINKS f l) as [r'|] eqn:E; [|done].
  destruct (node_at f r') as [[mode data| |]|] eqn:En; try done.
  - intros H. simplify_eq. destruct (follow_nonroot_lookup _ _ _ En) as [? ?]; [done|].
    split; [done|]. split; [done|]. exists mode. split; [done|]. right. by exists data.
  - destruct (node_at f (removelast r')) as [[]|]; try done.
    intros H. simplify_eq. destruct r; [done|]. rewrite node_at_cons in En.
    split; [done|]. split; [done|]. exists nm. split; [done|]. by left.
Qed.

Lemma write_at_insert (f : FS) (r : loc) (mode : Z) (data : string) :
  write_at (<[r := File mode ""]> f) r data = <[r := File mode data]> f.
Proof. unfold write_at. by rewrite lookup_insert_eq, insert_insert_eq. Qed.

Lemma write_bytes_file (nm : Z) (f : FS) (l r : loc) (mode : Z) (old data : string) :
  follow MAXSYMLINKS f l = Some r → r ≠ [] → f !! r = Some (File mode old) →
  write_bytes nm f l data = inr (<[r := File mode data]> f).
Proof.
  intros Hf Hr Hn. unfold write_bytes, open_wb. rewrite Hf.
  destruct r; [done|]. rewrite node_at_cons, Hn. by rewrite write_at_insert.
Qed.

Lemma read_bytes_file (f : FS) (l : loc) (mode : Z) (data : string) :
  stat f l = Some (File mode data) → read_bytes f l = inr data.
Proof. unfold read_bytes. by intros ->. Qed.

(** ** Lemmas on the monad *)

Lemma bind_unfold {A B} (m : M A) (f : A → M B) (w : World) :
  (m ≫= f) w = match m w with (Ok a, w1) => f a w1 | (Raise e, w1) => (Raise e, w1) end.
Proof. done. Qed.

Lemma bind_Ok {A B} (m : M A) (f : A → M B) (w w1 : World) (a : A) :
  m w = (Ok a, w1) → (m ≫= f) w = f a w1.
Proof. intros H. by rewrite bind_unfold, H. Qed.

Lemma bind_Raise {A B} (m : M A) (f : A → M B) (w w1 : World) (e : exn) :
  m w = (Raise e, w1) → (m ≫= f) w = (Raise e, w1).
Proof. intros H. by rewrite bind_unfold, H. Qed.

Lemma set_fs_same (w : World) : set_fs (fs w) w = w.
Proof. by destruct w. Qed.

Lemma main_unfold (X : Externals) (cargo : string) (w : World) (version : obj) :
  resolve_version X w = (Ok version, w) →
  main X cargo w = main_with_version X cargo (env w) version w.
Proof.
  intros H. unfold main.
  rewrite (bind_Ok _ _ w w (env w !! "ICON_SRC")) by done.
  rewrite (bind_Ok _ _ w w (env w !! "ARCH")) by done.
  rewrite (bind_Ok _ _ _ _ _ H).
  rewrite (bind_Ok _ _ w w (env w !! "LINUXDEPLOY")) by done.
  rewrite (bind_Ok _ _ w w (env w !! "APPIMAGETOOL")) by done.
  rewrite (bind_Ok _ _ w w (env w !! "LINUXDEPLOY_URL")) by done.
  rewrite (bind_Ok _ _ w w (env w !! "APPIMAGETOOL_URL")) by done.
  done.
Qed.

Lemma main_no_version (X : Externals) (cargo : string) (w w1 : World) (e : exn) :
  resolve_version X w = (Raise e, w1) → main X cargo w = (Raise e, w1).
Proof.
  intros H. unfold main.
  rewrite (bind_Ok _ _ w w (env w !! "ICON_SRC")) by done.
  rewrite (bind_Ok _ _ w w (env w !! "ARCH")) by done.
  by rewrite (bind_Raise _ _ _ _ _ H).
Qed.

(** ** Footprints *)

Lemma within_refl (c : footprint) (w : World) : within c w w.
Proof. by repeat split. Qed.

Lemma within_trans (c : footprint) (w1 w2 w3 : World) :
  within c w1 w2 → within c w2 w3 → within c w1 w3.
Proof.
  intros (H1&H2&H3&H4&H5) (G1&G2&G3&G4&G5).
  repeat split; intros E;
    [rewrite G1|rewrite G2|rewrite G3|rewrite G4|rewrite G5]; auto.
Qed.

Lemma within_weaken (c c' : footprint) (w w' : World) :
  fp_le c c' = true → within c w w' → within c' w w'.
Proof.
  unfold fp_le. intros Hle (H1&H2&H3&H4&H5).
  repeat (apply andb_prop in Hle as [Hle ?]).
  repeat split; intros E; [apply H1|apply H2|apply H3|apply H4|apply H5];
    rewrite E in *; by match goal with |- ?b = false => destruct b end.
Qed.

Lemma touches_weaken {A} (c c' : footprint) (m : M A) :
  touches c m → fp_le c c' = true → touches c' m.
Proof. intros H Hle w. eapply within_weaken; [done|apply H]. Qed.

Lemma touches_bind {A B} (c : footprint) (m : M A) (f : A → M B) :
  touches c m → (∀ a, touches c (f a)) → touches c (m ≫= f).
Proof.
  intros Hm Hf w. rewrite bind_unfold. specialize (Hm w).
  destruct (m w) as [[a|e] w1]; [|done].
  eapply within_trans; [done|apply Hf].
Qed.

Lemma touches_ret {A} (c : footprint) (a : A) : touches c (mret a : M A).
Proof. intros w. apply within_refl. Qed.

Lemma touches_pass (c : footprint) : touches c pass.
Proof. apply touches_ret. Qed.

Lemma touches_raise {A} (c : footprint) (e : exn) : touches c (raise e : M A).
Proof. intros w. apply within_refl. Qed.

Lemma touches_try_except {A} (c : footprint) (body : M A) caught (handler : exn → M A) :
  touches c body → (∀ e, touches c (handler e)) → touches c (try_except body caught handler).
Proof.
  intros Hb Hh w. unfold try_except. specialize (Hb w).
  destruct (body w) as [[a|e] w1]; [done|]. destruct (caught e); [|done].
  eapply within_trans; [done|apply Hh].
Qed.

Ltac prim_touch :=
  let w := fresh "w" in
  intros; intros w; cbv beta delta [within]; cbn;
  repeat match goal with
         | |- context [match ?x with _ => _ end] => destruct x; cbn
         end;
  repeat split; intros; try done; congruence.

Lemma touches_die {A} (c : footprint) (msg : string) (code : Z) :
  on_stderr c = true → touches c (die msg code : M A).
Proof. unfold die. prim_touch. Qed.

Lemma touches_print (c : footprint) (msg : string) :
  on_stdout c = true → touches c (print msg).
Proof. unfold print. prim_touch. Qed.

Lemma touches_environ_get (c : footprint) (key : string) : touches c (environ_get key).
Proof. unfold environ_get. prim_touch. Qed.

Lemma touches_environ_set (c : footprint) (key value : string) :
  on_env c = true → touches c (environ_set key value).
Proof. unfold environ_set. prim_touch. Qed.

Lemma touches_environ_setdefault (c : footprint) (key value : string) :
  on_env c = true → touches c (environ_setdefault key value).
Proof. unfold environ_setdefault. prim_touch. Qed.

Lemma touches_sleep (c : footprint) (seconds : Z) : on_log c = true → touches c (sleep seconds).
Proof. unfold sleep. prim_touch. Qed.

Lemma touches_ask {A} (c : footprint) (q : FS → A) : touches c (ask q).
Proof. unfold ask. prim_touch. Qed.

Lemma touches_fs_op (c : footprint) (X : Externals) (p : Path) op :
  on_fs c = true → touches c (fs_op X p op).
Proof. unfold fs_op. prim_touch. Qed.

Lemma touches_path_read_bytes (c : footprint) (X : Externals) (p : Path) :
  touches c (path_read_bytes X p).
Proof. unfold path_read_bytes. prim_touch. Qed.

Lemma touches_read_text (c : footprint) (X : Externals) (p : Path) : touches c (read_text X p).
Proof. unfold read_text. prim_touch. Qed.

Lemma touches_local_get (c : footprint) (X : Externals) (cmd : string) :
  touches c (local_get X cmd).
Proof. unfold local_get, raise. prim_touch. Qed.

Lemma touches_import_cmd (c : footprint) (X : Externals) (prog : string) :
  touches c (import_cmd X prog).
Proof. unfold import_cmd, raise. prim_touch. Qed.

Lemma touches_call (c : footprint) (X : Externals) program args wd :
  on_fs c = true → on_log c = true → touches c (call X program args wd).
Proof. unfold call. prim_touch. Qed.

Lemma touches_fetch_into (c : footprint) (X : Externals) url target :
  on_fs c = true → on_log c = true → touches c (fetch_into X url target).
Proof. unfold fetch_into. prim_touch. Qed.

Lemma touches_path_write_bytes (c : footprint) (X : Externals) p data :
  on_fs c = true → touches c (path_write_bytes X p data).
Proof. unfold path_write_bytes, fs_op. prim_touch. Qed.

Lemma touches_read_text_locale (c : footprint) (X : Externals) (p : Path) :
  touches c (read_text_locale X p).
Proof.
  unfold read_text_locale. apply touches_bind; [apply touches_path_read_bytes|].
  intros data. destruct (utf8_valid data); [apply touches_ret|apply touches_raise].
Qed.

Lemma touches_write_text (c : footprint) (X : Externals) p text :
  on_fs c = true → touches c (write_text X p text).
Proof. unfold write_text. prim_touch. Qed.

Lemma touches_mkdir (c : footprint) (X : Externals) p : on_fs c = true → touches c (mkdir X p).
Proof. apply touches_fs_op. Qed.

Lemma touches_shutil_copy2 (c : footprint) (X : Externals) src dst :
  on_fs c = true → touches c (shutil_copy2 X src dst).
Proof. apply touches_fs_op. Qed.

Lemma touches_ensure_executable (c : footprint) (X : Externals) p :
  on_fs c = true → touches c (ensure_executable X p).
Proof. apply touches_fs_op. Qed.

Create HintDb fp.
#[export] Hint Resolve touches_ret touches_pass touches_raise touches_die touches_print
  touches_environ_get touches_environ_set touches_environ_setdefault touches_sleep
  touches_ask touches_fs_op touches_path_read_bytes touches_path_write_bytes touches_read_text
  touches_read_text_locale touches_local_get
  touches_import_cmd touches_call touches_fetch_into touches_write_text touches_mkdir
  touches_shutil_copy2 touches_ensure_executable : fp.
#[export] Hint Extern 1 (_ = true) => reflexivity : fp.

Ltac fp_step :=
  first
    [ apply touches_bind; [|intros ?]
    | apply touches_try_except; [|intros ?]
    | match goal with
      | |- touches _ (if ?b then _ else _) => destruct b
      | |- touches _ (match ?x with _ => _ end) => destruct x
      end
    | solve [auto with fp]
    | solve [eapply touches_weaken; [solve [auto with fp]|reflexivity]] ].
Ltac fp := repeat fp_step.

Lemma touches_read_version_from_cargo (X : Externals) (p : Path) :
  touches fp_none (read_version_from_cargo X p).
Proof. unfold read_version_from_cargo. fp. Qed.
#[export] Hint Resolve touches_read_version_from_cargo : fp.

Lemma touches_resolve_version (X : Externals) : touches fp_stderr (resolve_version X).
Proof. unfold resolve_version. fp. Qed.

Lemma touches_tool_checks (X : Externals) (icon_src : Path) :
  touches fp_stderr (tool_checks X icon_src).
Proof. unfold tool_checks. fp. Qed.

Lemma touches_download_attempts (X : Externals) url target attempts range :
  touches fp_download (download_attempts X url target attempts range).
Proof.
  induction range as [|attempt rest IH]; [apply touches_pass|].
  intros w. cbn [download_attempts].
  pose proof (touches_fetch_into fp_download X url target eq_refl eq_refl w) as H1.
  destruct (fetch_into X url target w) as [[[]|e] w1]; [done|].
  destruct (is_Exception e); [|done].
  eapply within_trans; [exact H1|]. revert w1 H1. intros w1 _.
  revert w1. change (touches fp_download
    ((if Nat.eqb attempt attempts
      then die ("Failed to download " +:+ url +:+ ": " +:+ exn_str e) 1
      else
        print ("Download failed (attempt " +:+ decimal (Z.of_nat attempt) +:+ "/"
               +:+ decimal (Z.of_nat attempts) +:+ "), retrying…");;
        sleep 2);;
     download_attempts X url target attempts rest)).
  fp.
Qed.
#[export] Hint Resolve touches_download_attempts : fp.

Lemma touches_download_tool (X : Externals) url target :
  touches fp_download (download_tool X url target).
Proof. unfold download_tool. fp. Qed.

Lemma touches_ensure_newline_at_end (X : Externals) p :
  touches fp_fs (ensure_newline_at_end X p).
Proof. unfold ensure_newline_at_end. fp. Qed.
#[export] Hint Resolve touches_ensure_newline_at_end : fp.

Lemma touches_stamp_version (X : Externals) version : touches fp_fs (stamp_version X version).
Proof. unfold stamp_version. fp. Qed.
#[export] Hint Resolve touches_stamp_version : fp.

Lemma touches_make_icons (X : Externals) im icon sizes :
  touches fp_work (make_icons X im icon sizes).
Proof. induction sizes as [|size rest IH]; cbn [make_icons]; fp. Qed.
#[export] Hint Resolve touches_make_icons : fp.

(** From the build on, the script leaves the error stream alone. *)
Lemma touches_build_if_missing (X : Externals) cargo : touches fp_work (build_if_missing X cargo).
Proof. unfold build_if_missing. fp. Qed.

Lemma touches_clean_appdir (X : Externals) : touches fp_fs (clean_appdir X).
Proof. unfold clean_appdir. fp. prim_touch. Qed.

Lemma touches_stage_desktop (X : Externals) version : touches fp_fs (stage_desktop X version).
Proof. unfold stage_desktop. fp. Qed.

Lemma touches_stage_symlink (X : Externals) : touches fp_fs (stage_symlink X).
Proof. unfold stage_symlink. fp. Qed.

Lemma touches_stage_metadata (X : Externals) : touches fp_fs (stage_metadata X).
Proof. unfold stage_metadata. fp. Qed.

Lemma touches_stage_icons (X : Externals) im icon : touches fp_work (stage_icons X im icon).
Proof. unfold stage_icons. fp. Qed.

Lemma touches_run_linuxdeploy (X : Externals) tool : touches fp_work (run_linuxdeploy X tool).
Proof. unfold run_linuxdeploy. fp. Qed.

Lemma touches_package (X : Externals) version arch tool :
  touches fp_work (package X version arch tool).
Proof. unfold package. fp. prim_touch. Qed.

(** ** Computations that never raise [SystemExit] *)

Lemma ne_bind {A B} (m : M A) (f : A → M B) :
  never_exits m → (∀ a, never_exits (f a)) → never_exits (m ≫= f).
Proof.
  intros Hm Hf w c. rewrite bind_unfold. specialize (Hm w c).
  destruct (m w) as [[a|e] w1]; [apply Hf|].
  simpl in *. intros [= ->]. by apply Hm.
Qed.

Lemma ne_ret {A} (a : A) : never_exits (mret a : M A).
Proof. by intros w c. Qed.

Lemma ne_pass : never_exits pass.
Proof. by intros w c. Qed.

Lemma ne_raise {A} (e : exn) : is_Exception e = true → never_exits (raise e : M A).
Proof. intros H w c. unfold raise. simpl. intros [= ->]. done. Qed.

Ltac prim_ne :=
  let w := fresh "w" in
  let c := fresh "c" in
  intros; intros w c; cbn;
  repeat match goal with
         | |- context [match ?x with _ => _ end] => destruct x; cbn
         end;
  try done.

Lemma ne_print (msg : string) : never_exits (print msg).
Proof. unfold print. prim_ne. Qed.

Lemma ne_environ_get (key : string) : never_exits (environ_get key).
Proof. unfold environ_get. prim_ne. Qed.

Lemma ne_environ_set (key value : string) : never_exits (environ_set key value).
Proof. unfold environ_set. prim_ne. Qed.

Lemma ne_environ_setdefault (key value : string) : never_exits (environ_setdefault key value).
Proof. unfold environ_setdefault. prim_ne. Qed.

Lemma ne_ask {A} (q : FS → A) : never_exits (ask q).
Proof. unfold ask. prim_ne. Qed.

Lemma ne_fs_op (X : Externals) (p : Path) op : never_exits (fs_op X p op).
Proof. unfold fs_op. prim_ne. Qed.

Lemma ne_path_read_bytes (X : Externals) (p : Path) : never_exits (path_read_bytes X p).
Proof. unfold path_read_bytes. prim_ne. Qed.

Lemma ne_read_text (X : Externals) (p : Path) : never_exits (read_text X p).
Proof. unfold read_text. prim_ne. Qed.

Lemma ne_local_get (X : Externals) (cmd : string) : never_exits (local_get X cmd).
Proof. unfold local_get, raise. prim_ne. Qed.

Lemma ne_call (X : Externals) program args wd : never_exits (call X program args wd).
Proof. unfold call. prim_ne. Qed.

Lemma ne_path_write_bytes (X : Externals) p data : never_exits (path_write_bytes X p data).
Proof. unfold path_write_bytes, fs_op. prim_ne. Qed.

Lemma ne_read_text_locale (X : Externals) (p : Path) : never_exits (read_text_locale X p).
Proof.
  unfold read_text_locale. apply ne_bind; [apply ne_path_read_bytes|].
  intros data. destruct (utf8_valid data); [apply ne_ret|by apply ne_raise].
Qed.

Lemma ne_write_text (X : Externals) p text : never_exits (write_text X p text).
Proof. unfold write_text. prim_ne. Qed.

Lemma ne_mkdir (X : Externals) p : never_exits (mkdir X p).
Proof. apply ne_fs_op. Qed.

Lemma ne_shutil_copy2 (X : Externals) src dst : never_exits (shutil_copy2 X src dst).
Proof. apply ne_fs_op. Qed.

Create HintDb ne.
#[export] Hint Resolve ne_ret ne_pass ne_print ne_environ_get ne_environ_set
  ne_environ_setdefault ne_ask ne_fs_op ne_path_read_bytes ne_path_write_bytes ne_read_text
  ne_read_text_locale ne_local_get
  ne_call ne_write_text ne_mkdir ne_shutil_copy2 : ne.
#[export] Hint Extern 1 (never_exits (raise _)) => (apply ne_raise; reflexivity) : ne.

Ltac ne_step :=
  first
    [ apply ne_bind; [|intros ?]
    | match goal with
      | |- never_exits (if ?b then _ else _) => destruct b
      | |- never_exits (match ?x with _ => _ end) => destruct x
      end
    | solve [auto with ne] ].
Ltac ne := repeat ne_step.

Lemma ne_ensure_newline_at_end (X : Externals) p : never_exits (ensure_newline_at_end X p).
Proof. unfold ensure_newline_at_end. ne. Qed.
#[export] Hint Resolve ne_ensure_newline_at_end : ne.

Lemma ne_make_icons (X : Externals) im icon sizes : never_exits (make_icons X im icon sizes).
Proof. induction sizes as [|size rest IH]; cbn [make_icons]; ne. Qed.
#[export] Hint Resolve ne_make_icons : ne.

Lemma ne_build_if_missing (X : Externals) cargo : never_exits (build_if_missing X cargo).
Proof. unfold build_if_missing. ne. Qed.

Lemma ne_clean_appdir (X : Externals) : never_exits (clean_appdir X).
Proof. unfold clean_appdir. ne. Qed.

Lemma ne_stamp_version (X : Externals) version : never_exits (stamp_version X version).
Proof. unfold stamp_version. ne. Qed.
#[export] Hint Resolve ne_stamp_version : ne.

Lemma ne_stage_desktop (X : Externals) version : never_exits (stage_desktop X version).
Proof. unfold stage_desktop. ne. Qed.

Lemma ne_stage_symlink (X : Externals) : never_exits (stage_symlink X).
Proof. unfold stage_symlink. ne. Qed.

Lemma ne_stage_metadata (X : Externals) : never_exits (stage_metadata X).
Proof. unfold stage_metadata. ne. Qed.

Lemma ne_stage_icons (X : Externals) im icon : never_exits (stage_icons X im icon).
Proof. unfold stage_icons. ne. Qed.

Lemma ne_run_linuxdeploy (X : Externals) tool : never_exits (run_linuxdeploy X tool).
Proof. unfold run_linuxdeploy. ne. Qed.

Lemma ne_package (X : Externals) version arch tool : never_exits (package X version arch tool).
Proof. unfold package. ne. all: prim_ne. Qed.

(** ** The log *)

Lemma spawns_app (a b : list event) : spawns (a ++ b) = spawns a ++ spawns b.
Proof. unfold spawns. apply flat_map_app. Qed.

Lemma nospawn_bind {A B} (m : M A) (f : A → M B) :
  nospawn m → (∀ a, nospawn (f a)) → nospawn (m ≫= f).
Proof.
  intros Hm Hf w. rewrite bind_unfold. destruct (Hm w) as (e1 & H1 & S1).
  destruct (m w) as [[a|e] w1]; [|by exists e1].
  destruct (Hf a w1) as (e2 & H2 & S2). exists (e1 ++ e2). simpl in *.
  split; [by rewrite H2, H1, app_assoc|]. by rewrite spawns_app, S1, S2.
Qed.

Lemma touches_nospawn {A} (c : footprint) (m : M A) :
  on_log c = false → touches c m → nospawn m.
Proof.
  intros Hc Hm w. exists []. split; [|done]. rewrite app_nil_r. by apply (Hm w).
Qed.

Lemma nospawn_fetch_into (X : Externals) url target : nospawn (fetch_into X url target).
Proof.
  intros w. exists [Urlopen url]. split; [|done]. unfold fetch_into.
  repeat match goal with
         | |- context [match ?x with _ => _ end] => destruct x; cbn
         end; done.
Qed.

Lemma nospawn_download_attempts (X : Externals) url target attempts range :
  nospawn (download_attempts X url target attempts range).
Proof.
  induction range as [|attempt rest IH].
  { apply (touches_nospawn fp_none); [done|apply touches_pass]. }
  intros w. cbn [download_attempts].
  destruct (nospawn_fetch_into X url target w) as (e1 & H1 & S1).
  destruct (fetch_into X url target w) as [[[]|e] w1]; [by exists e1|].
  destruct (is_Exception e); [|by exists e1].
  assert (nospawn
    ((if Nat.eqb attempt attempts
      then die ("Failed to download " +:+ url +:+ ": " +:+ exn_str e) 1
      else
        print ("Download failed (attempt " +:+ decimal (Z.of_nat attempt) +:+ "/"
               +:+ decimal (Z.of_nat attempts) +:+ "), retrying…");;
        sleep 2);;
     download_attempts X url target attempts rest)) as Hk.
  { apply nospawn_bind; [|done]. destruct (Nat.eqb attempt attempts).
    - apply (touches_nospawn fp_stderr); [done|]. by apply touches_die.
    - apply nospawn_bind; [apply (touches_nospawn (mkFootprint false false true false false));
        [done|by apply touches_print]|]. intros _ w2. by exists [Sleep 2]. }
  destruct (Hk w1) as (e2 & H2 & S2). exists (e1 ++ e2). simpl in *.
  split; [by rewrite H2, H1, app_assoc|]. by rewrite spawns_app, S1, S2.
Qed.

Lemma nospawn_download_tool (X : Externals) url target : nospawn (download_tool X url target).
Proof.
  unfold download_tool. apply nospawn_bind.
  { apply (touches_nospawn fp_none); [done|apply touches_ask]. }
  intros []. { apply (touches_nospawn fp_none); [done|apply touches_pass]. }
  apply nospawn_bind.
  { apply (touches_nospawn (mkFootprint false false true false false)); [done|].
    by apply touches_print. }
  intros _. apply nospawn_bind; [apply nospawn_download_attempts|].
  intros _. apply (touches_nospawn fp_fs); [done|]. by apply touches_ensure_executable.
Qed.

(** ** One attempt of a download *)

Lemma fetches_app (a b : list event) : fetches (a ++ b) = (fetches a + fetches b)%nat.
Proof. unfold fetches. by rewrite List.filter_app, length_app. Qed.

Lemma fetch_into_delivered (X : Externals) url target w r0 f1 data :
  open_wb (new_file_mode X) (fs w) (here X target) = inr (r0, f1) →
  delivered X (fetches (log w)) url = Some data →
  fetch_into X url target w =
    (Ok tt, set_fs (write_at f1 r0 data) (add_log (Urlopen url) w)).
Proof.
  intros Ho Hd. unfold fetch_into, delivered in *. cbn [fs add_log].
  destruct (urlopen X (fetches (log w)) url) as [| |body]; try done.
  rewrite Ho. destruct (write_fault X (fetches (log w))); [done|]. congruence.
Qed.

Lemma fetch_into_cannot_open (X : Externals) url target w err :
  open_wb (new_file_mode X) (fs w) (here X target) = inl err →
  ∃ e, fetch_into X url target w = (Raise e, add_log (Urlopen url) w) ∧ is_Exception e = true.
Proof.
  intros Ho. unfold fetch_into. cbn [fs add_log]. rewrite Ho.
  destruct (urlopen X (fetches (log w)) url); eauto.
Qed.

Lemma set_fs_add_log (ev : event) (w : World) : set_fs (fs w) (add_log ev w) = add_log ev w.
Proof. by destruct w. Qed.

Lemma fetch_into_undelivered (X : Externals) url target w :
  delivered X (fetches (log w)) url = None →
  ∃ e f, fetch_into X url target w = (Raise e, set_fs f (add_log (Urlopen url) w)) ∧
         is_Exception e = true ∧
         (f = fs w ∨ ∃ r0 f1 d, open_wb (new_file_mode X) (fs w) (here X target) = inr (r0, f1)
                               ∧ f = write_at f1 r0 d).
Proof.
  intros Hd. unfold fetch_into, delivered in *. cbn [fs add_log].
  destruct (open_wb (new_file_mode X) (fs w) (here X target)) as [err|[r0 f1]] eqn:Ho.
  - destruct (urlopen X (fetches (log w)) url); eexists _, (fs w);
      rewrite set_fs_add_log; eauto.
  - destruct (urlopen X (fetches (log w)) url) as [| |body].
    + eexists _, (fs w). rewrite set_fs_add_log. eauto.
    + eexists _, f1. split; [done|]. split; [done|]. right. exists r0, f1, "".
      split; [done|]. apply open_wb_inv in Ho as (_ & _ & mode & -> & _).
      by rewrite write_at_insert.
    + destruct (write_fault X (fetches (log w))) as [k|]; [|done].
      eexists _, _. split; [done|]. split; [done|]. right. by eexists _, _, _.
Qed.

Lemma fetch_into_inv (X : Externals) url target w r w1 :
  fetch_into X url target w = (r, w1) →
  match r with
  | Ok _ =>
      ∃ r0 f1 data, open_wb (new_file_mode X) (fs w) (here X target) = inr (r0, f1) ∧
                    delivered X (fetches (log w)) url = Some data ∧
                    w1 = set_fs (write_at f1 r0 data) (add_log (Urlopen url) w)
  | Raise e =>
      is_Exception e = true ∧
      (can_open X (fs w) target = false ∨ delivered X (fetches (log w)) url = None) ∧
      ∃ f, w1 = set_fs f (add_log (Urlopen url) w) ∧
           (f = fs w ∨ ∃ r0 f1 d, open_wb (new_file_mode X) (fs w) (here X target) = inr (r0, f1)
                                 ∧ f = write_at f1 r0 d)
  end.
Proof.
  intros H.
  destruct (open_wb (new_file_mode X) (fs w) (here X target)) as [err|[r0 f1]] eqn:Ho.
  { destruct (fetch_into_cannot_open X url target w err Ho) as (e & He & Hx).
    rewrite He in H. simplify_eq. split; [done|]. split.
    - left. unfold can_open. by rewrite Ho.
    - exists (fs w). rewrite set_fs_add_log. split; [done|]. by left. }
  destruct (delivered X (fetches (log w)) url) as [data|] eqn:Hd.
  - rewrite (fetch_into_delivered X url target w r0 f1 data Ho Hd) in H. simplify_eq.
    by exists r0, f1, data.
  - destruct (fetch_into_undelivered X url target w Hd) as (e & f & He & Hx & Hf).
    rewrite He in H. simplify_eq. split; [done|]. split; [by right|].
    exists f. split; [done|]. by rewrite Ho in Hf.
Qed.

Lemma tool_state_open (X : Externals) target f0 f r0 f1 d :
  is_file f0 (here X target) = false →
  tool_state X target f0 f →
  open_wb (new_file_mode X) f (here X target) = inr (r0, f1) →
  follow MAXSYMLINKS f0 (here X target) = Some r0 ∧ r0 ≠ [] ∧ f0 !! r0 = None ∧
  can_open X f0 target = true ∧
  write_at f1 r0 d = <[r0 := File (new_file_mode X) d]> f0.
Proof.
  intros Hnf [->|(r & data & Hf & Hr & Hn & Hc & ->)] Ho.
  - assert (can_open X f0 target = true) as Hc by (unfold can_open; by rewrite Ho).
    apply open_wb_inv in Ho as (Hf & Hr & mode & -> & [[Hn ->]|[data Hn]]).
    + by rewrite write_at_insert.
    + exfalso. unfold is_file, stat in Hnf. rewrite Hf in Hnf.
      destruct r0; [done|]. by rewrite node_at_cons, Hn in Hnf.
  - destruct (stat_insert f0 _ r (File (new_file_mode X) data) Hf Hr eq_refl) as [Hf' _].
    apply open_wb_inv in Ho as (Hf2 & _ & mode & -> & Hcase).
    rewrite Hf' in Hf2. injection Hf2 as <-.
    rewrite lookup_insert_eq in Hcase. destruct Hcase as [[? _]|[? [= <- <-]]]; [done|].
    clear Hf'. rewrite write_at_insert, insert_insert_eq. by repeat split.
Qed.

Lemma tool_state_can_open (X : Externals) target f0 f :
  tool_state X target f0 f → can_open X f target = can_open X f0 target.
Proof.
  intros [->|(r & data & Hf & Hr & Hn & Hc & ->)]; [done|]. rewrite Hc.
  destruct (stat_insert f0 _ r (File (new_file_mode X) data) Hf Hr eq_refl) as [Hf' _].
  unfold can_open, open_wb. rewrite Hf'. destruct r; [done|].
  by rewrite !node_at_cons, lookup_insert_eq.
Qed.

Lemma tool_state_step (X : Externals) target f0 f f' :
  is_file f0 (here X target) = false →
  tool_state X target f0 f →
  (f' = f ∨ ∃ r0 f1 d, open_wb (new_file_mode X) f (here X target) = inr (r0, f1)
                       ∧ f' = write_at f1 r0 d) →
  tool_state X target f0 f'.
Proof.
  intros Hnf Hs [->|(r0 & f1 & d & Ho & ->)]; [done|].
  destruct (tool_state_open X target f0 f r0 f1 d Hnf Hs Ho) as (?&?&?&?&->).
  right. by exists r0, d.
Qed.

Lemma attempt_cases (X : Externals) url target f0 w :
  is_file f0 (here X target) = false → tool_state X target f0 (fs w) →
  (∃ data r0,
      fetch_into X url target w =
        (Ok tt, set_fs (<[r0 := File (new_file_mode X) data]> f0) (add_log (Urlopen url) w)) ∧
      can_open X f0 target = true ∧ delivered X (fetches (log w)) url = Some data ∧
      follow MAXSYMLINKS f0 (here X target) = Some r0 ∧ r0 ≠ [] ∧ f0 !! r0 = None)
  ∨ (∃ e f,
      fetch_into X url target w = (Raise e, set_fs f (add_log (Urlopen url) w)) ∧
      is_Exception e = true ∧ tool_state X target f0 f ∧
      (can_open X f0 target = false ∨ delivered X (fetches (log w)) url = None)).
Proof.
  intros Hnf Hs. destruct (fetch_into X url target w) as [r w1] eqn:E.
  pose proof (fetch_into_inv X url target w r w1 E) as H. destruct r as [[]|e].
  - left. destruct H as (r0 & f1 & data & Ho & Hd & ->).
    destruct (tool_state_open X target f0 _ r0 f1 data Hnf Hs Ho) as (?&?&?&?&->).
    by exists data, r0.
  - right. destruct H as (He & Hwhy & f & -> & Hf). exists e, f.
    split; [done|]. split; [done|]. split; [by eapply tool_state_step|].
    by rewrite <- (tool_state_can_open X target f0 (fs w) Hs).
Qed.

Lemma download_attempts_break (X : Externals) url target attempts attempt rest w w1 :
  fetch_into X url target w = (Ok tt, w1) →
  download_attempts X url target attempts (attempt :: rest) w = (Ok tt, w1).
Proof. intros H. cbn [download_attempts]. by rewrite H. Qed.

Lemma download_attempts_retry (X : Externals) url target attempts attempt rest w w1 e :
  fetch_into X url target w = (Raise e, w1) → is_Exception e = true →
  Nat.eqb attempt attempts = false →
  download_attempts X url target attempts (attempt :: rest) w =
    download_attempts X url target attempts rest
      (add_log (Sleep 2)
         (add_stdout ("Download failed (attempt " +:+ decimal (Z.of_nat attempt) +:+ "/"
                      +:+ decimal (Z.of_nat attempts) +:+ "), retrying…") w1)).
Proof. intros H He Hn. cbn [download_attempts]. by rewrite H, He, Hn. Qed.

Lemma download_attempts_last (X : Externals) url target attempts rest w w1 e :
  fetch_into X url target w = (Raise e, w1) → is_Exception e = true →
  download_attempts X url target attempts (attempts :: rest) w =
    (Raise (SystemExit 1),
     add_stderr (Printed ("Failed to download " +:+ url +:+ ": " +:+ exn_str e)) w1).
Proof. intros H He. cbn [download_attempts]. by rewrite H, He, Nat.eqb_refl. Qed.

(** The three attempts of [download_tool], for a target that is not there:
    which attempt ended the loop, what was logged and printed, and what
    became of the file. *)
Lemma download_attempts_three (X : Externals) url target w0 :
  is_file (fs w0) (here X target) = false →
  ∃ k r w',
    download_attempts X url target 3 (seq 1 3) w0 = (r, w') ∧ (1 ≤ k ≤ 3)%nat ∧
    env w' = env w0 ∧
    log w' = log w0 ++ retry_trace url k ∧
    stdout w' = stdout w0 ++ map retry_message (seq 1 (k - 1)) ∧
    (∀ j, (j < k - 1)%nat →
          can_open X (fs w0) target = false ∨ delivered X (fetches (log w0) + j) url = None) ∧
    match r with
    | Ok _ =>
        can_open X (fs w0) target = true ∧ stderr w' = stderr w0 ∧
        ∃ data r0, delivered X (fetches (log w0) + (k - 1)) url = Some data ∧
                   follow MAXSYMLINKS (fs w0) (here X target) = Some r0 ∧ r0 ≠ [] ∧
                   fs w0 !! r0 = None ∧
                   fs w' = <[r0 := File (new_file_mode X) data]> (fs w0)
    | Raise e =>
        k = 3%nat ∧ e = SystemExit 1 ∧
        (can_open X (fs w0) target = false ∨ delivered X (fetches (log w0) + 2) url = None) ∧
        tool_state X target (fs w0) (fs w') ∧
        ∃ e', stderr w' = stderr w0 ++
                [Printed ("Failed to download " +:+ url +:+ ": " +:+ exn_str e')] ∧
              ∃ w2 w3, fetches (log w2) = (fetches (log w0) + 2)%nat ∧
                       tool_state X target (fs w0) (fs w2) ∧
                       fetch_into X url target w2 = (Raise e', w3) ∧
                       fs w' = fs w3
    end.
Proof.
  intros Hnf. change (seq 1 3) with [1; 2; 3]%nat.
  assert (tool_state X target (fs w0) (fs w0)) as Hs0 by by left.
  destruct (attempt_cases X url target (fs w0) w0 Hnf Hs0)
    as [(data & r0 & E & Hc & Hd & Hf & Hr & Hn)|(e1 & f1 & E1 & He1 & Hs1 & Hw1)].
  { rewrite (download_attempts_break _ _ _ _ _ _ _ _ E).
    exists 1%nat. eexists (Ok tt), _. split; [done|]. split; [lia|]. split; [done|]. split; [done|].
    split; [simpl; by rewrite app_nil_r|]. split; [intros; lia|].
    split; [done|]. split; [done|]. exists data, r0. by rewrite Nat.add_0_r. }
  rewrite (download_attempts_retry X url target 3 1 _ _ _ _ E1 He1 eq_refl).
  set (w1 := add_log (Sleep 2) (add_stdout _ _)).
  assert (fetches (log w1) = fetches (log w0) + 1)%nat as Hn1.
  { unfold w1. cbn [log add_log add_stdout set_fs]. rewrite !fetches_app.
    change (fetches [Urlopen url]) with 1%nat. change (fetches [Sleep 2]) with 0%nat. lia. }
  destruct (attempt_cases X url target (fs w0) w1 Hnf Hs1)
    as [(data & r0 & E & Hc & Hd & Hf & Hr & Hn)|(e2 & f2 & E2 & He2 & Hs2 & Hw2)].
  { rewrite (download_attempts_break _ _ _ _ _ _ _ _ E).
    exists 2%nat. eexists (Ok tt), _. split; [done|]. split; [lia|]. split; [done|].
    split; [simpl; by rewrite <- !app_assoc|]. split; [done|].
    split. { intros j Hj. assert (j = 0%nat) as -> by lia. by rewrite Nat.add_0_r. }
    split; [done|]. split; [done|]. exists data, r0.
    split; [|done]. cbn [Nat.sub]. by rewrite <- Hn1. }
  rewrite (download_attempts_retry X url target 3 2 _ _ _ _ E2 He2 eq_refl).
  set (w2 := add_log (Sleep 2) (add_stdout _ _)).
  assert (fetches (log w2) = fetches (log w0) + 2)%nat as Hn2.
  { unfold w2. cbn [log add_log add_stdout set_fs]. rewrite !fetches_app, Hn1.
    change (fetches [Urlopen url]) with 1%nat. change (fetches [Sleep 2]) with 0%nat. lia. }
  assert (∀ j, (j < 2)%nat →
    can_open X (fs w0) target = false ∨ delivered X (fetches (log w0) + j) url = None) as Hfail.
  { intros j Hj. destruct j as [|[|]]; [|rewrite <- Hn1|lia]; [by rewrite Nat.add_0_r|done]. }
  destruct (attempt_cases X url target (fs w0) w2 Hnf Hs2)
    as [(data & r0 & E & Hc & Hd & Hf & Hr & Hn)|(e3 & f3 & E3 & He3 & Hs3 & Hw3)].
  { rewrite (download_attempts_break _ _ _ _ _ _ _ _ E).
    exists 3%nat. eexists (Ok tt), _. split; [done|]. split; [lia|]. split; [done|].
    split; [simpl; by rewrite <- !app_assoc|].
    split; [simpl; by rewrite <- !app_assoc|]. split; [done|].
    split; [done|]. split; [done|]. exists data, r0. cbn [Nat.sub]. by rewrite <- Hn2. }
  rewrite (download_attempts_last _ _ _ _ _ _ _ _ E3 He3).
  exists 3%nat. eexists (Raise (SystemExit 1)), _. split; [done|]. split; [lia|]. split; [done|].
  split; [simpl; by rewrite <- !app_assoc|].
  split; [simpl; by rewrite <- !app_assoc|]. split; [done|].
  split; [done|]. split; [done|]. split; [by rewrite <- Hn2|]. split; [done|].
  exists e3. split; [done|]. by exists w2, (set_fs f3 (add_log (Urlopen url) w2)).
Qed.

Lemma chmod_or_new_file (f0 : FS) (l r0 : loc) (mode bits : Z) (data : string) :
  follow MAXSYMLINKS f0 l = Some r0 → r0 ≠ [] →
  chmod_or (<[r0 := File mode data]> f0) l bits = inr (<[r0 := File (Z.lor mode bits) data]> f0).
Proof.
  intros Hf Hr. destruct (stat_insert f0 l r0 (File mode data) Hf Hr eq_refl) as [Hf' _].
  unfold chmod_or. rewrite Hf'. destruct r0; [done|].
  by rewrite node_at_cons, lookup_insert_eq, insert_insert_eq.
Qed.

(** What [download_tool] does for a target that is not there. *)
Lemma download_tool_absent (X : Externals) url target w :
  is_file (fs w) (here X target) = false →
  ∃ k r w',
    download_tool X url target w = (r, w') ∧ (1 ≤ k ≤ 3)%nat ∧
    env w' = env w ∧
    log w' = log w ++ retry_trace url k ∧
    stdout w' = stdout w ++
      ("Downloading " +:+ name target +:+ " from " +:+ url) :: map retry_message (seq 1 (k - 1)) ∧
    (∀ j, (j < k - 1)%nat →
          can_open X (fs w) target = false ∨ delivered X (fetches (log w) + j) url = None) ∧
    match r with
    | Ok _ =>
        can_open X (fs w) target = true ∧ stderr w' = stderr w ∧
        ∃ data r0, delivered X (fetches (log w) + (k - 1)) url = Some data ∧
                   follow MAXSYMLINKS (fs w) (here X target) = Some r0 ∧ r0 ≠ [] ∧
                   fs w !! r0 = None ∧
                   fs w' = <[r0 := File (Z.lor (new_file_mode X) S_IXALL) data]> (fs w)
    | Raise e =>
        k = 3%nat ∧ e = SystemExit 1 ∧
        (can_open X (fs w) target = false ∨ delivered X (fetches (log w) + 2) url = None) ∧
        tool_state X target (fs w) (fs w') ∧
        ∃ e', stderr w' = stderr w ++
                [Printed ("Failed to download " +:+ url +:+ ": " +:+ exn_str e')] ∧
              ∃ w2 w3, fetches (log w2) = (fetches (log w) + 2)%nat ∧
                       tool_state X target (fs w) (fs w2) ∧
                       fetch_into X url target w2 = (Raise e', w3) ∧
                       fs w' = fs w3
    end.
Proof.
  intros Hnf. unfold download_tool.
  rewrite (bind_Ok _ _ w w false) by (unfold ask; by rewrite Hnf).
  set (w0 := add_stdout ("Downloading " +:+ name target +:+ " from " +:+ url) w).
  rewrite (bind_Ok _ _ w w0 tt) by done.
  destruct (download_attempts_three X url target w0 Hnf)
    as (k & r & w' & E & Hk & Henv & Hlog & Hout & Hfail & Hr).
  exists k. destruct r as [[]|e].
  - destruct Hr as (Hc & Herr & data & r0 & Hd & Hf & Hr0 & Hn & Hfs).
    rewrite (bind_Ok _ _ _ _ _ E). unfold ensure_executable, fs_op.
    fold (here X target). rewrite Hfs.
    rewrite (chmod_or_new_file _ _ _ _ _ _ Hf Hr0).
    eexists _, _. split; [done|]. split; [done|]. split; [done|]. split; [done|].
    split; [simpl; rewrite Hout; simpl; by rewrite <- app_assoc|].
    split; [done|]. split; [done|]. split; [done|]. by exists data, r0.
  - rewrite (bind_Raise _ _ _ _ _ E). exists (Raise e), w'.
    split; [done|]. split; [done|]. split; [done|]. split; [done|].
    split; [rewrite Hout; simpl; by rewrite <- app_assoc|]. done.
Qed.

Lemma download_tool_present (X : Externals) url target w :
  is_file (fs w) (here X target) = true → download_tool X url target w = (Ok tt, w).
Proof. intros H. unfold download_tool. by rewrite (bind_Ok _ _ w w true) by (unfold ask; by rewrite H). Qed.

(** ** The start of the run *)

Lemma run_import_convert (X : Externals) (w : World) :
  which X "convert" = None →
  run X w = (1, add_stderr (Traceback (ImportError "convert")) w).
Proof.
  intros H. unfold run, script, module_imports, import_cmd.
  rewrite !bind_unfold. by rewrite H.
Qed.

Lemma run_import_cargo (X : Externals) (w : World) (cv : string) :
  which X "convert" = Some cv → which X "cargo" = None →
  run X w = (1, add_stderr (Traceback (ImportError "cargo")) w).
Proof.
  intros H1 H2. unfold run, script, module_imports, import_cmd.
  rewrite !bind_unfold. by rewrite H1, H2.
Qed.

Lemma run_of_main (X : Externals) (w : World) (cv cg : string) :
  which X "convert" = Some cv → which X "cargo" = Some cg →
  run X w = exit_of (main X cg w).
Proof.
  intros H1 H2. unfold run, script, module_imports, import_cmd, try_except.
  rewrite !bind_unfold. rewrite H1, H2. simpl.
  destruct (main X cg w) as [[[]|e] w']; [done|]. by destruct e.
Qed.

Lemma read_version_from_cargo_pure (X : Externals) (p : Path) (w : World) :
  ∃ r, read_version_from_cargo X p w = (r, w) ∧ ∀ c, r ≠ Raise (SystemExit c).
Proof.
  unfold read_version_from_cargo. rewrite bind_unfold. unfold ask at 1.
  destruct (is_file (fs w) (here X p)); simpl; [|by eexists].
  rewrite bind_unfold. unfold read_text at 1.
  destruct (read_bytes (fs w) (here X p)) as [e|data]; [by eexists|].
  destruct (toml_loads X (universal_newlines data)) as [doc|]; [|by eexists].
  destruct (dict_get "package" doc) as [[]|]; by eexists.
Qed.

Lemma resolve_version_override (X : Externals) (w : World) (s : string) :
  env w !! "VERSION" = Some s → s ≠ "" → resolve_version X w = (Ok (Str s), w).
Proof.
  intros H Hs. unfold resolve_version.
  rewrite (bind_Ok _ _ w w (Some s)) by (unfold environ_get; by rewrite H).
  apply String.eqb_neq in Hs. simpl. by rewrite bind_unfold, Hs; simpl; rewrite Hs.
Qed.

Lemma resolve_version_manifest (X : Externals) (w : World) :
  env w !! "VERSION" = None ∨ env w !! "VERSION" = Some "" →
  resolve_version X w =
    match read_version_from_cargo X (root_dir X // "Cargo.toml") w with
    | (Ok version, w1) =>
        if truthy version
        then (Ok (default (Str "") version), w1)
        else (Raise (SystemExit 1),
              add_stderr (Printed "Failed to read version from Cargo.toml") w1)
    | (Raise e, w1) => (Raise e, w1)
    end.
Proof.
  intros H. unfold resolve_version.
  rewrite (bind_Ok _ _ w w (env w !! "VERSION")) by done.
  assert (truthy (Str <$> env w !! "VERSION") = false) as -> by (by destruct H as [-> | ->]).
  rewrite bind_unfold.
  destruct (read_version_from_cargo X (root_dir X // "Cargo.toml") w) as [[[v|]|e] w1]; try done.
  by destruct (truthy (Some v)).
Qed.

Lemma resolve_version_cases (X : Externals) (w : World) :
  (∃ v, resolve_version X w = (Ok v, w) ∧ truthy (Some v) = true)
  ∨ resolve_version X w =
      (Raise (SystemExit 1), add_stderr (Printed "Failed to read version from Cargo.toml") w)
  ∨ (∃ e, resolve_version X w = (Raise e, w) ∧ ∀ c, e ≠ SystemExit c).
Proof.
  destruct (env w !! "VERSION") as [s|] eqn:E.
  - destruct (decide (s = "")) as [->|Hs].
    + rewrite resolve_version_manifest by auto.
      destruct (read_version_from_cargo_pure X (root_dir X // "Cargo.toml") w) as (r & -> & Hr).
      destruct r as [v|e].
      * destruct (truthy v) eqn:Ht; [|by right; left].
        left. destruct v as [v|]; [|done]. by exists v.
      * right; right. exists e. split; [done|]. intros c ->. by eapply Hr.
    + left. exists (Str s). split; [by apply resolve_version_override|].
      simpl. by apply String.eqb_neq in Hs as ->.
  - rewrite resolve_version_manifest by auto.
    destruct (read_version_from_cargo_pure X (root_dir X // "Cargo.toml") w) as (r & -> & Hr).
    destruct r as [v|e].
    + destruct (truthy v) eqn:Ht; [|by right; left].
      left. destruct v as [v|]; [|done]. by exists v.
    + right; right. exists e. split; [done|]. intros c ->. by eapply Hr.
Qed.

Lemma tool_checks_unfold (X : Externals) (icon_src : Path) (w : World) :
  tool_checks X icon_src w =
    match which X "convert" with
    | None =>
        (Raise (SystemExit 1),
         add_stderr (Printed "ImageMagick 'convert' is required to generate icons") w)
    | Some im_convert =>
        match missing_input X (fs w) icon_src with
        | Some msg => (Raise (SystemExit 1), add_stderr (Printed msg) w)
        | None => (Ok im_convert, w)
        end
    end.
Proof.
  unfold tool_checks, missing_input. rewrite bind_unfold.
  unfold try_except, local_get, raise.
  change (contains "/" "convert") with false. change (contains "\" "convert") with false.
  cbn [orb]. destruct (which X "convert") as [im|]; [|reflexivity].
  cbv [mbind M_bind mret M_ret ask pass die].
  destruct (is_file (fs w) (here X (desktop_file X))); cbv [negb]; [|reflexivity].
  destruct (is_file (fs w) (here X icon_src)); cbv [negb]; [|reflexivity].
  destruct (is_file (fs w) (here X (metadata_file X))); reflexivity.
Qed.

(** ** Making directories *)

Lemma os_mkdir_inv (f f' : FS) (l : loc) :
  os_mkdir f l = inr f' → l ≠ [] ∧ f !! l = None ∧ f' = <[l := Dir]> f.
Proof.
  unfold os_mkdir. destruct l as [|x l]; [done|]. rewrite node_at_cons.
  destruct (f !! (x :: l)) eqn:E; [done|].
  destruct (node_at f (removelast (x :: l))) as [[]|]; try done.
  by intros [= <-].
Qed.

Lemma is_dir_insert (f : FS) (l : loc) : is_dir (<[l := Dir]> f) l = true.
Proof.
  unfold is_dir, stat. destruct l as [|x l]; [done|].
  rewrite MAXSYMLINKS_eq. cbn [follow].
  rewrite node_at_cons, lookup_insert_eq. by rewrite node_at_cons, lookup_insert_eq.
Qed.

Lemma removelast_prefix (l : loc) : removelast l `prefix_of` l.
Proof.
  destruct (decide (l = [])) as [->|Hne]; [done|].
  exists [List.last l ""]. by apply app_removelast_last.
Qed.

Lemma mkdir_parents_inv (depth : nat) (f f' : FS) (l : loc) :
  mkdir_parents depth f l = inr f' →
  is_dir f' l = true ∧
  ∀ q, f' !! q = f !! q ∨ (q `prefix_of` l ∧ f !! q = None ∧ f' !! q = Some Dir).
Proof.
  revert f f' l. induction depth as [|depth IH]; intros f f' l; cbn [mkdir_parents].
  - destruct (os_mkdir f l) as [e|f1] eqn:E.
    + destruct e; destruct (is_dir f l) eqn:Ed; try done; intros [= <-]; split; auto.
    + intros [= <-]. apply os_mkdir_inv in E as (Hl & Hn & ->).
      split; [apply is_dir_insert|]. intros q. destruct (decide (l = q)) as [<-|Hq].
      * right. by rewrite lookup_insert_eq.
      * left. by rewrite lookup_insert_ne.
  - destruct (os_mkdir f l) as [e|f1] eqn:E.
    + assert ((if is_dir f l then inr f else inl e) = inr f' →
              is_dir f' l = true ∧
              ∀ q, f' !! q = f !! q ∨ (q `prefix_of` l ∧ f !! q = None ∧ f' !! q = Some Dir))
        as Hother.
      { destruct (is_dir f l) eqn:Ed; [|done]. intros [= <-]. split; auto. }
      destruct e; try exact Hother. destruct l as [|x l]; [done|].
      destruct (mkdir_parents depth f (removelast (x :: l))) as [e|f1] eqn:E1; [done|].
      apply IH in E1 as [_ Hf1].
      assert (∀ q, f1 !! q = f !! q ∨
                   (q `prefix_of` x :: l ∧ f !! q = None ∧ f1 !! q = Some Dir)) as Hf1'.
      { intros q. destruct (Hf1 q) as [?|(Hp & ? & ?)]; [by left|right].
        split; [|done]. etrans; [done|apply removelast_prefix]. }
      destruct (os_mkdir f1 (x :: l)) as [e|f2] eqn:E2.
      * destruct (is_dir f1 (x :: l)) eqn:Ed; [|done]. intros [= <-]. by split.
      * intros [= <-]. apply os_mkdir_inv in E2 as (Hl & Hn & ->).
        split; [apply is_dir_insert|]. intros q.
        destruct (decide (x :: l = q)) as [<-|Hq].
        -- right. rewrite lookup_insert_eq. split; [done|]. split; [|done].
           destruct (Hf1' (x :: l)) as [<-|(_ & ? & ?)]; [done|congruence].
        -- rewrite lookup_insert_ne by done. apply Hf1'.
    + intros [= <-]. apply os_mkdir_inv in E as (Hl & Hn & ->).
      split; [apply is_dir_insert|]. intros q. destruct (decide (l = q)) as [<-|Hq].
      * right. by rewrite lookup_insert_eq.
      * left. by rewrite lookup_insert_ne.
Qed.

Lemma mkdir_p_inv (f f' : FS) (l : loc) :
  mkdir_p f l = inr f' →
  is_dir f' l = true ∧
  ∀ q, f' !! q = f !! q ∨ (q `prefix_of` l ∧ f !! q = None ∧ f' !! q = Some Dir).
Proof. apply mkdir_parents_inv. Qed.

Lemma mkdir_p_same_links (f f' : FS) (l : loc) : mkdir_p f l = inr f' → same_links f f'.
Proof.
  intros H q. apply mkdir_p_inv in H as [_ H].
  destruct (H q) as [->|(_ & -> & ->)]; done.
Qed.

(** ** Locations of the paths of [main] *)

Lemma climb_snoc (acc ps : list string) (c : string) :
  c ≠ ".." → climb acc (ps ++ [c]) = climb acc ps ++ [c].
Proof.
  intros Hc. revert acc. induction ps as [|p ps IH]; intros acc; cbn [climb app].
  - apply String.eqb_neq in Hc. by rewrite Hc.
  - destruct (String.eqb p ".."); apply IH.
Qed.

Lemma here_appdir (X : Externals) : here X (appdir X) = here X (appimage_dir X) ++ ["AppDir"].
Proof.
  unfold here, locate, appdir, appimage_dir, build_dir, root_dir, at_loc, joinpath. cbn.
  by apply climb_snoc.
Qed.

Lemma under_appdir_not_above (X : Externals) (q : loc) :
  here X (appdir X) `prefix_of` q → ¬ q `prefix_of` here X (appimage_dir X).
Proof.
  rewrite here_appdir. intros [k1 ->] [k2 H].
  apply (f_equal length) in H. rewrite !length_app in H. simpl in H. lia.
Qed.

(** ** The ways [main] ends *)

Lemma spawns_retry_trace (url : string) (k : nat) : spawns (retry_trace url k) = [].
Proof.
  destruct k as [|k]; [done|]. unfold retry_trace. cbn.
  induction (seq 0 k) as [|x l IH]; [done|]. cbn. by rewrite IH.
Qed.

Lemma download_tool_cases (X : Externals) url target w :
  ∃ r w' evs,
    download_tool X url target w = (r, w') ∧ log w' = log w ++ evs ∧ spawns evs = [] ∧
    wrote_tool X target (fs w) (fs w') ∧
    match r with
    | Ok _ => stderr w' = stderr w
    | Raise e =>
        e = SystemExit 1 ∧
        ∃ reason, stderr w' = stderr w ++
                    [Printed ("Failed to download " +:+ url +:+ ": " +:+ reason)]
    end.
Proof.
  destruct (is_file (fs w) (here X target)) eqn:E.
  { exists (Ok tt), w, []. rewrite (download_tool_present _ _ _ _ E), app_nil_r.
    repeat split; try done. by left. }
  destruct (download_tool_absent X url target w E)
    as (k & r & w' & -> & Hk & _ & Hlog & _ & _ & Hr).
  exists r, w', (retry_trace url k). split; [done|]. split; [done|].
  split; [apply spawns_retry_trace|]. destruct r as [[]|e].
  - destruct Hr as (_ & Herr & data & r0 & _ & Hf & _ & Hn & ->).
    split; [|done]. right. by eexists r0, _, data.
  - destruct Hr as (_ & -> & _ & Hs & e' & Herr & _). split.
    + destruct Hs as [->|(r0 & data & Hf & _ & Hn & _ & ->)]; [by left|].
      right. by eexists r0, _, data.
    + split; [done|]. by exists (exn_str e').
Qed.

Lemma wrote_tool_same_links (X : Externals) target f f' :
  wrote_tool X target f f' → same_links f f'.
Proof.
  intros [->|(r0 & mode & data & _ & Hn & ->)]; [done|].
  apply same_links_insert; [by rewrite Hn|done].
Qed.

Lemma wrote_tool_frame (X : Externals) target f0 f f' q :
  same_links f0 f → wrote_tool X target f f' →
  f' !! q = f !! q ∨ follow MAXSYMLINKS f0 (here X target) = Some q.
Proof.
  intros Hl [->|(r0 & mode & data & Hf & Hn & ->)]; [by left|].
  destruct (decide (r0 = q)) as [<-|Hq].
  - right. by rewrite (follow_same_links _ f0 f).
  - left. by rewrite lookup_insert_ne.
Qed.

Lemma main_with_version_unfold (X : Externals) (cargo : string) (version : obj) (w : World) :
  main_with_version X cargo (env w) version w =
    (im_convert ← tool_checks X (icon_src_of X (env w));
     acquire X cargo (env w) version im_convert) (set_env (child_env X (env w)) w).
Proof.
  unfold main_with_version. rewrite bind_unfold. unfold environ_set at 1.
  rewrite bind_unfold. unfold environ_setdefault at 1, child_env. cbn [env set_env].
  by destruct (<["ARCH":=arch_of X (env w)]> (env w) !! "APPIMAGE_EXTRACT_AND_RUN").
Qed.

Lemma after_downloads_calm (X : Externals) cargo e version im :
  touches fp_work (build_if_missing X cargo;; staging X e version im) ∧
  never_exits (build_if_missing X cargo;; staging X e version im).
Proof.
  split.
  - apply touches_bind; [apply touches_build_if_missing|]. intros _. unfold staging.
    apply touches_bind; [by eapply touches_weaken; [apply touches_clean_appdir|]|intros _].
    apply touches_bind; [by eapply touches_weaken; [apply touches_stage_desktop|]|intros _].
    apply touches_bind; [by eapply touches_weaken; [apply touches_stage_symlink|]|intros _].
    apply touches_bind; [by eapply touches_weaken; [apply touches_stage_metadata|]|intros _].
    apply touches_bind; [apply touches_stage_icons|intros _].
    apply touches_bind; [apply touches_run_linuxdeploy|intros _].
    apply touches_package.
  - apply ne_bind; [apply ne_build_if_missing|]. intros _. unfold staging.
    apply ne_bind; [apply ne_clean_appdir|intros _].
    apply ne_bind; [apply ne_stage_desktop|intros _].
    apply ne_bind; [apply ne_stage_symlink|intros _].
    apply ne_bind; [apply ne_stage_metadata|intros _].
    apply ne_bind; [apply ne_stage_icons|intros _].
    apply ne_bind; [apply ne_run_linuxdeploy|intros _].
    apply ne_package.
Qed.

Lemma acquire_cases (X : Externals) cargo e version im w r w' :
  acquire X cargo e version im w = (r, w') →
  (∃ err, r = Raise (OSError err (path_str (appimage_dir X))) ∧ w' = w)
  ∨ (r = Raise (SystemExit 1) ∧
     ∃ url reason evs,
        stderr w' = stderr w ++ [Printed ("Failed to download " +:+ url +:+ ": " +:+ reason)] ∧
        log w' = log w ++ evs ∧ spawns evs = [] ∧
        download_frame X e (fs w) (fs w'))
  ∨ (stderr w' = stderr w ∧ ∀ c, r ≠ Raise (SystemExit c)).
Proof.
  intros H. unfold acquire in H. rewrite bind_unfold in H.
  unfold mkdir at 1, fs_op at 1 in H. fold (here X (appimage_dir X)) in H.
  destruct (mkdir_p (fs w) (here X (appimage_dir X))) as [err|f2] eqn:Em.
  { left. exists err. by simplify_eq. }
  pose proof (mkdir_p_same_links _ _ _ Em) as Hl2.
  apply mkdir_p_inv in Em as [_ Hf2]. right.
  set (w2 := set_fs f2 w) in H.
  destruct (download_tool_cases X (linuxdeploy_url_of X e) (linuxdeploy_of X e) w2)
    as (r3 & w3 & ev3 & E3 & Hlog3 & Hsp3 & Hw3 & Hr3).
  rewrite bind_unfold, E3 in H. destruct r3 as [[]|e3].
  2:{ left. destruct Hr3 as (-> & reason & Herr). simplify_eq. split; [done|].
      exists (linuxdeploy_url_of X e), reason, ev3.
      split; [done|]. split; [done|]. split; [done|].
      intros q. destruct (wrote_tool_frame X _ (fs w) f2 (fs w') q Hl2 Hw3) as [->|?]; [|auto].
      destruct (Hf2 q) as [->|(? & _)]; auto. }
  pose proof (same_links_trans _ _ _ Hl2 (wrote_tool_same_links _ _ _ _ Hw3)) as Hl3.
  destruct (download_tool_cases X (appimagetool_url_of X e) (appimagetool_of X e) w3)
    as (r4 & w4 & ev4 & E4 & Hlog4 & Hsp4 & Hw4 & Hr4).
  rewrite bind_unfold, E4 in H. destruct r4 as [[]|e4].
  2:{ left. destruct Hr4 as (-> & reason & Herr). simplify_eq. split; [done|].
      exists (appimagetool_url_of X e), reason, (ev3 ++ ev4).
      split; [by rewrite Herr, Hr3|].
      split; [by rewrite Hlog4, Hlog3, app_assoc|].
      split; [by rewrite spawns_app, Hsp3, Hsp4|].
      intros q. destruct (wrote_tool_frame X _ (fs w) (fs w3) (fs w') q Hl3 Hw4) as [->|?]; [|auto].
      destruct (wrote_tool_frame X _ (fs w) f2 (fs w3) q Hl2 Hw3) as [->|?]; [|auto].
      destruct (Hf2 q) as [->|(? & _)]; auto. }
  right. destruct (after_downloads_calm X cargo e version im) as [Ht Hne].
  specialize (Ht w4). specialize (Hne w4). rewrite H in Ht, Hne.
  split; [|intros c; apply Hne].
  destruct Ht as (_ & _ & _ & Herr & _). simpl in Herr. rewrite Herr by done.
  by rewrite Hr4, Hr3.
Qed.

Lemma main_ending (X : Externals) (cargo : string) (w : World) :
  ending X w (main X cargo w).1 (main X cargo w).2.
Proof.
  destruct (resolve_version_cases X w) as [(v & Hv & _)|[Hv|(e & Hv & He)]].
  2:{ rewrite (main_no_version _ _ _ _ _ Hv). apply no_version. }
  2:{ rewrite (main_no_version _ _ _ _ _ Hv). by apply manifest_unreadable. }
  rewrite (main_unfold _ _ _ _ Hv), main_with_version_unfold, bind_unfold, tool_checks_unfold.
  set (w1 := set_env (child_env X (env w)) w).
  destruct (which X "convert") as [im|] eqn:Hc.
  2:{ apply check_failed. by left. }
  change (fs w1) with (fs w).
  destruct (missing_input X (fs w) (icon_src_of X (env w))) as [msg|] eqn:Hm.
  { apply check_failed. right. by split. }
  destruct (acquire X cargo (env w) v im w1) as [r w'] eqn:Ea.
  destruct (acquire_cases X cargo (env w) v im w1 r w' Ea)
    as [(err & -> & ->)|[(-> & url & reason & evs & ? & ? & ? & ?)|(? & ?)]].
  - apply no_build_directory.
  - by eapply download_failed.
  - by apply went_on.
Qed.

(** ** The version stamp *)

Lemma read_text_file (X : Externals) (p : Path) (w : World) (mode : Z) (data : string) :
  stat (fs w) (here X p) = Some (File mode data) →
  read_text X p w = (Ok (universal_newlines data), w).
Proof. intros H. unfold read_text. by rewrite (read_bytes_file _ _ _ _ H). Qed.

Lemma stamped_has_key (X : Externals) (version : obj) (data : string) :
  contains stamp_key (universal_newlines (stamped X version data)) = true.
Proof.
  unfold stamped. destruct (contains stamp_key (universal_newlines data)) eqn:E; [done|].
  rewrite universal_newlines_app_plain by apply universal_newlines_no_cr.
  unfold stamp_line.
  rewrite (universal_newlines_app_plain stamp_key) by done.
  apply contains_app_r.
Qed.

Lemma stat_of_lookup (f : FS) (l r : loc) (n : node) :
  follow MAXSYMLINKS f l = Some r → r ≠ [] → f !! r = Some n → stat f l = Some n.
Proof. intros Hf Hr Hn. unfold stat. rewrite Hf. by destruct r. Qed.

Lemma allowed_file (X : Externals) (bit : Z) (f : FS) (l : loc) (mode : Z) (data : string) :
  stat f l = Some (File mode data) → allowed X bit f l = grants X bit mode.
Proof. intros H. unfold allowed. by rewrite H. Qed.

Lemma path_read_bytes_file (X : Externals) (p : Path) (w : World) (mode : Z) (data : string) :
  stat (fs w) (here X p) = Some (File mode data) →
  path_read_bytes X p w =
    if grants X S_IRUSR mode then (Ok data, w)
    else (Raise (OSError EACCES (path_str p)), w).
Proof.
  intros H. unfold path_read_bytes. rewrite (allowed_file _ _ _ _ _ _ H).
  destruct (grants X S_IRUSR mode); [|done]. cbn [negb].
  by rewrite (read_bytes_file _ _ _ _ H).
Qed.

Lemma read_text_locale_file (X : Externals) (p : Path) (w : World) (mode : Z)
    (data : string) :
  stat (fs w) (here X p) = Some (File mode data) →
  read_text_locale X p w =
    if grants X S_IRUSR mode then
      if utf8_valid data then (Ok (universal_newlines data), w)
      else (Raise UnicodeDecodeError, w)
    else (Raise (OSError EACCES (path_str p)), w).
Proof.
  intros H. unfold read_text_locale. rewrite bind_unfold, (path_read_bytes_file _ _ _ _ _ H).
  destruct (grants X S_IRUSR mode); [|done]. by destruct (utf8_valid data).
Qed.

Lemma path_write_bytes_file (X : Externals) (p : Path) (w : World) (mode : Z)
    (old data : string) (r : loc) :
  follow MAXSYMLINKS (fs w) (here X p) = Some r → r ≠ [] →
  fs w !! r = Some (File mode old) →
  path_write_bytes X p data w =
    if grants X S_IWUSR mode
    then (Ok tt, set_fs (<[r := File mode data]> (fs w)) w)
    else (Raise (OSError EACCES (path_str p)), w).
Proof.
  intros Hf Hr Hn. unfold path_write_bytes.
  rewrite (allowed_file _ _ _ _ _ _ (stat_of_lookup _ _ _ _ Hf Hr Hn)).
  destruct (grants X S_IWUSR mode); [|done]. cbn [negb].
  unfold fs_op. fold (here X p). by rewrite (write_bytes_file _ _ _ _ _ _ _ Hf Hr Hn).
Qed.

Lemma write_text_file (X : Externals) (p : Path) (w : World) (mode : Z)
    (old text : string) (r : loc) :
  follow MAXSYMLINKS (fs w) (here X p) = Some r → r ≠ [] →
  fs w !! r = Some (File mode old) →
  write_text X p text w =
    if grants X S_IWUSR mode then
      if utf8_valid text then (Ok tt, set_fs (<[r := File mode text]> (fs w)) w)
      else (Raise UnicodeEncodeError, set_fs (<[r := File mode ""]> (fs w)) w)
    else (Raise (OSError EACCES (path_str p)), w).
Proof.
  intros Hf Hr Hn. unfold write_text.
  rewrite (allowed_file _ _ _ _ _ _ (stat_of_lookup _ _ _ _ Hf Hr Hn)).
  destruct (grants X S_IWUSR mode); [|done]. cbn [negb].
  unfold open_wb. rewrite Hf. destruct r; [done|]. rewrite node_at_cons, Hn.
  by rewrite write_at_insert.
Qed.

(** [ensure_newline_at_end] on a file: what it does is decided by the mode
    and the bytes. *)
Lemma ensure_newline_file (X : Externals) (path : Path) (w : World) (mode : Z)
    (data : string) (r : loc) :
  follow MAXSYMLINKS (fs w) (here X path) = Some r → r ≠ [] →
  fs w !! r = Some (File mode data) →
  ensure_newline_at_end X path w =
    if grants X S_IRUSR mode then
      if negb (String.eqb data "") && negb (endswith_newline data) then
        if grants X S_IWUSR mode
        then (Ok tt, set_fs (<[r := File mode (data +:+ newline)]> (fs w)) w)
        else (Raise (OSError EACCES (path_str path)), w)
      else (Ok tt, w)
    else (Raise (OSError EACCES (path_str path)), w).
Proof.
  intros Hf Hr Hn. pose proof (stat_of_lookup _ _ _ _ Hf Hr Hn) as Hs.
  unfold ensure_newline_at_end.
  rewrite bind_unfold. unfold ask at 1, is_file. rewrite Hs. cbn [negb].
  rewrite bind_unfold, (path_read_bytes_file _ _ _ _ _ Hs).
  destruct (grants X S_IRUSR mode); [|done].
  destruct (negb (String.eqb data "") && negb (endswith_newline data)); [|done].
  apply (path_write_bytes_file _ _ _ _ _ _ _ Hf Hr Hn).
Qed.

Lemma utf8_with_final_newline (data : string) :
  utf8_valid (with_final_newline data) = utf8_valid data.
Proof.
  unfold with_final_newline.
  destruct (negb (String.eqb data "") && negb (endswith_newline data)); [|done].
  apply utf8_from_newline.
Qed.

Lemma utf8_stamped_text (X : Externals) (version : obj) (text : string) :
  utf8_valid text = true →
  utf8_valid (text +:+ stamp_key +:+ format_obj X version +:+ newline)
  = utf8_valid (format_obj X version).
Proof.
  intros H. rewrite (utf8_valid_app _ _ H).
  rewrite (utf8_valid_app stamp_key) by reflexivity. apply utf8_from_newline.
Qed.

(** The version stamp on a staged entry that is a file: what lines 158-162
    do is decided by the mode and the bytes of the file and by the
    version. *)
Lemma stamp_version_file (X : Externals) (version : obj) (w : World) (mode : Z)
    (data : string) (r : loc) :
  follow MAXSYMLINKS (fs w) (here X (desktop_target X)) = Some r → r ≠ [] →
  fs w !! r = Some (File mode data) →
  stamp_version X version w =
    if negb (grants X S_IRUSR mode)
    then (Raise (OSError EACCES (path_str (desktop_target X))), w)
    else if negb (utf8_valid data) then (Raise UnicodeDecodeError, w)
    else if contains stamp_key (universal_newlines data) then (Ok tt, w)
    else if negb (grants X S_IWUSR mode)
    then (Raise (OSError EACCES (path_str (desktop_target X))), w)
    else if utf8_valid (format_obj X version)
    then (Ok tt, set_fs (<[r := File mode (stamped X version data)]> (fs w)) w)
    else (Raise UnicodeEncodeError, set_fs (<[r := File mode ""]> (fs w)) w).
Proof.
  intros Hf Hr Hn. pose proof (stat_of_lookup _ _ _ _ Hf Hr Hn) as Hs.
  unfold stamp_version. rewrite bind_unfold, (read_text_locale_file _ _ _ _ _ Hs).
  destruct (grants X S_IRUSR mode) eqn:Hrd; [|done]. cbn [negb].
  destruct (utf8_valid data) eqn:Hv; [|done]. cbn [negb].
  unfold stamped.
  destruct (contains stamp_key (universal_newlines data)) eqn:Hk; [done|]. cbn [negb].
  rewrite bind_unfold, (ensure_newline_file _ _ _ _ _ _ Hf Hr Hn), Hrd.
  set (w1 := set_fs (<[r := File mode (with_final_newline data)]> (fs w)) w).
  destruct (grants X S_IWUSR mode) eqn:Hwr; cbn [negb].
  2:{ destruct (negb (String.eqb data "") && negb (endswith_newline data)); [done|].
      rewrite bind_unfold, (read_text_locale_file _ _ _ _ _ Hs), Hrd, Hv.
      by rewrite (write_text_file _ _ _ _ _ _ _ Hf Hr Hn), Hwr. }
  assert ((if negb (String.eqb data "") && negb (endswith_newline data)
           then (Ok tt, set_fs (<[r := File mode (data +:+ newline)]> (fs w)) w)
           else (Ok tt, w)) = (Ok tt, w1)) as ->.
  { unfold w1, with_final_newline.
    destruct (negb (String.eqb data "") && negb (endswith_newline data)); [done|].
    by rewrite insert_id, set_fs_same. }
  destruct (stat_insert (fs w) _ r (File mode (with_final_newline data)) Hf Hr eq_refl)
    as [Hf1 Hs1].
  rewrite bind_unfold, (read_text_locale_file X _ w1 mode _ Hs1), Hrd.
  rewrite utf8_with_final_newline, Hv.
  rewrite (write_text_file X _ w1 mode (with_final_newline data) _ r Hf1 Hr)
    by apply lookup_insert_eq.
  rewrite Hwr. unfold stamp_line.
  rewrite utf8_stamped_text
    by (apply utf8_universal_newlines; by rewrite utf8_with_final_newline).
  unfold w1. cbn [fs set_fs]. rewrite !insert_insert_eq.
  by destruct (utf8_valid (format_obj X version)).
Qed.

Lemma stamp_version_ok_inv (X : Externals) (version : obj) (w w' : World) (mode : Z)
    (data : string) (r : loc) :
  follow MAXSYMLINKS (fs w) (here X (desktop_target X)) = Some r → r ≠ [] →
  fs w !! r = Some (File mode data) →
  stamp_version X version w = (Ok tt, w') →
  w' = set_fs (<[r := File mode (stamped X version data)]> (fs w)) w ∧
  grants X S_IRUSR mode = true ∧ utf8_valid data = true ∧
  (contains stamp_key (universal_newlines data) = true ∧ w' = w
   ∨ contains stamp_key (universal_newlines data) = false ∧
     grants X S_IWUSR mode = true ∧ utf8_valid (format_obj X version) = true).
Proof.
  intros Hf Hr Hn. rewrite (stamp_version_file X version w mode data r Hf Hr Hn).
  unfold stamped.
  destruct (grants X S_IRUSR mode); [|done]. destruct (utf8_valid data); [|done].
  destruct (contains stamp_key (universal_newlines data)); cbn [negb].
  { intros [= <-]. rewrite insert_id, set_fs_same by done. split; [done|]. auto. }
  destruct (grants X S_IWUSR mode); [|done].
  destruct (utf8_valid (format_obj X version)); [|done].
  cbn [negb]. intros [= <-]. split; [done|]. split; [done|]. split; [done|]. by right.
Qed.


Lemma with_final_newline_ends (data : string) :
  with_final_newline data = "" ∨ endswith_newline (with_final_newline data) = true.
Proof.
  unfold with_final_newline. destruct (String.eqb data "") eqn:E; cbn [negb andb].
  - left. by apply String.eqb_eq.
  - destruct (endswith_newline data) eqn:E2; cbn [negb]; [by right|].
    right. apply endswith_newline_app.
Qed.
Lemma fetch_into_connect_fails (X : Externals) url target w reason :
  urlopen X (fetches (log w)) url = ConnectFails reason →
  fetch_into X url target w = (Raise (URLError reason), add_log (Urlopen url) w).
Proof. intros H. unfold fetch_into. by rewrite H. Qed.

(** When no connection is made, the three attempts leave the file system
    as it was. *)
Lemma download_tool_offline (X : Externals) url target w :
  is_file (fs w) (here X target) = false →
  (∀ j, (j < 3)%nat → ∃ reason, urlopen X (fetches (log w) + j) url = ConnectFails reason) →
  ∃ w', download_tool X url target w = (Raise (SystemExit 1), w') ∧ fs w' = fs w.
Proof.
  intros Hnf Hall. unfold download_tool.
  rewrite (bind_Ok _ _ w w false) by (unfold ask; by rewrite Hnf).
  set (w0 := add_stdout ("Downloading " +:+ name target +:+ " from " +:+ url) w).
  rewrite (bind_Ok _ _ w w0 tt) by done.
  destruct (Hall 0%nat) as [r1 H1]; [lia|]. rewrite Nat.add_0_r in H1.
  destruct (Hall 1%nat) as [r2 H2]; [lia|].
  destruct (Hall 2%nat) as [r3 H3]; [lia|].
  change (seq 1 3) with [1; 2; 3]%nat.
  eexists. split.
  - apply bind_Raise.
    rewrite (download_attempts_retry X url target 3 1 _ w0 _ _
               (fetch_into_connect_fails X url target w0 r1 H1) eq_refl eq_refl).
    set (w1 := add_log (Sleep 2) _).
    assert (fetches (log w1) = fetches (log w) + 1)%nat as Hn1.
    { unfold w1. cbn [log add_log add_stdout]. rewrite !fetches_app.
      change (fetches [Urlopen url]) with 1%nat. change (fetches [Sleep 2]) with 0%nat.
      unfold w0. cbn [log add_stdout]. lia. }
    rewrite <- Hn1 in H2.
    rewrite (download_attempts_retry X url target 3 2 _ w1 _ _
               (fetch_into_connect_fails X url target w1 r2 H2) eq_refl eq_refl).
    set (w2 := add_log (Sleep 2) _).
    assert (fetches (log w2) = fetches (log w) + 2)%nat as Hn2.
    { unfold w2. cbn [log add_log add_stdout]. rewrite !fetches_app, Hn1.
      change (fetches [Urlopen url]) with 1%nat. change (fetches [Sleep 2]) with 0%nat. lia. }
    rewrite <- Hn2 in H3.
    apply (download_attempts_last X url target 3 _ w2 _ _
             (fetch_into_connect_fails X url target w2 r3 H3) eq_refl).
  - reflexivity.
Qed.

Lemma tool_state_frame (X : Externals) target f0 f q mode data :
  tool_state X target f0 f → f !! q = Some (File mode data) →
  f0 !! q = Some (File mode data) ∨ (f0 !! q = None ∧ mode = new_file_mode X).
Proof.
  intros [->|(r0 & d & _ & _ & Hn & _ & ->)] H; [by left|].
  destruct (decide (r0 = q)) as [<-|Hq].
  - rewrite lookup_insert_eq in H. right. split; [done|]. congruence.
  - rewrite lookup_insert_ne in H by done. by left.
Qed.

(** What stays of a last attempt that connected and then failed. *)
Lemma last_attempt_leaves_file (X : Externals) url target f0 w2 e w3 :
  is_file f0 (here X target) = false →
  tool_state X target f0 (fs w2) → can_open X f0 target = true →
  (∀ reason, urlopen X (fetches (log w2)) url ≠ ConnectFails reason) →
  fetch_into X url target w2 = (Raise e, w3) →
  ∃ r0 data,
    follow MAXSYMLINKS f0 (here X target) = Some r0 ∧ r0 ≠ [] ∧ f0 !! r0 = None ∧
    fs w3 = <[r0 := File (new_file_mode X) data]> f0 ∧
    match urlopen X (fetches (log w2)) url with
    | ReadFails _ => data = ""
    | Body body =>
        ∃ k, write_fault X (fetches (log w2)) = Some k ∧ data = String.substring 0 k body
    | ConnectFails _ => False
    end.
Proof.
  intros Hnf Hs Hc Hconn H. unfold fetch_into in H. cbn [fs add_log] in H.
  rewrite <- (tool_state_can_open X target f0 (fs w2) Hs) in Hc. unfold can_open in Hc.
  destruct (open_wb (new_file_mode X) (fs w2) (here X target)) as [err|[r0 f1]] eqn:Ho; [done|].
  destruct (urlopen X (fetches (log w2)) url) as [reason|reason|body] eqn:Hu.
  - by destruct (Hconn reason).
  - simplify_eq. exists r0, "".
    destruct (tool_state_open X target f0 _ r0 f1 "" Hnf Hs Ho) as (?&?&?&_&Hw).
    split; [done|]. split; [done|]. split; [done|]. split; [|done].
    cbn [fs set_fs]. rewrite <- Hw.
    apply open_wb_inv in Ho as (_ & _ & mode & -> & _). by rewrite write_at_insert.
  - destruct (write_fault X (fetches (log w2))) as [k|] eqn:Hk; [|done]. simplify_eq.
    exists r0, (String.substring 0 k body).
    destruct (tool_state_open X target f0 _ r0 f1 (String.substring 0 k body) Hnf Hs Ho)
      as (?&?&?&_&Hw).
    split; [done|]. split; [done|]. split; [done|]. split; [done|]. by exists k.
Qed.
Lemma download_two_failures_then_success (X : Externals) url target w data :
  is_file (fs w) (here X target) = false →
  can_open X (fs w) target = true →
  delivered X (fetches (log w)) url = None →
  delivered X (fetches (log w) + 1) url = None →
  delivered X (fetches (log w) + 2) url = Some data →
  ∃ w' r0,
    download_tool X url target w = (Ok tt, w') ∧ stderr w' = stderr w ∧
    log w' = log w ++ [Urlopen url; Sleep 2; Urlopen url; Sleep 2; Urlopen url] ∧
    follow MAXSYMLINKS (fs w) (here X target) = Some r0 ∧
    fs w' = <[r0 := File (Z.lor (new_file_mode X) S_IXALL) data]> (fs w).
Proof.
  intros Hnf Hc H0 H1 H2.
  destruct (download_tool_absent X url target w Hnf)
    as (k & r & w' & E & Hk & _ & Hlog & _ & Hfail & Hr).
  destruct r as [[]|e].
  - destruct Hr as (_ & Herr & d & r0 & Hd & Hf & _ & _ & Hfs).
    assert (k = 3%nat) as ->.
    { destruct k as [|[|[|[|]]]]; try lia; cbn [Nat.sub] in Hd.
      - rewrite Nat.add_0_r in Hd. congruence.
      - congruence. }
    cbn [Nat.sub] in Hd. assert (d = data) as -> by congruence.
    by exists w', r0.
  - destruct Hr as (_ & _ & [Hx|Hx] & _); congruence.
Qed.

Lemma download_three_failures (X : Externals) url target w :
  is_file (fs w) (here X target) = false →
  can_open X (fs w) target = false
  ∨ (delivered X (fetches (log w)) url = None ∧
     delivered X (fetches (log w) + 1) url = None ∧
     delivered X (fetches (log w) + 2) url = None) →
  ∃ w' reason,
    download_tool X url target w = (Raise (SystemExit 1), w') ∧
    stderr w' = stderr w ++ [Printed ("Failed to download " +:+ url +:+ ": " +:+ reason)] ∧
    log w' = log w ++ [Urlopen url; Sleep 2; Urlopen url; Sleep 2; Urlopen url].
Proof.
  intros Hnf Hall.
  destruct (download_tool_absent X url target w Hnf)
    as (k & r & w' & E & Hk & _ & Hlog & _ & Hfail & Hr).
  destruct r as [[]|e].
  - destruct Hr as (Hc & _ & d & r0 & Hd & _). exfalso.
    destruct Hall as [?|(H0 & H1 & H2)]; [congruence|].
    destruct k as [|[|[|[|]]]]; try lia; cbn [Nat.sub] in Hd; try congruence.
    rewrite Nat.add_0_r in Hd. congruence.
  - destruct Hr as (-> & -> & _ & _ & e' & Herr & _). by exists w', (exn_str e').
Qed.

Lemma pair_of_fst {A B} (p : A * B) (a : A) : p.1 = a → p = (a, p.2).
Proof. destruct p. simpl. by intros ->. Qed.
(** ** The run, from its last error line *)

Lemma app_inj_last {A} (l : list A) (x y : A) : l ++ [x] = l ++ [y] → x = y.
Proof. intros H. apply app_inv_head in H. by injection H. Qed.

Lemma app_last_ne {A} (l : list A) (x : A) : l ≠ l ++ [x].
Proof.
  intros H. apply (f_equal length) in H. rewrite length_app in H. simpl in H. lia.
Qed.

Lemma missing_input_head (X : Externals) (f : FS) (icon_src : Path) (msg : string) :
  missing_input X f icon_src = Some msg → String.get 0 msg ≠ Some "F"%char.
Proof.
  unfold missing_input.
  repeat (destruct (negb _); [intros [= <-]; lazy; discriminate|]). done.
Qed.

Lemma failed_download_head (url reason : string) :
  String.get 0 ("Failed to download " +:+ url +:+ ": " +:+ reason) = Some "F"%char ∧
  String.get 10 ("Failed to download " +:+ url +:+ ": " +:+ reason) = Some "d"%char.
Proof. split; reflexivity. Qed.

Lemma main_reaches_acquire (X : Externals) (cargo im : string) (w : World) (version : obj) :
  which X "convert" = Some im →
  resolve_version X w = (Ok version, w) →
  missing_input X (fs w) (icon_src_of X (env w)) = None →
  main X cargo w = acquire X cargo (env w) version im (set_env (child_env X (env w)) w).
Proof.
  intros Hc Hv Hm.
  rewrite (main_unfold _ _ _ _ Hv), main_with_version_unfold, bind_unfold, tool_checks_unfold.
  rewrite Hc. change (fs (set_env (child_env X (env w)) w)) with (fs w). by rewrite Hm.
Qed.

Lemma run_failed_download (X : Externals) (w w' : World) (code : Z) (url reason : string) :
  run X w = (code, w') →
  stderr w' = stderr w ++ [Printed ("Failed to download " +:+ url +:+ ": " +:+ reason)] →
  code = 1 ∧ (∃ evs, log w' = log w ++ evs ∧ spawns evs = []) ∧
  download_frame X (env w) (fs w) (fs w').
Proof.
  intros Hrun Herr.
  destruct (failed_download_head url reason) as [H0 H10].
  set (line := "Failed to download " +:+ url +:+ ": " +:+ reason) in *. clearbody line.
  destruct (which X "convert") as [cv|] eqn:Hcv.
  2:{ rewrite (run_import_convert _ _ Hcv) in Hrun. injection Hrun as <- <-.
      simpl in Herr. by apply app_inj_last in Herr. }
  destruct (which X "cargo") as [cg|] eqn:Hcg.
  2:{ rewrite (run_import_cargo _ _ _ Hcv Hcg) in Hrun. injection Hrun as <- <-.
      simpl in Herr. by apply app_inj_last in Herr. }
  rewrite (run_of_main _ _ _ _ Hcv Hcg) in Hrun.
  pose proof (main_ending X cg w) as He.
  destruct (main X cg w) as [r w1]. simpl in He.
  destruct He as [|e Hne|msg Hmsg|e|w1 url1 reason1 evs Herr1 Hlog Hsp Hfr|r w1 Herr1 Hne].
  - injection Hrun as <- <-. simpl in Herr. apply app_inj_last in Herr.
    injection Herr as <-. discriminate H10.
  - destruct e; simpl in Hrun; try (injection Hrun as <- <-; simpl in Herr;
      apply app_inj_last in Herr; discriminate Herr).
    + by destruct (Hne code0).
    + injection Hrun as <- <-. simpl in Herr. apply app_inj_last in Herr.
      injection Herr as <-. discriminate H0.
  - injection Hrun as <- <-. simpl in Herr. apply app_inj_last in Herr.
    injection Herr as <-. destruct Hmsg as [[_ ->]|[_ Hm]]; [discriminate H0|].
    by apply missing_input_head in Hm.
  - injection Hrun as <- <-. simpl in Herr. by apply app_inj_last in Herr.
  - injection Hrun as <- <-. split; [done|]. split; [by exists evs|done].
  - destruct r as [[]|e].
    + injection Hrun as <- <-. rewrite Herr1 in Herr. by apply app_last_ne in Herr.
    + destruct e; simpl in Hrun; try (injection Hrun as <- <-; simpl in Herr;
        rewrite Herr1 in Herr; apply app_inj_last in Herr; discriminate Herr).
      * by destruct (Hne code0).
      * injection Hrun as <- <-. simpl in Herr. rewrite Herr1 in Herr.
        apply app_inj_last in Herr. injection Herr as <-. discriminate H0.
Qed.

Lemma run_download_exhausted (X : Externals) (w w2 : World) (cv cg : string) (v : obj)
    (f1 : FS) (e : exn) :
  which X "convert" = Some cv → which X "cargo" = Some cg →
  resolve_version X w = (Ok v, w) →
  missing_input X (fs w) (icon_src_of X (env w)) = None →
  mkdir_p (fs w) (here X (appimage_dir X)) = inr f1 →
  download_tool X (linuxdeploy_url_of X (env w)) (linuxdeploy_of X (env w))
    (set_fs f1 (set_env (child_env X (env w)) w)) = (Raise e, w2)
  ∨ (∃ wm,
       download_tool X (linuxdeploy_url_of X (env w)) (linuxdeploy_of X (env w))
         (set_fs f1 (set_env (child_env X (env w)) w)) = (Ok tt, wm) ∧
       download_tool X (appimagetool_url_of X (env w)) (appimagetool_of X (env w)) wm
         = (Raise e, w2)) →
  run X w = (1, w2).
Proof.
  intros Hcv Hcg Hv Hm Hd Hdl.
  rewrite (run_of_main _ _ _ _ Hcv Hcg), (main_reaches_acquire _ _ _ _ _ Hcv Hv Hm).
  set (w0 := set_env (child_env X (env w)) w) in *.
  unfold acquire. rewrite bind_unfold.
  unfold mkdir at 1, fs_op at 1. fold (here X (appimage_dir X)).
  change (fs w0) with (fs w). rewrite Hd.
  destruct Hdl as [E|(wm & E1 & E)].
  - rewrite (bind_Raise _ _ _ _ _ E).
    destruct (download_tool_cases X (linuxdeploy_url_of X (env w)) (linuxdeploy_of X (env w))
                (set_fs f1 w0)) as (r & w' & evs & E' & _ & _ & _ & Hr).
    rewrite E in E'. injection E' as <- <-. by destruct Hr as [-> _].
  - rewrite (bind_Ok _ _ _ _ _ E1), (bind_Raise _ _ _ _ _ E).
    destruct (download_tool_cases X (appimagetool_url_of X (env w)) (appimagetool_of X (env w))
                wm) as (r & w' & evs & E' & _ & _ & _ & Hr).
    rewrite E in E'. injection E' as <- <-. by destruct Hr as [-> _].
Qed.

Lemma download_frame_appdir (X : Externals) (e : gmap string string) (f f' : FS) :
  download_frame X e f f' →
  (∀ r, follow MAXSYMLINKS f (here X (linuxdeploy_of X e)) = Some r
        ∨ follow MAXSYMLINKS f (here X (appimagetool_of X e)) = Some r →
        ¬ here X (appdir X) `prefix_of` r) →
  ∀ q, here X (appdir X) `prefix_of` q → f' !! q = f !! q.
Proof.
  intros Hfr Hout q Hq. destruct (Hfr q) as [E|[Hp|Ht]]; [exact E| |].
  - by destruct (under_appdir_not_above X q Hq).
  - by destruct (Hout q Ht).
Qed.


Lemma mkdir_p_exists (f : FS) (l : loc) : is_dir f l = true → mkdir_p f l = inr f.
Proof.
  intros H. unfold mkdir_p.
  assert (os_mkdir f l = inl EEXIST) as E.
  { unfold os_mkdir. destruct (node_at f l) eqn:En; [done|].
    unfold is_dir, stat in H. rewrite MAXSYMLINKS_eq in H. simpl in H.
    rewrite En in H. by rewrite En in H. }
  destruct (length l); simpl; by rewrite E, H.
Qed.
Lemma run_check_failed (X : Externals) (w : World) (cv cg msg : string) (v : obj) :
  which X "convert" = Some cv → which X "cargo" = Some cg →
  resolve_version X w = (Ok v, w) →
  missing_input X (fs w) (icon_src_of X (env w)) = Some msg →
  run X w = (1, add_stderr (Printed msg) (set_env (child_env X (env w)) w)).
Proof.
  intros Hcv Hcg Hv Hm.
  rewrite (run_of_main _ _ _ _ Hcv Hcg).
  rewrite (main_unfold _ _ _ _ Hv), main_with_version_unfold, bind_unfold, tool_checks_unfold.
  rewrite Hcv. change (fs (set_env (child_env X (env w)) w)) with (fs w). by rewrite Hm.
Qed.
(** ** The version *)

Lemma is_file_of_stat (f : FS) (l : loc) (mode : Z) (data : string) :
  stat f l = Some (File mode data) → is_file f l = true.
Proof. intros H. unfold is_file. by rewrite H. Qed.

Lemma read_version_no_manifest (X : Externals) (p : Path) (w : World) :
  is_file (fs w) (here X p) = false → read_version_from_cargo X p w = (Ok None, w).
Proof.
  intros H. unfold read_version_from_cargo. rewrite bind_unfold. unfold ask at 1.
  by rewrite H.
Qed.

Lemma read_version_manifest (X : Externals) (p : Path) (w : World) (mode : Z) (data : string) :
  stat (fs w) (here X p) = Some (File mode data) →
  read_version_from_cargo X p w =
    match toml_loads X (universal_newlines data) with
    | None => (Raise TomlDecodeError, w)
    | Some items =>
        match dict_get "package" items with
        | None => (Ok None, w)
        | Some (Table package) => (Ok (dict_get "version" package), w)
        | Some _ => (Raise (AttributeError "get"), w)
        end
    end.
Proof.
  intros H. unfold read_version_from_cargo. rewrite bind_unfold. unfold ask at 1.
  rewrite (is_file_of_stat _ _ _ _ H). simpl.
  rewrite (bind_Ok _ _ _ _ _ (read_text_file X p w mode data H)).
  destruct (toml_loads X (universal_newlines data)) as [items|]; [|done].
  by destruct (dict_get "package" items) as [[]|].
Qed.

Lemma run_no_version (X : Externals) (w w1 : World) (cv cg : string) (e : exn) :
  which X "convert" = Some cv → which X "cargo" = Some cg →
  resolve_version X w = (Raise e, w1) →
  (run X w).1 = 1 ∧ fs (run X w).2 = fs w ∧ log (run X w).2 = log w ∧
  stdout (run X w).2 = stdout w ∧ ∃ line, stderr (run X w).2 = stderr w ++ [line].
Proof.
  intros Hcv Hcg Hv.
  rewrite (run_of_main _ _ _ _ Hcv Hcg), (main_no_version _ _ _ _ _ Hv).
  destruct (resolve_version_cases X w) as [(v & Hv' & _)|[Hv'|(e' & Hv' & He)]];
    rewrite Hv' in Hv; simplify_eq.
  - simpl. repeat split. by eexists.
  - destruct e; [by destruct (He code)|..]; simpl; repeat split; by eexists.
Qed.
(** ** Where a [ProcessExecutionError] comes from *)

Lemma ces_bind (X : Externals) {A B} (m : M A) (f : A → M B) :
  command_errors_sound X m → (∀ a, command_errors_sound X (f a)) →
  command_errors_sound X (m ≫= f).
Proof.
  intros Hm Hf w w' rc report. rewrite bind_unfold.
  destruct (m w) as [[a|e] w1] eqn:E; [apply Hf|].
  intros [= -> ->]. by apply (Hm w).
Qed.

Lemma ces_try_except (X : Externals) {A} (body : M A) caught (handler : exn → M A) :
  command_errors_sound X body → (∀ e, command_errors_sound X (handler e)) →
  command_errors_sound X (try_except body caught handler).
Proof.
  intros Hb Hh w w' rc report. unfold try_except.
  destruct (body w) as [[a|e] w1] eqn:E; [done|].
  destruct (caught e); [apply Hh|]. intros [= -> ->]. by apply (Hb w).
Qed.

Ltac prim_ces :=
  let H := fresh "H" in
  intros; intros ? ? ? ? H; cbv [raise pass mret M_ret] in H;
  repeat case_match; simplify_eq.

Lemma ces_ret (X : Externals) {A} (a : A) : command_errors_sound X (mret a : M A).
Proof. prim_ces. Qed.
Lemma ces_pass (X : Externals) : command_errors_sound X pass.
Proof. prim_ces. Qed.
Lemma ces_raise (X : Externals) {A} (e : exn) :
  (∀ rc report, e ≠ ProcessExecutionError rc report) → command_errors_sound X (raise e : M A).
Proof. intros He w w' rc report [= -> _]. by destruct (He rc report). Qed.
Lemma ces_die (X : Externals) {A} msg code : command_errors_sound X (die msg code : M A).
Proof. unfold die. prim_ces. Qed.
Lemma ces_print (X : Externals) msg : command_errors_sound X (print msg).
Proof. unfold print. prim_ces. Qed.
Lemma ces_environ_get (X : Externals) key : command_errors_sound X (environ_get key).
Proof. unfold environ_get. prim_ces. Qed.
Lemma ces_environ_set (X : Externals) key value : command_errors_sound X (environ_set key value).
Proof. unfold environ_set. prim_ces. Qed.
Lemma ces_environ_setdefault (X : Externals) key value :
  command_errors_sound X (environ_setdefault key value).
Proof. unfold environ_setdefault. prim_ces. Qed.
Lemma ces_sleep (X : Externals) seconds : command_errors_sound X (sleep seconds).
Proof. unfold sleep. prim_ces. Qed.
Lemma ces_ask (X : Externals) {A} (q : FS → A) : command_errors_sound X (ask q).
Proof. unfold ask. prim_ces. Qed.
Lemma ces_fs_op (X : Externals) p op : command_errors_sound X (fs_op X p op).
Proof. unfold fs_op. prim_ces. Qed.
Lemma ces_path_read_bytes (X : Externals) p : command_errors_sound X (path_read_bytes X p).
Proof. unfold path_read_bytes. prim_ces. Qed.
Lemma ces_read_text (X : Externals) p : command_errors_sound X (read_text X p).
Proof. unfold read_text. prim_ces. Qed.
Lemma ces_local_get (X : Externals) cmd : command_errors_sound X (local_get X cmd).
Proof. unfold local_get. prim_ces. Qed.
Lemma ces_path_write_bytes (X : Externals) p data :
  command_errors_sound X (path_write_bytes X p data).
Proof. unfold path_write_bytes, fs_op. prim_ces. Qed.
Lemma ces_read_text_locale (X : Externals) p : command_errors_sound X (read_text_locale X p).
Proof.
  unfold read_text_locale. apply ces_bind; [apply ces_path_read_bytes|].
  intros data. destruct (utf8_valid data); [apply ces_ret|by apply ces_raise].
Qed.
Lemma ces_write_text (X : Externals) p text : command_errors_sound X (write_text X p text).
Proof. unfold write_text. prim_ces. Qed.
Lemma ces_mkdir (X : Externals) p : command_errors_sound X (mkdir X p).
Proof. apply ces_fs_op. Qed.
Lemma ces_shutil_copy2 (X : Externals) src dst : command_errors_sound X (shutil_copy2 X src dst).
Proof. apply ces_fs_op. Qed.

Lemma ces_ensure_executable (X : Externals) p : command_errors_sound X (ensure_executable X p).
Proof. apply ces_fs_op. Qed.

Lemma ces_call (X : Externals) program args wd : command_errors_sound X (call X program args wd).
Proof.
  intros w w' rc report. unfold call.
  destruct (spawn X program args wd (env w) (fs w)) as [rc' report' after|e] eqn:E; [|done].
  destruct (Z.eqb_spec rc' 0) as [->|Hrc]; [done|]. intros [= -> -> <-].
  split; [done|]. exists program, args, wd, (fs w). split; [|exact E].
  cbn. apply last_snoc.
Qed.

Lemma ces_download_attempts (X : Externals) url target attempts range :
  command_errors_sound X (download_attempts X url target attempts range).
Proof.
  induction range as [|attempt rest IH]; [apply ces_pass|].
  intros w w' rc report. cbn [download_attempts].
  destruct (fetch_into X url target w) as [[[]|e] w1] eqn:E; [done|].
  destruct (is_Exception e) eqn:Hex; [|by intros [= -> ->]].
  apply ces_bind; [|by intros ?].
  destruct (Nat.eqb attempt attempts); [apply ces_die|].
  apply ces_bind; [apply ces_print|intros ?; apply ces_sleep].
Qed.

Lemma ces_download_tool (X : Externals) url target :
  command_errors_sound X (download_tool X url target).
Proof.
  intros w w' rc report H.
  destruct (download_tool_cases X url target w) as (r & w1 & evs & E & _ & _ & _ & Hr).
  rewrite H in E. injection E as <- <-. by destruct Hr as [? _].
Qed.

Create HintDb ces.
#[export] Hint Resolve ces_ret ces_pass ces_die ces_print ces_environ_get ces_environ_set
  ces_environ_setdefault ces_sleep ces_ask ces_fs_op ces_path_read_bytes ces_path_write_bytes
  ces_read_text ces_read_text_locale ces_local_get ces_write_text ces_mkdir ces_shutil_copy2 ces_call ces_download_attempts
  ces_download_tool ces_ensure_executable : ces.
#[export] Hint Extern 1 (command_errors_sound _ (raise _)) =>
  (apply ces_raise; intros; discriminate) : ces.

Ltac ces_step :=
  first
    [ solve [auto with ces]
    | apply ces_bind; [|intros ?]
    | apply ces_try_except; [|intros ?]
    | match goal with
      | |- command_errors_sound _ (if ?b then _ else _) => destruct b
      | |- command_errors_sound _ (match ?x with _ => _ end) => destruct x
      end ].
Ltac ces := repeat ces_step.

Lemma ces_make_icons (X : Externals) im icon sizes :
  command_errors_sound X (make_icons X im icon sizes).
Proof. induction sizes as [|size rest IH]; cbn [make_icons]; ces. Qed.
#[export] Hint Resolve ces_make_icons : ces.

Lemma ces_ensure_newline_at_end (X : Externals) p :
  command_errors_sound X (ensure_newline_at_end X p).
Proof. unfold ensure_newline_at_end. ces. Qed.
#[export] Hint Resolve ces_ensure_newline_at_end : ces.

Lemma ces_main (X : Externals) (cargo : string) : command_errors_sound X (main X cargo).
Proof.
  unfold main, resolve_version, read_version_from_cargo, tool_checks, build_if_missing,
    clean_appdir, stage_desktop, stamp_version, stage_symlink, stage_metadata, stage_icons,
    run_linuxdeploy, package.
  ces.
  all: try (intros ? ? ? ? ?; simplify_eq).
Qed.
(** ** The run that succeeds, block by block *)

Lemma bind_Ok_inv {A B} (m : M A) (f : A → M B) (w w' : World) (b : B) :
  (m ≫= f) w = (Ok b, w') → ∃ a w1, m w = (Ok a, w1) ∧ f a w1 = (Ok b, w').
Proof.
  rewrite bind_unfold. destruct (m w) as [[a|e] w1]; [|done]. intros H. by exists a, w1.
Qed.

Lemma within_fs_only (w w' : World) : within fp_fs w w' → w' = set_fs (fs w') w.
Proof.
  intros (He & _ & Ho & Hr & Hl). destruct w, w'. unfold set_fs. simpl in *.
  by rewrite He, Ho, Hr, Hl.
Qed.

Lemma fs_op_ok_inv (X : Externals) (p : Path) op (w w' : World) :
  fs_op X p op w = (Ok tt, w') → ∃ f', op (fs w) (here X p) = inr f' ∧ w' = set_fs f' w.
Proof.
  unfold fs_op, here. destruct (op (fs w) (locate (cwd X) p)) as [e|f']; [done|].
  intros [= <-]. by exists f'.
Qed.

Lemma mkdir_ok_inv (X : Externals) (p : Path) (w w' : World) :
  mkdir X p w = (Ok tt, w') →
  w' = set_fs (fs w') w ∧ is_dir (fs w') (here X p) = true ∧
  ∀ q, fs w' !! q = fs w !! q
       ∨ (q `prefix_of` here X p ∧ fs w !! q = None ∧ fs w' !! q = Some Dir).
Proof.
  intros H. apply fs_op_ok_inv in H as (f' & Hm & ->). cbn [fs set_fs].
  apply mkdir_p_inv in Hm as [Hd Hq]. split; [by destruct w|]. by split.
Qed.

Lemma call_ok_inv (X : Externals) program args wd (w w' : World) :
  call X program args wd w = (Ok tt, w') →
  log w' = log w ++ [Spawn program args (fs w)] ∧ env w' = env w ∧
  stdout w' = stdout w ∧ stderr w' = stderr w ∧
  ∃ report, spawn X program args wd (env w) (fs w) = Exited 0 report (fs w').
Proof.
  unfold call. destruct (spawn X program args wd (env w) (fs w)) as [rc report after|e]; [|done].
  destruct (Z.eqb_spec rc 0) as [->|]; [|done]. intros [= <-]. cbn. repeat split.
  by exists report.
Qed.

Lemma local_get_pure (X : Externals) (cmd : string) (w w' : World) (tool : string) :
  local_get X cmd w = (Ok tool, w') →
  w' = w ∧
  tool = (if contains "/" cmd || contains "\" cmd
          then path_str (at_loc (here X (Path_of cmd)))
          else default "" (which X cmd)).
Proof.
  unfold local_get. destruct (contains "/" cmd || contains "\" cmd).
  - by intros [= <- <-].
  - destruct (which X cmd); [|done]. by intros [= <- <-].
Qed.

Lemma build_if_missing_ok_inv (X : Externals) (cargo : string) (w w' : World) :
  build_if_missing X cargo w = (Ok tt, w') →
  log w' = log w ++ build_events X cargo (fs w) ∧ env w' = env w ∧ stderr w' = stderr w.
Proof.
  unfold build_if_missing, build_events. rewrite bind_unfold. unfold ask at 1.
  destruct (is_file (fs w) (here X (bin_path X)) && access_x (fs w) (here X (bin_path X))).
  - intros [= <-]. by rewrite app_nil_r.
  - cbn [negb]. intros H. apply bind_Ok_inv in H as ([] & w1 & [= <-] & H).
    apply call_ok_inv in H as (Hl & He & _ & Herr & _). done.
Qed.

Lemma make_icons_ok_inv (X : Externals) (im : string) (icon : Path) (sizes : list Z)
    (w w' : World) :
  make_icons X im icon sizes w = (Ok tt, w') →
  env w' = env w ∧ stdout w' = stdout w ∧ stderr w' = stderr w ∧
  ∃ evs, log w' = log w ++ evs ∧ Forall2 (resize_event X im icon) sizes evs.
Proof.
  revert w. induction sizes as [|size rest IH]; intros w; cbn [make_icons].
  - intros [= <-]. repeat split. exists []. by rewrite app_nil_r.
  - intros H. apply bind_Ok_inv in H as ([] & w1 & Hm & H).
    apply bind_Ok_inv in H as ([] & w2 & Hc & H).
    apply mkdir_ok_inv in Hm as (E1 & Hd & _).
    apply call_ok_inv in Hc as (Hl2 & He2 & Ho2 & Hr2 & _).
    apply IH in H as (He & Ho & Hr & evs & Hl & Hall).
    rewrite E1 in He2, Ho2, Hr2, Hl2. cbn in He2, Ho2, Hr2, Hl2.
    split; [congruence|]. split; [congruence|]. split; [congruence|].
    exists (Spawn im (resize_args X icon size) (fs w1) :: evs).
    split; [by rewrite Hl, Hl2, <- app_assoc|].
    constructor; [|done]. by exists (fs w1).
Qed.
Lemma copy2_inv (nm : Z) (f f' : FS) (src dst : loc) :
  copy2 nm f src dst = inr f' →
  ∃ mode data r,
    stat f src = Some (File mode data) ∧
    follow MAXSYMLINKS f (if is_dir f dst then dst ++ [List.last src ""] else dst) = Some r ∧
    r ≠ [] ∧ f' = <[r := File mode data]> f ∧
    stat f' src = Some (File mode data) ∧
    stat f' (if is_dir f dst then dst ++ [List.last src ""] else dst) = Some (File mode data).
Proof.
  unfold copy2. set (d := if is_dir f dst then dst ++ [List.last src ""] else dst).
  destruct (follow MAXSYMLINKS f src) as [rs|] eqn:Hs.
  2:{ destruct (stat f src) as [[]|]; done. }
  destruct (stat f src) as [[mode data| |]|] eqn:Hst; try done.
  case_bool_decide as Hsame; [done|].
  destruct (open_wb nm f d) as [e|[r f1]] eqn:Ho; [done|].
  intros [= <-]. apply open_wb_inv in Ho as (Hd & Hr & mode0 & -> & Hold).
  exists mode, data, r. split; [done|]. split; [exact Hd|]. split; [exact Hr|].
  rewrite insert_insert_eq. split; [done|].
  destruct (stat_insert f d r (File mode data) Hd Hr eq_refl) as [_ Hsd].
  split; [|exact Hsd].
  assert (rs ≠ r) as Hne by (intros ->; by rewrite Hd in Hsame).
  assert (same_links f (<[r := File mode data]> f)) as Hl.
  { apply same_links_insert; [|done]. apply follow_not_link in Hd. by destruct r. }
  unfold stat in *. rewrite <- (follow_same_links _ _ _ _ Hl), Hs in *.
  clear Hd Hsame Hsd.
  destruct rs; [done|]. rewrite node_at_cons in *. by rewrite lookup_insert_ne.
Qed.

Lemma climb_app_plain (acc l1 l2 : list string) :
  Forall (λ c, c ≠ "..") l2 → climb acc (l1 ++ l2) = climb acc l1 ++ l2.
Proof.
  revert l1. induction l2 as [|c l2 IH]; intros l1 H.
  - by rewrite !app_nil_r.
  - apply Forall_cons in H as [Hc H].
    change (c :: l2) with ([c] ++ l2). rewrite !app_assoc.
    rewrite IH by done. by rewrite climb_snoc.
Qed.
Lemma here_below_appdir (X : Externals) (s : string) :
  anchored (Path_of s) = false → Forall (λ c, c ≠ "..") (parts (Path_of s)) →
  here X (appdir X // s) = here X (appdir X) ++ parts (Path_of s).
Proof.
  intros Ha Hp. unfold joinpath at 1. rewrite Ha.
  unfold here, locate. cbn [anchored parts].
  change (anchored (appdir X)) with true. cbn iota.
  by apply climb_app_plain.
Qed.

Lemma here_root_icon (X : Externals) :
  here X (appdir X // "diskfmt.png") = here X (appdir X) ++ ["diskfmt.png"].
Proof. apply (here_below_appdir X "diskfmt.png"); [done|]. repeat constructor; done. Qed.

Lemma here_icon_256 (X : Externals) :
  here X (appdir X // "usr/share/icons/hicolor/256x256/apps/diskfmt.png") =
  here X (appdir X) ++ ["usr"; "share"; "icons"; "hicolor"; "256x256"; "apps"; "diskfmt.png"].
Proof.
  rewrite (here_below_appdir X "usr/share/icons/hicolor/256x256/apps/diskfmt.png").
  - f_equal.
  - vm_compute. reflexivity.
  - replace (parts (Path_of "usr/share/icons/hicolor/256x256/apps/diskfmt.png"))
      with ["usr"; "share"; "icons"; "hicolor"; "256x256"; "apps"; "diskfmt.png"]
      by (vm_compute; reflexivity).
    repeat constructor; done.
Qed.

Lemma stage_icons_ok_inv (X : Externals) (im : string) (icon : Path) (w w' : World) :
  stage_icons X im icon w = (Ok tt, w') →
  env w' = env w ∧ stdout w' = stdout w ∧ stderr w' = stderr w ∧
  (∃ evs, log w' = log w ++ evs ∧ Forall2 (resize_event X im icon) SIZES evs) ∧
  ∃ mode data,
    stat (fs w') (here X (appdir X // "usr/share/icons/hicolor/256x256/apps/diskfmt.png"))
      = Some (File mode data) ∧
    (stat (fs w') (here X (appdir X // "diskfmt.png")) = Some (File mode data)
     ∨ stat (fs w') (here X (appdir X // "diskfmt.png") ++ ["diskfmt.png"])
       = Some (File mode data)).
Proof.
  unfold stage_icons. intros H. apply bind_Ok_inv in H as ([] & w1 & Hi & Hc).
  apply make_icons_ok_inv in Hi as (He & Ho & Hr & Hevs).
  unfold shutil_copy2 in Hc.
  apply fs_op_ok_inv in Hc as (f' & Hc & ->). cbn [env stdout stderr log fs set_fs].
  split; [done|]. split; [done|]. split; [done|]. split; [done|].
  apply copy2_inv in Hc as (mode & data & r & _ & _ & _ & _ & Hsrc & Hdst).
  exists mode, data. split; [exact Hsrc|].
  destruct (is_dir (fs w1) (here X (appdir X // "diskfmt.png"))); [right|by left].
  rewrite here_icon_256 in Hdst.
  change (here X (appdir X) ++ ["usr"; "share"; "icons"; "hicolor"; "256x256"; "apps"; "diskfmt.png"])
    with (here X (appdir X) ++ (["usr"; "share"; "icons"; "hicolor"; "256x256"; "apps"] ++ ["diskfmt.png"]))
    in Hdst.
  rewrite (app_assoc (here X (appdir X))), List.last_last in Hdst.
  exact Hdst.
Qed.

Lemma run_linuxdeploy_ok_inv (X : Externals) (linuxdeploy : Path) (w w' : World) :
  run_linuxdeploy X linuxdeploy w = (Ok tt, w') →
  env w' = env w ∧ stdout w' = stdout w ∧ stderr w' = stderr w ∧
  ∃ tool, local_get X (path_str linuxdeploy) w = (Ok tool, w) ∧
          log w' = log w ++ [Spawn tool (deploy_args X) (fs w)].
Proof.
  unfold run_linuxdeploy. intros H. apply bind_Ok_inv in H as (tool & w1 & Hg & Hc).
  destruct (local_get_pure _ _ _ _ _ Hg) as [-> _].
  apply call_ok_inv in Hc as (Hl & He & Ho & Hr & _).
  split; [done|]. split; [done|]. split; [done|]. by exists tool.
Qed.

Lemma exists_after_unlink (refused : loc → bool) (f f' : FS) (l : loc) :
  unlink refused f l = inr f' → exists_ f' l = false.
Proof.
  unfold unlink. destruct l as [|c l]; [done|]. rewrite node_at_cons.
  assert (exists_ (delete (c :: l) f) (c :: l) = false) as Hgone.
  { unfold exists_, stat.
    assert (follow MAXSYMLINKS (delete (c :: l) f) (c :: l) = Some (c :: l)) as ->.
    { rewrite MAXSYMLINKS_eq. cbn [follow]. by rewrite node_at_cons, lookup_delete_eq. }
    by rewrite node_at_cons, lookup_delete_eq. }
  destruct (f !! (c :: l)) as [[]|] eqn:E; try done;
    (destruct (refused (c :: l)); [done|]); by intros [= <-].
Qed.

Lemma package_ok_inv (X : Externals) (version : obj) (arch : string) (appimagetool : Path)
    (w w' : World) :
  package X version arch appimagetool w = (Ok tt, w') →
  env w' = env w ∧ stderr w' = stderr w ∧
  stdout w' = stdout w ++ ["Created " +:+ path_str (output_path X (env w) version arch)] ∧
  ∃ tool seen,
    local_get X (path_str appimagetool) w = (Ok tool, w) ∧
    log w' = log w ++
      [Spawn tool [path_str (appdir X); path_str (output_path X (env w) version arch)] seen] ∧
    exists_ seen (here X (output_path X (env w) version arch)) = false.
Proof.
  unfold package. intros H.
  apply bind_Ok_inv in H as (e & w0 & [= <- <-] & H).
  set (output := output_path X (env w) version arch) in *.
  apply bind_Ok_inv in H as ([] & w1 & Hm & H).
  apply mkdir_ok_inv in Hm as (E1 & _ & _).
  apply bind_Ok_inv in H as (there & w2 & [= <- <-] & H).
  apply bind_Ok_inv in H as ([] & w3 & Hu & H).
  apply bind_Ok_inv in H as (tool & w4 & Hg & H).
  destruct (local_get_pure _ _ _ _ _ Hg) as [-> Htool].
  apply bind_Ok_inv in H as ([] & w5 & Hc & [= <-]).
  apply call_ok_inv in Hc as (Hl & He & Ho & Hr & _).
  assert (env w3 = env w ∧ stderr w3 = stderr w ∧ stdout w3 = stdout w ∧ log w3 = log w ∧
          exists_ (fs w3) (here X output) = false) as (He3 & Hr3 & Ho3 & Hl3 & Hgone).
  { destruct (exists_ (fs w1) (here X output)) eqn:Ex.
    - apply fs_op_ok_inv in Hu as (f' & Hu & ->). apply exists_after_unlink in Hu.
      rewrite E1. by cbn.
    - injection Hu as <-. rewrite E1. cbn. by rewrite E1 in Ex. }
  clear E1 Hu. cbn. split; [by rewrite He|]. split; [by rewrite Hr|].
  split; [by rewrite Ho, Ho3|].
  exists tool, (fs w3). split.
  - unfold local_get in *. destruct (contains "/" (path_str appimagetool) || contains "\" (path_str appimagetool)).
    + by injection Hg as <-.
    + destruct (which X (path_str appimagetool)); [|done]. by injection Hg as <-.
  - split; [by rewrite Hl, Hl3|exact Hgone].
Qed.
Lemma local_get_any (X : Externals) (cmd tool : string) (w w2 : World) :
  local_get X cmd w = (Ok tool, w) → local_get X cmd w2 = (Ok tool, w2).
Proof.
  unfold local_get. destruct (contains "/" cmd || contains "\" cmd).
  - by intros [= <-].
  - destruct (which X cmd); [|done]. by intros [= <-].
Qed.

Lemma fs_only_ok {A} (m : M A) (w w' : World) (a : A) :
  touches fp_fs m → m w = (Ok a, w') →
  env w' = env w ∧ stdout w' = stdout w ∧ stderr w' = stderr w ∧ log w' = log w.
Proof.
  intros Ht H. specialize (Ht w). rewrite H in Ht.
  destruct Ht as (He & _ & Ho & Hr & Hl). by repeat split; auto.
Qed.

Lemma staging_ok_inv (X : Externals) (e : gmap string string) (version : obj) (im : string)
    (w w' : World) :
  staging X e version im w = (Ok tt, w') →
  env w' = env w ∧ stderr w' = stderr w ∧
  stdout w' = stdout w ++
    ["Created " +:+ path_str (output_path X (env w) version (arch_of X e))] ∧
  ∃ icon_evs tool1 tool2 seen_ld seen_at,
    log w' = log w ++ icon_evs ++
      [Spawn tool1 (deploy_args X) seen_ld;
       Spawn tool2 [path_str (appdir X);
                 path_str (output_path X (env w) version (arch_of X e))] seen_at] ∧
    Forall2 (resize_event X im (icon_src_of X e)) SIZES icon_evs ∧
    local_get X (path_str (linuxdeploy_of X e)) w = (Ok tool1, w) ∧
    local_get X (path_str (appimagetool_of X e)) w = (Ok tool2, w) ∧
    (∃ mode data,
       stat seen_ld (here X (appdir X // "usr/share/icons/hicolor/256x256/apps/diskfmt.png"))
         = Some (File mode data) ∧
       (stat seen_ld (here X (appdir X // "diskfmt.png")) = Some (File mode data)
        ∨ stat seen_ld (here X (appdir X // "diskfmt.png") ++ ["diskfmt.png"])
          = Some (File mode data))) ∧
    exists_ seen_at (here X (output_path X (env w) version (arch_of X e))) = false.
Proof.
  unfold staging. intros H.
  apply bind_Ok_inv in H as ([] & w1 & H1 & H).
  apply bind_Ok_inv in H as ([] & w2 & H2 & H).
  apply bind_Ok_inv in H as ([] & w3 & H3 & H).
  apply bind_Ok_inv in H as ([] & w4 & H4 & H).
  apply bind_Ok_inv in H as ([] & w5 & H5 & H).
  apply bind_Ok_inv in H as ([] & w6 & H6 & H7).
  apply (fs_only_ok _ _ _ _ (touches_clean_appdir X)) in H1 as (E1 & O1 & R1 & L1).
  apply (fs_only_ok _ _ _ _ (touches_stage_desktop X version)) in H2 as (E2 & O2 & R2 & L2).
  apply (fs_only_ok _ _ _ _ (touches_stage_symlink X)) in H3 as (E3 & O3 & R3 & L3).
  apply (fs_only_ok _ _ _ _ (touches_stage_metadata X)) in H4 as (E4 & O4 & R4 & L4).
  apply stage_icons_ok_inv in H5 as (E5 & O5 & R5 & (icon_evs & L5 & Hicons) & Hcopy).
  apply run_linuxdeploy_ok_inv in H6 as (E6 & O6 & R6 & tool1 & Htool1 & L6).
  apply package_ok_inv in H7 as (E7 & R7 & O7 & tool2 & seen_at & Htool2 & L7 & Hgone).
  assert (env w6 = env w) as E by (by rewrite E6, E5, E4, E3, E2, E1).
  rewrite E in O7, L7, Hgone.
  split; [by rewrite E7|].
  split; [by rewrite R7, R6, R5, R4, R3, R2, R1|].
  split; [by rewrite O7, O6, O5, O4, O3, O2, O1|].
  exists icon_evs, tool1, tool2, (fs w5), seen_at.
  split; [by rewrite L7, L6, L5, L4, L3, L2, L1, <- !app_assoc|].
  split; [exact Hicons|].
  split; [by apply (local_get_any X _ _ w5)|].
  split; [by apply (local_get_any X _ _ w6)|].
  split; [exact Hcopy|exact Hgone].
Qed.

Lemma child_env_lookup (X : Externals) (e : gmap string string) (key : string) :
  key ≠ "ARCH" → key ≠ "APPIMAGE_EXTRACT_AND_RUN" → child_env X e !! key = e !! key.
Proof.
  intros H1 H2. unfold child_env.
  destruct (<["ARCH":=arch_of X e]> e !! "APPIMAGE_EXTRACT_AND_RUN");
    by rewrite ?lookup_insert_ne by done.
Qed.

Lemma output_path_child_env (X : Externals) (e : gmap string string) (version : obj)
    (arch : string) :
  output_path X (child_env X e) version arch = output_path X e version arch.
Proof. unfold output_path. by rewrite child_env_lookup. Qed.

Lemma exit_of_zero (r : res unit) (w1 w' : World) :
  exit_of (r, w1) = (0, w') → (∀ c, r = Raise (SystemExit c) → c = 1) → r = Ok tt ∧ w' = w1.
Proof.
  intros H Hc. destruct r as [[]|e]; [by injection H as <-|].
  destruct e; simpl in H; try by injection H.
  injection H as -> <-. by specialize (Hc 0 eq_refl).
Qed.

Lemma main_check_failed (X : Externals) (w : World) (cv cargo msg : string) (v : obj) :
  which X "convert" = Some cv → resolve_version X w = (Ok v, w) →
  missing_input X (fs w) (icon_src_of X (env w)) = Some msg →
  main X cargo w =
    (Raise (SystemExit 1), add_stderr (Printed msg) (set_env (child_env X (env w)) w)).
Proof.
  intros Hcv Hv Hm.
  rewrite (main_unfold _ _ _ _ Hv), main_with_version_unfold, bind_unfold, tool_checks_unfold.
  rewrite Hcv. change (fs (set_env (child_env X (env w)) w)) with (fs w). by rewrite Hm.
Qed.

Lemma run_ok_inv (X : Externals) (w w' : World) :
  run X w = (0, w') →
  ∃ cv cg version,
    which X "convert" = Some cv ∧ which X "cargo" = Some cg ∧
    resolve_version X w = (Ok version, w) ∧
    missing_input X (fs w) (icon_src_of X (env w)) = None ∧
    main X cg w = (Ok tt, w') ∧
    env w' = child_env X (env w) ∧ stderr w' = stderr w ∧
    (∃ outs, stdout w' = outs ++
       ["Created " +:+ path_str (output_path X (env w) version (arch_of X (env w)))]) ∧
    ∃ fetch_evs seen_build icon_evs tool1 tool2 seen_ld seen_at,
      log w' = log w ++ fetch_evs ++ build_events X cg seen_build ++ icon_evs ++
        [Spawn tool1 (deploy_args X) seen_ld;
         Spawn tool2 [path_str (appdir X);
                   path_str (output_path X (env w) version (arch_of X (env w)))] seen_at] ∧
      spawns fetch_evs = [] ∧
      Forall2 (resize_event X cv (icon_src_of X (env w))) SIZES icon_evs ∧
      local_get X (path_str (linuxdeploy_of X (env w))) w = (Ok tool1, w) ∧
      local_get X (path_str (appimagetool_of X (env w))) w = (Ok tool2, w) ∧
      (∃ mode data,
         stat seen_ld (here X (appdir X // "usr/share/icons/hicolor/256x256/apps/diskfmt.png"))
           = Some (File mode data) ∧
         (stat seen_ld (here X (appdir X // "diskfmt.png")) = Some (File mode data)
          ∨ stat seen_ld (here X (appdir X // "diskfmt.png") ++ ["diskfmt.png"])
            = Some (File mode data))) ∧
      exists_ seen_at
        (here X (output_path X (env w) version (arch_of X (env w)))) = false.
Proof.
  intros Hrun.
  destruct (which X "convert") as [cv|] eqn:Hcv.
  2:{ by rewrite (run_import_convert _ _ Hcv) in Hrun. }
  destruct (which X "cargo") as [cg|] eqn:Hcg.
  2:{ by rewrite (run_import_cargo _ _ _ Hcv Hcg) in Hrun. }
  rewrite (run_of_main _ _ _ _ Hcv Hcg) in Hrun.
  destruct (resolve_version_cases X w) as [(v & Hv & _)|[Hv|(e & Hv & He)]].
  2:{ by rewrite (main_no_version _ _ _ _ _ Hv) in Hrun. }
  2:{ rewrite (main_no_version _ _ _ _ _ Hv) in Hrun. destruct e; try done.
      by destruct (He code). }
  destruct (missing_input X (fs w) (icon_src_of X (env w))) as [msg|] eqn:Hm.
  { by rewrite (main_check_failed X w cv cg msg v Hcv Hv Hm) in Hrun. }
  exists cv, cg, v. split; [done|]. split; [done|]. split; [done|]. split; [done|].
  rewrite (main_reaches_acquire _ _ _ _ _ Hcv Hv Hm) in *.
  set (w0 := set_env (child_env X (env w)) w) in *.
  destruct (acquire X cg (env w) v cv w0) as [r w1] eqn:Ha.
  apply exit_of_zero in Hrun as [-> ->].
  2:{ intros c ->.
      destruct (acquire_cases _ _ _ _ _ _ _ _ Ha) as [(? & ? & _)|[(? & _)|(_ & Hne)]];
        [done|by simplify_eq|by destruct (Hne c)]. }
  split; [done|].
  unfold acquire in Ha.
  apply bind_Ok_inv in Ha as ([] & w2 & H1 & Ha).
  apply bind_Ok_inv in Ha as ([] & w3 & H2 & Ha).
  apply bind_Ok_inv in Ha as ([] & w4 & H3 & Ha).
  apply bind_Ok_inv in Ha as ([] & w5 & H4 & H5).
  apply mkdir_ok_inv in H1 as (E1 & _ & _).
  destruct (download_tool_cases X (linuxdeploy_url_of X (env w)) (linuxdeploy_of X (env w)) w2)
    as (r3 & w3' & ev3 & E3 & L3 & S3 & _ & R3).
  rewrite H2 in E3. injection E3 as <- <-.
  destruct (download_tool_cases X (appimagetool_url_of X (env w)) (appimagetool_of X (env w)) w3)
    as (r4 & w4' & ev4 & E4 & L4 & S4 & _ & R4).
  rewrite H3 in E4. injection E4 as <- <-.
  pose proof (touches_download_tool X (linuxdeploy_url_of X (env w)) (linuxdeploy_of X (env w)) w2)
    as (Ee3 & _). rewrite H2 in Ee3. specialize (Ee3 eq_refl).
  pose proof (touches_download_tool X (appimagetool_url_of X (env w)) (appimagetool_of X (env w)) w3)
    as (Ee4 & _). rewrite H3 in Ee4. specialize (Ee4 eq_refl).
  apply build_if_missing_ok_inv in H4 as (L5 & E5 & R5).
  apply staging_ok_inv in H5
    as (E6 & R6 & O6 & icon_evs & tool1 & tool2 & seen_ld & seen_at & L6 & Hicons & Htool1 & Htool2
        & Hcopy & Hgone).
  assert (env w5 = child_env X (env w)) as E.
  { rewrite E5. simpl in Ee4, Ee3. rewrite Ee4, Ee3, E1. done. }
  rewrite E, output_path_child_env in *.
  split; [by rewrite E6|].
  split; [rewrite R6, R5, R4, R3, E1; done|].
  split; [by eexists|].
  exists (ev3 ++ ev4), (fs w4), icon_evs, tool1, tool2, seen_ld, seen_at.
  split.
  { rewrite L6, L5, L4, L3, E1. cbn. by rewrite <- !app_assoc. }
  split; [by rewrite spawns_app, S3, S4|].
  split; [exact Hicons|].
  split; [by apply (local_get_any X _ _ w5)|].
  split; [by apply (local_get_any X _ _ w5)|].
  split; [exact Hcopy|exact Hgone].
Qed.
Lemma here_icon_dir (X : Externals) (size : Z) :
  In size SIZES →
  here X (icon_dir X size) =
  here X (appdir X) ++
    ["usr"; "share"; "icons"; "hicolor"; decimal size +:+ "x" +:+ decimal size; "apps"].
Proof.
  intros Hin. unfold icon_dir.
  assert (parts (Path_of ("usr/share/icons/hicolor/" +:+ decimal size +:+ "x" +:+ decimal size
                          +:+ "/apps"))
          = ["usr"; "share"; "icons"; "hicolor"; decimal size +:+ "x" +:+ decimal size; "apps"]
          ∧ anchored (Path_of ("usr/share/icons/hicolor/" +:+ decimal size +:+ "x"
                               +:+ decimal size +:+ "/apps")) = false) as [Hp Ha].
  { unfold SIZES in Hin. simpl in Hin.
    destruct Hin as [<-|[<-|[<-|[<-|[<-|[<-|[]]]]]]]; split; vm_compute; reflexivity. }
  rewrite here_below_appdir; [by rewrite Hp|exact Ha|]. rewrite Hp.
  unfold SIZES in Hin. simpl in Hin.
  destruct Hin as [<-|[<-|[<-|[<-|[<-|[<-|[]]]]]]]; repeat constructor; vm_compute; discriminate.
Qed.
(** ** The name of the output *)

Lemma contains_slash_cons (c : ascii) (s : string) :
  contains "/" (String c s) = Ascii.eqb "/" c || contains "/" s.
Proof. simpl. by rewrite andb_true_r. Qed.

Lemma contains_slash_app (a b : string) :
  contains "/" (a +:+ b) = contains "/" a || contains "/" b.
Proof.
  induction a as [|c a IH].
  - rewrite app_empty_l. by destruct b.
  - rewrite app_String_l, !contains_slash_cons, IH. by rewrite orb_assoc.
Qed.

Lemma split_on_plain (s : string) : contains "/" s = false → split_on "/" s = [s].
Proof.
  induction s as [|c s IH]; [done|].
  rewrite contains_slash_cons. intros H. apply orb_false_elim in H as [Hc Hs].
  cbn [split_on]. rewrite Ascii.eqb_sym in Hc. rewrite Hc. by rewrite (IH Hs).
Qed.

Lemma Path_of_plain (s : string) :
  contains "/" s = false → keep_part s = true → Path_of s = mkPath false false [s].
Proof.
  intros Hs Hk. unfold Path_of. rewrite (split_on_plain s Hs). cbn [List.filter]. rewrite Hk.
  destruct s as [|c s]; [done|]. rewrite contains_slash_cons in Hs.
  apply orb_false_elim in Hs as [Hc _]. cbn [startswith]. by rewrite Hc.
Qed.

Lemma output_name_plain (X : Externals) (version : obj) (arch : string) :
  contains "/" (format_obj X version) = false → contains "/" arch = false →
  Path_of ("diskfmt-" +:+ format_obj X version +:+ "-" +:+ arch +:+ ".AppImage")
  = mkPath false false
      ["diskfmt-" +:+ format_obj X version +:+ "-" +:+ arch +:+ ".AppImage"].
Proof.
  intros Hv Ha. apply Path_of_plain.
  - rewrite !contains_slash_app, Hv, Ha. reflexivity.
  - reflexivity.
Qed.

Lemma output_path_default (X : Externals) (e : gmap string string) (version : obj)
    (arch : string) :
  e !! "OUTPUT" = None →
  contains "/" (format_obj X version) = false → contains "/" arch = false →
  name (output_path X e version arch)
    = "diskfmt-" +:+ format_obj X version +:+ "-" +:+ arch +:+ ".AppImage" ∧
  parent (output_path X e version arch) = appimage_dir X.
Proof.
  intros He Hv Ha.
  assert (output_path X e version arch
          = mkPath (anchored (appimage_dir X)) (doubled (appimage_dir X))
              (parts (appimage_dir X) ++
               ["diskfmt-" +:+ format_obj X version +:+ "-" +:+ arch +:+ ".AppImage"])) as ->.
  { unfold output_path. rewrite He. unfold joinpath at 1.
    by rewrite (output_name_plain X version arch Hv Ha). }
  unfold name, parent. cbn [anchored doubled parts]. rewrite List.last_last, removelast_last.
  split; [done|]. by destruct (appimage_dir X).
Qed.

(** ** The second helper tool *)

Lemma bind_inv {A B} (m : M A) (f : A → M B) (w w' : World) (r : res B) :
  (m ≫= f) w = (r, w') →
  (∃ e, m w = (Raise e, w') ∧ r = Raise e) ∨ ∃ a w1, m w = (Ok a, w1) ∧ f a w1 = (r, w').
Proof.
  rewrite bind_unfold. destruct (m w) as [[a|e] w1].
  - intros H. right. by exists a, w1.
  - intros [= <- <-]. left. by exists e.
Qed.

Lemma fs_op_raise_inv (X : Externals) (p : Path) op (w w' : World) (e : exn) :
  fs_op X p op w = (Raise e, w') → w' = w.
Proof. unfold fs_op. destruct (op (fs w) (locate (cwd X) p)); by intros [= <- <-]. Qed.

Lemma call_log (X : Externals) program args wd (w w' : World) (r : res unit) :
  call X program args wd w = (r, w') →
  log w' = log w ++ [Spawn program args (fs w)] ∧ stdout w' = stdout w.
Proof.
  unfold call. destruct (spawn X program args wd (env w) (fs w)) as [rc report after|e].
  - destruct (Z.eqb rc 0); by intros [= <- <-].
  - by intros [= <- <-].
Qed.

Lemma package_inv (X : Externals) (version : obj) (arch : string) (appimagetool : Path)
    (w w' : World) (r : res unit) :
  package X version arch appimagetool w = (r, w') →
  (log w' = log w ∧ ∃ e, r = Raise e)
  ∨ ∃ tool seen,
      local_get X (path_str appimagetool) w = (Ok tool, w) ∧
      log w' = log w ++
        [Spawn tool [path_str (appdir X); path_str (output_path X (env w) version arch)] seen] ∧
      exists_ seen (here X (output_path X (env w) version arch)) = false ∧
      (r = Ok tt →
       stdout w' = stdout w ++
         ["Created " +:+ path_str (output_path X (env w) version arch)]).
Proof.
  unfold package. intros H.
  apply bind_inv in H as [(e & [=] & _)|(e & w0 & [= <- <-] & H)].
  set (output := output_path X (env w) version arch) in *.
  apply bind_inv in H as [(e & Hm & ->)|([] & w1 & Hm & H)].
  { apply fs_op_raise_inv in Hm as ->. left. split; [done|]. by exists e. }
  apply mkdir_ok_inv in Hm as (E1 & _ & _).
  apply bind_inv in H as [(e & [=] & _)|(there & w2 & [= <- <-] & H)].
  apply bind_inv in H as [(e & Hu & ->)|([] & w3 & Hu & H)].
  { left. split; [|by exists e]. destruct (exists_ (fs w1) (here X output)); [|done].
    apply fs_op_raise_inv in Hu as ->. by rewrite E1. }
  assert (env w3 = env w ∧ stdout w3 = stdout w ∧ log w3 = log w ∧
          exists_ (fs w3) (here X output) = false) as (He3 & Ho3 & Hl3 & Hgone).
  { destruct (exists_ (fs w1) (here X output)) eqn:Ex.
    - apply fs_op_ok_inv in Hu as (f' & Hu & ->). apply exists_after_unlink in Hu.
      rewrite E1. by cbn.
    - injection Hu as <-. rewrite E1. cbn. by rewrite E1 in Ex. }
  clear E1 Hu.
  apply bind_inv in H as [(e & Hg & ->)|(tool & w4 & Hg & H)].
  { left. split; [|by exists e]. unfold local_get in Hg.
    destruct (contains "/" (path_str appimagetool) || contains "\" (path_str appimagetool));
      [done|].
    destruct (which X (path_str appimagetool)); [done|]. injection Hg as _ <-. exact Hl3. }
  destruct (local_get_pure _ _ _ _ _ Hg) as [-> _].
  right. exists tool, (fs w3).
  split; [by apply (local_get_any X _ _ w3)|].
  apply bind_inv in H as [(e & Hc & ->)|([] & w5 & Hc & [= <- <-])];
    apply call_log in Hc as [Hl Ho].
  - split; [by rewrite Hl, Hl3|]. split; [exact Hgone|]. done.
  - cbn. split; [by rewrite Hl, Hl3|]. split; [exact Hgone|]. intros _. by rewrite Ho, Ho3.
Qed.
(** ** The exit code *)

Lemma run_exit_cases (X : Externals) (w : World) :
  ((run X w).1 = 0 ∧ stderr (run X w).2 = stderr w)
  ∨ ((run X w).1 = 1 ∧ ∃ line, stderr (run X w).2 = stderr w ++ [line]).
Proof.
  destruct (which X "convert") as [cv|] eqn:Hcv.
  2:{ rewrite (run_import_convert _ _ Hcv). right. split; [done|]. by eexists. }
  destruct (which X "cargo") as [cg|] eqn:Hcg.
  2:{ rewrite (run_import_cargo _ _ _ Hcv Hcg). right. split; [done|]. by eexists. }
  rewrite (run_of_main _ _ _ _ Hcv Hcg).
  pose proof (main_ending X cg w) as He.
  destruct (main X cg w) as [r w1]. simpl in He.
  destruct He as [|e Hne|msg Hmsg|e|w1 url1 reason1 evs Herr1 Hlog Hsp Hfr|r w1 Herr1 Hne].
  - right. split; [done|]. by eexists.
  - right. destruct e; [by destruct (Hne code)|..]; (split; [done|]); by eexists.
  - right. split; [done|]. by eexists.
  - right. split; [done|]. by eexists.
  - right. split; [done|]. by eexists.
  - destruct r as [[]|e]; [by left|]. right.
    destruct e; [by destruct (Hne code)|..]; (split; [done|]); simpl; rewrite <- Herr1;
      by eexists.
Qed.

Lemma call_failed (X : Externals) program args wd (w : World) retcode report after :
  spawn X program args wd (env w) (fs w) = Exited retcode report after → retcode ≠ 0 →
  call X program args wd w =
    (Raise (ProcessExecutionError retcode report),
     set_fs after (add_log (Spawn program args (fs w)) w)).
Proof.
  intros Hs Hrc. unfold call. rewrite Hs.
  by destruct (Z.eqb_spec retcode 0).
Qed.
(** ** The staging directory is cleared *)

Lemma outside_lookup_below (top q : loc) (f : FS) : top `prefix_of` q → outside top f !! q = None.
Proof.
  intros Hq. unfold outside. apply map_lookup_filter_None. right. intros x _ Hn. by apply Hn.
Qed.

Lemma outside_lookup_other (top q : loc) (f : FS) :
  ¬ top `prefix_of` q → outside top f !! q = f !! q.
Proof.
  intros Hq. unfold outside. destruct (f !! q) as [x|] eqn:E.
  - by apply map_lookup_filter_Some.
  - apply map_lookup_filter_None. by left.
Qed.

Lemma outside_agree (top : loc) (f g : FS) :
  (∀ q, ¬ top `prefix_of` q → f !! q = g !! q) → outside top f = outside top g.
Proof.
  intros H. apply map_eq. intros q. destruct (decide (top `prefix_of` q)) as [Hq|Hq].
  - by rewrite !outside_lookup_below.
  - rewrite !outside_lookup_other by done. by apply H.
Qed.

Lemma rmtree_removable (X : Externals) (f : FS) :
  removable X f →
  rmtree_ignore_errors (rm_refused X) f (here X (appdir X)) = outside (here X (appdir X)) f.
Proof.
  intros [Htop Hfree]. unfold rmtree_ignore_errors, outside.
  assert ((∀ q, here X (appdir X) `prefix_of` q → f !! q = None) →
          f = filter (λ kv, ¬ here X (appdir X) `prefix_of` kv.1) f) as Hid.
  { intros Hnone. symmetry. apply map_filter_id.
    intros q x Hq Hp. simpl in Hp. rewrite (Hnone q Hp) in Hq. done. }
  destruct (f !! here X (appdir X)) as [[]|] eqn:E;
    try (destruct Htop as [Hd|Hnone]; [discriminate Hd|by apply Hid]).
  apply map_filter_ext. intros q x Hq. simpl. split; [|by left].
  intros [Hn|Hp]; [done|]. intros Hq'.
  apply map_Exists_lookup_1 in Hp as (r & y & Hr & Hqr & Href).
  rewrite (Hfree r) in Href; [done| |by eexists]. by etrans.
Qed.
Lemma removable_outside (X : Externals) (f : FS) :
  removable X (outside (here X (appdir X)) f).
Proof.
  split.
  - right. intros q Hq. by apply outside_lookup_below.
  - intros r Hr [x Hx]. by rewrite outside_lookup_below in Hx.
Qed.

Lemma clean_appdir_removable (X : Externals) (w : World) :
  removable X (fs w) →
  clean_appdir X w =
    mkdir X (appdir X // "usr/share/applications")
      (set_fs (outside (here X (appdir X)) (fs w)) w).
Proof.
  intros H. unfold clean_appdir. rewrite bind_unfold. by rewrite (rmtree_removable X (fs w) H).
Qed.

Lemma clean_appdir_agree (X : Externals) (w : World) (f2 : FS) :
  removable X (fs w) → removable X f2 →
  (∀ q, ¬ here X (appdir X) `prefix_of` q → f2 !! q = fs w !! q) →
  clean_appdir X (set_fs f2 w) = clean_appdir X w.
Proof.
  intros H1 H2 Hagree.
  rewrite (clean_appdir_removable X w H1), (clean_appdir_removable X (set_fs f2 w) H2).
  cbn [fs set_fs]. by rewrite (outside_agree _ f2 (fs w) Hagree).
Qed.

(** ** The files a run leaves *)

Lemma regular_lookup (f : FS) (q : loc) :
  regular f q ↔ q ≠ [] ∧ ∃ mode data, f !! q = Some (File mode data).
Proof.
  unfold regular. destruct q as [|c q]; cbn [node_at].
  - split; [by intros (? & ? & ?)|by intros [? _]].
  - split; [intros H; by split|by intros [_ H]].
Qed.

Lemma regular_is_file (f : FS) (q : loc) : regular f q → is_file f q = true.
Proof.
  intros (mode & data & H). unfold is_file, stat.
  assert (follow MAXSYMLINKS f q = Some q) as ->.
  { rewrite MAXSYMLINKS_eq. cbn [follow]. by rewrite H. }
  by rewrite H.
Qed.

Lemma keeps_refl (f : FS) : keeps f f.
Proof. by intros q. Qed.

Lemma keeps_trans (f g h : FS) : keeps f g → keeps g h → keeps f h.
Proof. intros H1 H2 q Hq. by apply H2, H1. Qed.

Lemma keeps_insert_file (f : FS) (r : loc) (mode : Z) (data : string) :
  r ≠ [] → keeps f (<[r := File mode data]> f) ∧ regular (<[r := File mode data]> f) r.
Proof.
  intros Hr. split.
  - intros q Hq. apply regular_lookup in Hq as [Hne (m & d & Hq)]. apply regular_lookup.
    split; [done|]. destruct (decide (r = q)) as [->|Hrq].
    + exists mode, data. apply lookup_insert_eq.
    + exists m, d. by rewrite lookup_insert_ne.
  - apply regular_lookup. split; [done|]. exists mode, data. apply lookup_insert_eq.
Qed.

Lemma keeps_mkdir (X : Externals) (p : Path) (w w' : World) :
  mkdir X p w = (Ok tt, w') → keeps (fs w) (fs w').
Proof.
  intros H. apply mkdir_ok_inv in H as (_ & _ & Hframe).
  intros q Hq. apply regular_lookup in Hq as [Hne (m & d & Hq)]. apply regular_lookup.
  split; [done|]. exists m, d.
  destruct (Hframe q) as [->|(_ & Hnone & _)]; [done|congruence].
Qed.

Lemma keeps_shutil_copy2 (X : Externals) (src dst : Path) (w w' : World) :
  shutil_copy2 X src dst w = (Ok tt, w') → keeps (fs w) (fs w').
Proof.
  unfold shutil_copy2. intros H. apply fs_op_ok_inv in H as (f' & Hc & ->).
  apply copy2_inv in Hc as (mode & data & r & _ & _ & Hr & -> & _).
  cbn [fs set_fs]. by apply keeps_insert_file.
Qed.

Lemma keeps_unlink (refused : loc → bool) (f f' : FS) (l q : loc) :
  unlink refused f l = inr f' → q ≠ l → regular f q → regular f' q.
Proof.
  intros Hu Hql Hq.
  assert (f' = delete l f) as ->.
  { unfold unlink in Hu. destruct (node_at f l) as [[]|]; try done;
      (destruct (refused l); [done|]); by injection Hu as <-. }
  apply regular_lookup in Hq as [Hne (m & d & Hq)]. apply regular_lookup.
  split; [done|]. exists m, d. by rewrite lookup_delete_ne.
Qed.

(** The icons, when the loop returns with a [convert] that obeys. *)
Lemma make_icons_ok_files (X : Externals) (im : string) (icon : Path) (sizes : list Z)
    (w w' : World) :
  convert_obeys X im icon → (∀ size, In size sizes → In size SIZES) →
  make_icons X im icon sizes w = (Ok tt, w') →
  keeps (fs w) (fs w') ∧
  Forall (λ size, regular (fs w') (here X (icon_dir X size // "diskfmt.png"))) sizes.
Proof.
  intros Hob. revert w. induction sizes as [|size rest IH]; intros w Hin; cbn [make_icons].
  - intros [= <-]. split; [apply keeps_refl|constructor].
  - intros H. apply bind_Ok_inv in H as ([] & w1 & Hm & H).
    apply bind_Ok_inv in H as ([] & w2 & Hc & H).
    pose proof (keeps_mkdir _ _ _ _ Hm) as K1.
    apply call_ok_inv in Hc as (_ & _ & _ & _ & report & Hsp).
    destruct (Hob size _ _ _ _ (Hin size (or_introl eq_refl)) Hsp) as [K2 Hreg].
    apply IH in H as [K3 Hall]; [|intros s Hs; apply Hin; by right].
    split; [by eapply keeps_trans; [|eapply keeps_trans]|].
    constructor; [by apply K3|exact Hall].
Qed.

Lemma stage_icons_ok_files (X : Externals) (im : string) (icon : Path) (w w' : World) :
  convert_obeys X im icon →
  stage_icons X im icon w = (Ok tt, w') →
  Forall (λ size, regular (fs w') (here X (icon_dir X size // "diskfmt.png"))) SIZES.
Proof.
  intros Hob H. unfold stage_icons in H. apply bind_Ok_inv in H as ([] & w1 & Hi & Hc).
  apply (make_icons_ok_files X im icon SIZES w w1 Hob) in Hi as [_ Hall]; [|done].
  pose proof (keeps_shutil_copy2 _ _ _ _ _ Hc) as K.
  eapply Forall_impl; [exact Hall|]. intros size Hs. by apply K.
Qed.

(** The first helper tool: the world it is started in and the one it leaves. *)
Lemma run_linuxdeploy_ok_files (X : Externals) (linuxdeploy : Path) (tool1 tool2 : string)
    (output : Path) (w w' : World) :
  local_get X (path_str linuxdeploy) w = (Ok tool1, w) →
  helpers_keep X tool1 tool2 output →
  run_linuxdeploy X linuxdeploy w = (Ok tt, w') → keeps (fs w) (fs w').
Proof.
  intros Ht Hk H. unfold run_linuxdeploy in H.
  apply bind_Ok_inv in H as (tool & w1 & Hg & Hc).
  rewrite Ht in Hg. injection Hg as <- <-.
  apply call_ok_inv in Hc as (_ & _ & _ & _ & report & Hsp).
  eapply Hk. left. exact Hsp.
Qed.

(** The last block: the output is a file when the second helper tool has
    written it, and a file that was there before the block is there after
    it, the output apart. *)
Lemma package_ok_files (X : Externals) (version : obj) (arch : string) (appimagetool : Path)
    (tool1 tool2 : string) (w w' : World) :
  local_get X (path_str appimagetool) w = (Ok tool2, w) →
  package X version arch appimagetool w = (Ok tt, w') →
  (packager_writes X tool2 (output_path X (env w) version arch) →
   is_file (fs w') (here X (output_path X (env w) version arch)) = true) ∧
  (helpers_keep X tool1 tool2 (output_path X (env w) version arch) →
   ∀ q, q ≠ here X (output_path X (env w) version arch) →
        regular (fs w) q → regular (fs w') q).
Proof.
  unfold package. intros Ht H.
  apply bind_Ok_inv in H as (e & w0 & [= <- <-] & H).
  set (output := output_path X (env w) version arch) in *.
  apply bind_Ok_inv in H as ([] & w1 & Hm & H).
  pose proof (keeps_mkdir _ _ _ _ Hm) as K1.
  apply bind_Ok_inv in H as (there & w2 & [= <- <-] & H).
  apply bind_Ok_inv in H as ([] & w3 & Hu & H).
  apply bind_Ok_inv in H as (tool & w4 & Hg & H).
  destruct (local_get_pure _ _ _ _ _ Hg) as [-> _].
  rewrite (local_get_any X _ _ w w3 Ht) in Hg. injection Hg as <-.
  apply bind_Ok_inv in H as ([] & w5 & Hc & [= <-]).
  apply call_ok_inv in Hc as (_ & _ & _ & _ & report & Hsp).
  cbn [fs add_stdout]. split.
  - intros Hw. exact (Hw _ _ _ _ Hsp).
  - intros Hk q Hq Hreg. apply (Hk _ _ _ _ (or_intror Hsp)).
    apply K1 in Hreg.
    destruct (exists_ (fs w1) (here X output)).
    + apply fs_op_ok_inv in Hu as (f' & Hu & ->). cbn [fs set_fs].
      by apply (keeps_unlink _ _ _ _ _ Hu Hq).
    + by injection Hu as <-.
Qed.

Lemma staging_ok_files (X : Externals) (e : gmap string string) (version : obj) (im : string)
    (tool1 tool2 : string) (w w' : World) :
  local_get X (path_str (linuxdeploy_of X e)) w = (Ok tool1, w) →
  local_get X (path_str (appimagetool_of X e)) w = (Ok tool2, w) →
  staging X e version im w = (Ok tt, w') →
  (packager_writes X tool2 (output_path X (env w) version (arch_of X e)) →
   is_file (fs w') (here X (output_path X (env w) version (arch_of X e))) = true) ∧
  (convert_obeys X im (icon_src_of X e) →
   helpers_keep X tool1 tool2 (output_path X (env w) version (arch_of X e)) →
   packager_writes X tool2 (output_path X (env w) version (arch_of X e)) →
   Forall (λ size, is_file (fs w') (here X (icon_dir X size // "diskfmt.png")) = true) SIZES).
Proof.
  unfold staging. intros Ht1 Ht2 H.
  apply bind_Ok_inv in H as ([] & w1 & H1 & H).
  apply bind_Ok_inv in H as ([] & w2 & H2 & H).
  apply bind_Ok_inv in H as ([] & w3 & H3 & H).
  apply bind_Ok_inv in H as ([] & w4 & H4 & H).
  apply bind_Ok_inv in H as ([] & w5 & H5 & H).
  apply bind_Ok_inv in H as ([] & w6 & H6 & H7).
  apply (fs_only_ok _ _ _ _ (touches_clean_appdir X)) in H1 as (E1 & _).
  apply (fs_only_ok _ _ _ _ (touches_stage_desktop X version)) in H2 as (E2 & _).
  apply (fs_only_ok _ _ _ _ (touches_stage_symlink X)) in H3 as (E3 & _).
  apply (fs_only_ok _ _ _ _ (touches_stage_metadata X)) in H4 as (E4 & _).
  pose proof (stage_icons_ok_inv _ _ _ _ _ H5) as (E5 & _).
  pose proof (run_linuxdeploy_ok_inv _ _ _ _ H6) as (E6 & _).
  assert (env w6 = env w) as E by (by rewrite E6, E5, E4, E3, E2, E1).
  destruct (package_ok_files X version (arch_of X e) _ tool1 tool2 w6 w'
              (local_get_any X _ _ w w6 Ht2) H7) as [Hout Hkeep].
  rewrite E in Hout, Hkeep.
  split; [exact Hout|].
  intros Hob Hk Hw.
  pose proof (stage_icons_ok_files _ _ _ _ _ Hob H5) as Hall.
  pose proof (run_linuxdeploy_ok_files X _ tool1 tool2 _ w5 w6
                (local_get_any X _ _ w w5 Ht1) Hk H6) as K6.
  eapply Forall_impl; [exact Hall|]. intros size Hs. cbv beta in *.
  destruct (decide (here X (icon_dir X size // "diskfmt.png")
                    = here X (output_path X (env w) version (arch_of X e)))) as [Eq|Hne].
  - rewrite Eq. by apply Hout.
  - apply regular_is_file, Hkeep; [done|done|]. by apply K6.
Qed.

Lemma here_join (X : Externals) (p : Path) (s : string) :
  anchored (Path_of s) = false → Forall (λ c, c ≠ "..") (parts (Path_of s)) →
  here X (p // s) = here X p ++ parts (Path_of s).
Proof.
  intros Ha Hp. unfold joinpath. rewrite Ha. unfold here, locate. cbn [anchored parts].
  destruct (anchored p); [|rewrite app_assoc]; by apply climb_app_plain.
Qed.

Lemma here_icon_file (X : Externals) (size : Z) :
  In size SIZES →
  here X (icon_dir X size // "diskfmt.png") =
  here X (appdir X) ++
    ["usr"; "share"; "icons"; "hicolor"; decimal size +:+ "x" +:+ decimal size; "apps";
     "diskfmt.png"].
Proof.
  intros Hin. rewrite (here_join X _ "diskfmt.png"); [|done|].
  - rewrite (here_icon_dir X size Hin), <- app_assoc. done.
  - replace (parts (Path_of "diskfmt.png")) with ["diskfmt.png"] by (vm_compute; reflexivity).
    repeat constructor; done.
Qed.

(** A run with exit code 0 went through the staging. *)
Lemma run_ok_staging (X : Externals) (w w' : World) :
  run X w = (0, w') →
  ∃ cv cg version w5,
    which X "convert" = Some cv ∧ which X "cargo" = Some cg ∧
    resolve_version X w = (Ok version, w) ∧
    env w5 = child_env X (env w) ∧
    staging X (env w) version cv w5 = (Ok tt, w').
Proof.
  intros Hrun.
  destruct (which X "convert") as [cv|] eqn:Hcv.
  2:{ by rewrite (run_import_convert _ _ Hcv) in Hrun. }
  destruct (which X "cargo") as [cg|] eqn:Hcg.
  2:{ by rewrite (run_import_cargo _ _ _ Hcv Hcg) in Hrun. }
  rewrite (run_of_main _ _ _ _ Hcv Hcg) in Hrun.
  destruct (resolve_version_cases X w) as [(v & Hv & _)|[Hv|(e & Hv & He)]].
  2:{ by rewrite (main_no_version _ _ _ _ _ Hv) in Hrun. }
  2:{ rewrite (main_no_version _ _ _ _ _ Hv) in Hrun. destruct e; try done.
      by destruct (He code). }
  destruct (missing_input X (fs w) (icon_src_of X (env w))) as [msg|] eqn:Hm.
  { by rewrite (main_check_failed X w cv cg msg v Hcv Hv Hm) in Hrun. }
  rewrite (main_reaches_acquire _ _ _ _ _ Hcv Hv Hm) in *.
  set (w0 := set_env (child_env X (env w)) w) in *.
  destruct (acquire X cg (env w) v cv w0) as [r w1] eqn:Ha.
  apply exit_of_zero in Hrun as [-> ->].
  2:{ intros c ->.
      destruct (acquire_cases _ _ _ _ _ _ _ _ Ha) as [(? & ? & _)|[(? & _)|(_ & Hne)]];
        [done|by simplify_eq|by destruct (Hne c)]. }
  unfold acquire in Ha.
  apply bind_Ok_inv in Ha as ([] & w2 & H1 & Ha).
  apply bind_Ok_inv in Ha as ([] & w3 & H2 & Ha).
  apply bind_Ok_inv in Ha as ([] & w4 & H3 & Ha).
  apply bind_Ok_inv in Ha as ([] & w5 & H4 & H5).
  apply mkdir_ok_inv in H1 as (E1 & _ & _).
  pose proof (touches_download_tool X (linuxdeploy_url_of X (env w)) (linuxdeploy_of X (env w)) w2)
    as (Ee3 & _). rewrite H2 in Ee3. specialize (Ee3 eq_refl).
  pose proof (touches_download_tool X (appimagetool_url_of X (env w)) (appimagetool_of X (env w)) w3)
    as (Ee4 & _). rewrite H3 in Ee4. specialize (Ee4 eq_refl).
  apply build_if_missing_ok_inv in H4 as (_ & E5 & _).
  exists cv, cg, v, w5. split; [done|]. split; [done|]. split; [done|].
  split; [|exact H5].
  rewrite E5. simpl in Ee4, Ee3. rewrite Ee4, Ee3, E1. done.
Qed.

Lemma split_on_no_sep (sep : ascii) (s : string) :
  Forall (λ x, contains (String sep "") x = false) (split_on sep s).
Proof.
  induction s as [|c s IH]; [by repeat constructor|]. cbn [split_on].
  destruct (Ascii.eqb c sep) eqn:E; [by constructor|].
  destruct (split_on sep s) as [|hd tl].
  - repeat constructor. rewrite contains_char_cons, Ascii.eqb_sym, E. done.
  - apply Forall_cons in IH as [Hhd Htl]. constructor; [|done].
    by rewrite contains_char_cons, Ascii.eqb_sym, E, Hhd.
Qed.

Lemma last_no_slash (l : list string) (d : string) :
  Forall (λ x, contains "/" x = false) l → contains "/" d = false →
  contains "/" (List.last l d) = false.
Proof.
  intros Hl Hd. induction Hl as [|x l Hx Hl IH]; [done|].
  destruct l; [done|]. exact IH.
Qed.

Lemma last_app_cons (a : list string) (x : string) (l : list string) (d : string) :
  List.last (a ++ x :: l) d = List.last (x :: l) d.
Proof.
  induction a as [|y a IH]; [done|]. rewrite <- IH. cbn [app List.last].
  by destruct (a ++ x :: l) eqn:E; [destruct a|].
Qed.

(** The file name of the default output holds no slash. *)
Lemma output_name_no_slash (X : Externals) (e : gmap string string) (version : obj)
    (arch : string) :
  e !! "OUTPUT" = None → contains "/" (name (output_path X e version arch)) = false.
Proof.
  intros He. unfold output_path. rewrite He. unfold name, joinpath.
  set (s := "diskfmt-" +:+ format_obj X version +:+ "-" +:+ arch +:+ ".AppImage").
  assert (anchored (Path_of s) = false) as -> by done.
  cbn [parts].
  assert (Forall (λ x, contains "/" x = false) (parts (Path_of s))) as Hs.
  { unfold Path_of. cbn [parts]. apply Forall_forall. intros x Hx.
    apply list_elem_of_In, List.filter_In in Hx as [Hx _].
    pose proof (split_on_no_sep "/"%char s) as Hall. rewrite Forall_forall in Hall.
    apply Hall. by apply list_elem_of_In. }
  destruct (parts (Path_of s)) as [|x l] eqn:El.
  - rewrite app_nil_r. unfold appimage_dir, build_dir, joinpath. cbn.
    by rewrite List.last_last.
  - rewrite last_app_cons. by apply last_no_slash.
Qed.

(** * The claims *)




(** The entry of a checkout that is read-only: the copy keeps the mode, the
    run ends with the permission error of line 78, and the staged entry is
    the copy, without the key. *)
Lemma read_only_entry_is_not_stamped :
  (run sample_X (sample_world sample_env_version sample_readonly_source_fs)).1 = 1 ∧
  stderr (run sample_X (sample_world sample_env_version sample_readonly_source_fs)).2
    = [Traceback
         (OSError EACCES
            "/repo/target/appimage/AppDir/usr/share/applications/diskfmt.desktop")] ∧
  stat (fs (run sample_X (sample_world sample_env_version sample_readonly_source_fs)).2)
    sample_staged_desktop = Some (File 292 "[Desktop Entry]").
Proof. repeat split; vm_compute; reflexivity. Qed.

(** C9.  A tool whose target is a file already, whatever its bytes and its
    mode, makes [download_tool] return at once: nothing is read, written,
    printed or fetched, the world is the one before.  When the target is
    not there, the only file the call can change is a new one: after a
    download that succeeded it holds the body delivered and has the three
    execute bits added to the mode it was created with; after one that
    failed, any file found is one that was there before, as it was, or a
    new one still with the mode it was created with. *)
Theorem existing_tool_is_trusted (X : Externals) (url : string) (target : Path) (w : World) :
  (is_file (fs w) (here X target) = true → download_tool X url target w = (Ok tt, w)) ∧
  (is_file (fs w) (here X target) = false →
   match download_tool X url target w with
   | (Ok _, w') =>
       ∃ r0 data k,
         follow MAXSYMLINKS (fs w) (here X target) = Some r0 ∧ fs w !! r0 = None ∧
         delivered X k url = Some data ∧
         fs w' = <[r0 := File (Z.lor (new_file_mode X) S_IXALL) data]> (fs w)
   | (Raise _, w') =>
       ∀ q mode data,
         fs w' !! q = Some (File mode data) →
         fs w !! q = Some (File mode data) ∨ (fs w !! q = None ∧ mode = new_file_mode X)
   end).
Proof.
  split; [apply download_tool_present|].
  intros Hnf.
  destruct (download_tool_absent X url target w Hnf)
    as (k & r & w' & E & _ & _ & _ & _ & _ & Hr).
  rewrite E. destruct r as [[]|e].
  - destruct Hr as (_ & _ & data & r0 & Hd & Hf & _ & Hn & Hfs).
    exists r0, data, (fetches (log w) + (k - 1))%nat. by repeat split.
  - destruct Hr as (_ & _ & _ & Hts & _). intros q mode data Hq.
    by apply (tool_state_frame X target (fs w) (fs w') q mode data).
Qed.

(** C10.  For a tool whose target is not there: when each of the three
    connections fails, the call ends with exit status 1 and the file
    system is the one before, no target was created.  When the target can
    be opened and the call fails although the last connection was made,
    a new file stays where the target leads: empty if the body could not be
    read, the part of the body that was stored if the write failed; that
    file makes the target a file, so any later call for this target, with
    any address, returns at once and leaves it as it is. *)
Theorem failed_download_leaves_partial_file (X : Externals) (url : string) (target : Path)
    (w : World) :
  is_file (fs w) (here X target) = false →
  ((∀ j, (j < 3)%nat → ∃ reason, urlopen X (fetches (log w) + j) url = ConnectFails reason) →
   ∃ w', download_tool X url target w = (Raise (SystemExit 1), w') ∧ fs w' = fs w) ∧
  (∀ e w',
     can_open X (fs w) target = true →
     (∀ reason, urlopen X (fetches (log w) + 2) url ≠ ConnectFails reason) →
     download_tool X url target w = (Raise e, w') →
     ∃ r0 data,
       follow MAXSYMLINKS (fs w) (here X target) = Some r0 ∧ fs w !! r0 = None ∧
       fs w' = <[r0 := File (new_file_mode X) data]> (fs w) ∧
       match urlopen X (fetches (log w) + 2) url with
       | ReadFails _ => data = ""
       | Body body =>
           ∃ k, write_fault X (fetches (log w) + 2) = Some k ∧
                data = String.substring 0 k body
       | ConnectFails _ => False
       end ∧
       is_file (fs w') (here X target) = true ∧
       ∀ url' w2, fs w2 = fs w' → download_tool X url' target w2 = (Ok tt, w2)).
Proof.
  intros Hnf. split; [by apply download_tool_offline|].
  intros e w' Hc Hconn E.
  destruct (download_tool_absent X url target w Hnf)
    as (k & r & w1 & E1 & _ & _ & _ & _ & _ & Hr).
  rewrite E in E1. injection E1 as <- <-.
  destruct Hr as (_ & _ & _ & _ & e' & _ & w2 & w3 & Hn & Hts & Hfi & Hfs).
  rewrite <- Hn in Hconn.
  destruct (last_attempt_leaves_file X url target (fs w) w2 e' w3 Hnf Hts Hc Hconn Hfi)
    as (r0 & data & Hf & Hr0 & Hnone & Hfs3 & Hdata).
  rewrite Hn in Hdata. rewrite <- Hfs in Hfs3.
  exists r0, data. split; [exact Hf|]. split; [exact Hnone|]. split; [exact Hfs3|].
  split; [exact Hdata|].
  assert (is_file (fs w') (here X target) = true) as Hfile.
  { rewrite Hfs3.
    destruct (stat_insert (fs w) (here X target) r0 (File (new_file_mode X) data) Hf Hr0 eq_refl)
      as [_ Hs].
    unfold is_file. clear Hf. by rewrite Hs. }
  split; [exact Hfile|].
  intros url' w4 Hw4. apply download_tool_present. by rewrite Hw4.
Qed.
Lemma failed_download_leaves_partial_file_witness :
  is_file (fs (sample_world ∅ sample_ready_fs))
    (here (sample net_cut (λ _, false)) (linuxdeploy_of (sample net_cut (λ _, false)) ∅)) = false
  ∧ ∃ r0,
      follow MAXSYMLINKS sample_ready_fs
        (here (sample net_cut (λ _, false)) (linuxdeploy_of (sample net_cut (λ _, false)) ∅))
        = Some r0
      ∧ fs (download_tool (sample net_cut (λ _, false)) "https://example.org/linuxdeploy"
              (linuxdeploy_of (sample net_cut (λ _, false)) ∅)
              (sample_world ∅ sample_ready_fs)).2
        = <[r0 := File 420 ""]> sample_ready_fs.
Proof.
  assert (is_file (fs (sample_world ∅ sample_ready_fs))
            (here (sample net_cut (λ _, false))
               (linuxdeploy_of (sample net_cut (λ _, false)) ∅)) = false) as H
    by (vm_compute; reflexivity).
  split; [exact H|].
  destruct (failed_download_leaves_partial_file (sample net_cut (λ _, false))
              "https://example.org/linuxdeploy"
              (linuxdeploy_of (sample net_cut (λ _, false)) ∅)
              (sample_world ∅ sample_ready_fs) H) as [_ H2].
  destruct (H2 (SystemExit 1)
              (download_tool (sample net_cut (λ _, false)) "https://example.org/linuxdeploy"
                 (linuxdeploy_of (sample net_cut (λ _, false)) ∅)
                 (sample_world ∅ sample_ready_fs)).2)
    as (r0 & data & Hf & _ & Hfs & Hd & _).
  - vm_compute. reflexivity.
  - intros reason. vm_compute. discriminate.
  - apply pair_of_fst. vm_compute. reflexivity.
  - exists r0. split; [exact Hf|].
    assert (data = "") as <-; [|exact Hfs].
    revert Hd. vm_compute. intros Hd; exact Hd .
Defined.

(** C1.  A call of [download_tool] for a target that is not there makes
    between one and three attempts, with a pause of two seconds after each
    one that failed but the last; every attempt before the last one made
    failed.  When it returns, the attempt it stopped at delivered the whole
    body, the new file holds it, and nothing went to the error stream.
    When it fails, three attempts were made, the third failed too, and the
    call ends with exit status 1 after one line on the error stream.  In
    particular two failures and then a success give a silent return after
    three attempts.  In a run that got as far as the downloads, a download
    that fails ends the run with exit code 1 in the world that download
    left.  A run whose last error line is that of a failed download has
    exit code 1 and started no program; no entry below the staging
    directory was changed, provided the places the two targets lead to are
    not below the staging directory. *)
Theorem download_retry_policy (X : Externals) :
  (∀ url target w,
     is_file (fs w) (here X target) = false →
     ∃ k r w',
       download_tool X url target w = (r, w') ∧ (1 ≤ k ≤ 3)%nat ∧
       log w' = log w ++ retry_trace url k ∧
       (∀ j, (j < k - 1)%nat →
             can_open X (fs w) target = false ∨ delivered X (fetches (log w) + j) url = None) ∧
       match r with
       | Ok _ =>
           stderr w' = stderr w ∧
           ∃ data r0, delivered X (fetches (log w) + (k - 1)) url = Some data ∧
                      follow MAXSYMLINKS (fs w) (here X target) = Some r0 ∧
                      fs w' = <[r0 := File (Z.lor (new_file_mode X) S_IXALL) data]> (fs w)
       | Raise e =>
           k = 3%nat ∧ e = SystemExit 1 ∧
           (can_open X (fs w) target = false
            ∨ delivered X (fetches (log w) + 2) url = None) ∧
           ∃ reason, stderr w' = stderr w ++
                       [Printed ("Failed to download " +:+ url +:+ ": " +:+ reason)]
       end) ∧
  (∀ url target w data,
     is_file (fs w) (here X target) = false →
     can_open X (fs w) target = true →
     delivered X (fetches (log w)) url = None →
     delivered X (fetches (log w) + 1) url = None →
     delivered X (fetches (log w) + 2) url = Some data →
     ∃ w' r0,
       download_tool X url target w = (Ok tt, w') ∧ stderr w' = stderr w ∧
       log w' = log w ++ [Urlopen url; Sleep 2; Urlopen url; Sleep 2; Urlopen url] ∧
       follow MAXSYMLINKS (fs w) (here X target) = Some r0 ∧
       fs w' = <[r0 := File (Z.lor (new_file_mode X) S_IXALL) data]> (fs w)) ∧
  (∀ w w2 cv cg v f1 e,
     which X "convert" = Some cv → which X "cargo" = Some cg →
     resolve_version X w = (Ok v, w) →
     missing_input X (fs w) (icon_src_of X (env w)) = None →
     mkdir_p (fs w) (here X (appimage_dir X)) = inr f1 →
     download_tool X (linuxdeploy_url_of X (env w)) (linuxdeploy_of X (env w))
       (set_fs f1 (set_env (child_env X (env w)) w)) = (Raise e, w2)
     ∨ (∃ wm,
          download_tool X (linuxdeploy_url_of X (env w)) (linuxdeploy_of X (env w))
            (set_fs f1 (set_env (child_env X (env w)) w)) = (Ok tt, wm) ∧
          download_tool X (appimagetool_url_of X (env w)) (appimagetool_of X (env w)) wm
            = (Raise e, w2)) →
     run X w = (1, w2)) ∧
  (∀ w w' code url reason,
     run X w = (code, w') →
     stderr w' = stderr w ++ [Printed ("Failed to download " +:+ url +:+ ": " +:+ reason)] →
     code = 1 ∧
     (∃ evs, log w' = log w ++ evs ∧ spawns evs = []) ∧
     ((∀ r, follow MAXSYMLINKS (fs w) (here X (linuxdeploy_of X (env w))) = Some r
            ∨ follow MAXSYMLINKS (fs w) (here X (appimagetool_of X (env w))) = Some r →
            ¬ here X (appdir X) `prefix_of` r) →
      ∀ q, here X (appdir X) `prefix_of` q → fs w' !! q = fs w !! q)).
Proof.
  split; [|split; [|split]].
  - intros url target w Hnf.
    destruct (download_tool_absent X url target w Hnf)
      as (k & r & w' & E & Hk & _ & Hlog & _ & Hfail & Hr).
    exists k, r, w'. split; [exact E|]. split; [exact Hk|]. split; [exact Hlog|].
    split; [exact Hfail|]. destruct r as [[]|e].
    + destruct Hr as (_ & Herr & data & r0 & Hd & Hf & _ & _ & Hfs).
      split; [exact Herr|]. by exists data, r0.
    + destruct Hr as (-> & -> & Hl & _ & e' & Herr & _).
      split; [done|]. split; [done|]. split; [exact Hl|]. by exists (exn_str e').
  - apply download_two_failures_then_success.
  - apply run_download_exhausted.
  - intros w w' code url reason Hrun Herr.
    destruct (run_failed_download X w w' code url reason Hrun Herr) as (Hc & Hl & Hfr).
    split; [exact Hc|]. split; [exact Hl|]. by apply download_frame_appdir.
Qed.
Lemma failed_download_writes_below_appdir :
  (run (sample net_cut (λ _, false)) (sample_world sample_env_tool_in_appdir sample_staged_fs)).1
    = 1 ∧
  stderr (run (sample net_cut (λ _, false))
            (sample_world sample_env_tool_in_appdir sample_staged_fs)).2
    = [Printed ("Failed to download " +:+
                "https://github.com/linuxdeploy/linuxdeploy/releases/download/continuous/linuxdeploy-x86_64.AppImage"
                +:+ ": " +:+ "connection reset")] ∧
  ¬ (∀ q, here (sample net_cut (λ _, false)) (appdir (sample net_cut (λ _, false)))
            `prefix_of` q →
          fs (run (sample net_cut (λ _, false))
                (sample_world sample_env_tool_in_appdir sample_staged_fs)).2 !! q
          = fs (sample_world sample_env_tool_in_appdir sample_staged_fs) !! q).
Proof.
  split; [vm_compute; reflexivity|]. split; [vm_compute; reflexivity|].
  intros H. specialize (H (sample_appdir ++ ["linuxdeploy"])).
  assert (here (sample net_cut (λ _, false)) (appdir (sample net_cut (λ _, false)))
            `prefix_of` sample_appdir ++ ["linuxdeploy"]) as Hp
    by (exists ["linuxdeploy"]; vm_compute; reflexivity).
  specialize (H Hp). vm_compute in H. discriminate H.
Qed.

Lemma download_retry_policy_witness :
  run (sample net_down (λ _, false)) (sample_world sample_env_version sample_ready_fs)
  = (1, (download_tool (sample net_down (λ _, false))
           (linuxdeploy_url_of (sample net_down (λ _, false)) sample_env_version)
           (linuxdeploy_of (sample net_down (λ _, false)) sample_env_version)
           (set_fs sample_ready_fs
              (set_env (child_env (sample net_down (λ _, false)) sample_env_version)
                 (sample_world sample_env_version sample_ready_fs)))).2).
Proof.
  destruct (download_retry_policy (sample net_down (λ _, false))) as (_ & _ & H & _).
  apply (H (sample_world sample_env_version sample_ready_fs) _
           "/usr/bin/convert" "/usr/bin/cargo" (Str "1.2.3") sample_ready_fs (SystemExit 1)).
  - reflexivity.
  - reflexivity.
  - apply resolve_version_override; [vm_compute; reflexivity|discriminate].
  - vm_compute. reflexivity.
  - apply mkdir_p_exists. vm_compute. reflexivity.
  - left. apply pair_of_fst. vm_compute. reflexivity.
Defined.

(** C4.  The check of lines 124-127 cannot fail: both programs are looked
    up when the module is loaded (lines 19-20), so a run without [convert]
    on the execution path ends there with the traceback of the import
    error and exit code 1, and a run without [cargo] likewise, whatever
    the input files are; the message of line 127 is printed by no run.
    With [convert] and [cargo] found and the version known, the first of
    the three input files that is missing (the desktop entry, the icon,
    the metadata, in this order) ends the run with exit code 1 and one
    line on the error stream that names the file.  In each of these cases
    the file system is the one the run started with and nothing was
    fetched or started: the log is unchanged. *)
Theorem failed_check_stops_the_run (X : Externals) (w : World) :
  (which X "convert" = None →
   run X w = (1, add_stderr (Traceback (ImportError "convert")) w)) ∧
  (∀ cv, which X "convert" = Some cv → which X "cargo" = None →
         run X w = (1, add_stderr (Traceback (ImportError "cargo")) w)) ∧
  (∃ new, stderr (run X w).2 = stderr w ++ new ∧
          Forall (λ line,
                    line ≠ Printed "ImageMagick 'convert' is required to generate icons")
            new) ∧
  (∀ cv cg v,
     which X "convert" = Some cv → which X "cargo" = Some cg →
     resolve_version X w = (Ok v, w) →
     (is_file (fs w) (here X (desktop_file X)) = false →
      run X w = (1, add_stderr
                      (Printed ("Desktop file not found: " +:+ path_str (desktop_file X)))
                      (set_env (child_env X (env w)) w))) ∧
     (is_file (fs w) (here X (desktop_file X)) = true →
      is_file (fs w) (here X (icon_src_of X (env w))) = false →
      run X w = (1, add_stderr
                      (Printed ("Icon not found: " +:+ path_str (icon_src_of X (env w))))
                      (set_env (child_env X (env w)) w))) ∧
     (is_file (fs w) (here X (desktop_file X)) = true →
      is_file (fs w) (here X (icon_src_of X (env w))) = true →
      is_file (fs w) (here X (metadata_file X)) = false →
      run X w = (1, add_stderr
                      (Printed ("Metadata not found: " +:+ path_str (metadata_file X)))
                      (set_env (child_env X (env w)) w)))) ∧
  (which X "convert" = None ∨ which X "cargo" = None
   ∨ (is_Some (which X "cargo") ∧ (∃ v, resolve_version X w = (Ok v, w)) ∧
      (is_file (fs w) (here X (desktop_file X)) = false
       ∨ is_file (fs w) (here X (icon_src_of X (env w))) = false
       ∨ is_file (fs w) (here X (metadata_file X)) = false)) →
   (run X w).1 = 1 ∧ fs (run X w).2 = fs w ∧ log (run X w).2 = log w ∧
   stdout (run X w).2 = stdout w ∧ ∃ line, stderr (run X w).2 = stderr w ++ [line]).
Proof.
  assert (∀ cv cg v, which X "convert" = Some cv → which X "cargo" = Some cg →
            resolve_version X w = (Ok v, w) →
            (is_file (fs w) (here X (desktop_file X)) = false
             ∨ is_file (fs w) (here X (icon_src_of X (env w))) = false
             ∨ is_file (fs w) (here X (metadata_file X)) = false) →
            ∃ msg, missing_input X (fs w) (icon_src_of X (env w)) = Some msg) as Hsome.
  { intros cv cg v _ _ _ H. unfold missing_input.
    destruct (is_file (fs w) (here X (desktop_file X))); [|by eexists].
    destruct (is_file (fs w) (here X (icon_src_of X (env w)))); [|by eexists].
    destruct (is_file (fs w) (here X (metadata_file X))); [|by eexists].
    by destruct H as [|[|]]. }
  split; [apply run_import_convert|]. split; [apply run_import_cargo|]. split; [|split].
  - destruct (which X "convert") as [cv|] eqn:Hcv.
    2:{ rewrite (run_import_convert _ _ Hcv). eexists. split; [reflexivity|].
        by repeat constructor. }
    destruct (which X "cargo") as [cg|] eqn:Hcg.
    2:{ rewrite (run_import_cargo _ _ _ Hcv Hcg). eexists. split; [reflexivity|].
        by repeat constructor. }
    rewrite (run_of_main _ _ _ _ Hcv Hcg).
    pose proof (main_ending X cg w) as He.
    destruct (main X cg w) as [r w1]. simpl in He.
    destruct He as [|e Hne|msg Hmsg|e|w1 url1 reason1 evs Herr1 Hlog Hsp Hfr|r w1 Herr1 Hne].
    + eexists. split; [reflexivity|]. by repeat constructor.
    + destruct e; [by destruct (Hne code)|..]; (eexists; split; [reflexivity|]);
        by repeat constructor.
    + eexists. split; [reflexivity|]. constructor; [|constructor].
      destruct Hmsg as [[Hno _]|[_ Hmsg]]; [by rewrite Hcv in Hno|].
      unfold missing_input in Hmsg. intros [= ->].
      repeat case_match; simplify_eq.
    + eexists. split; [reflexivity|]. by repeat constructor.
    + eexists. split; [exact Herr1|]. by repeat constructor.
    + destruct r as [[]|e]; [exists []; by rewrite app_nil_r|].
      destruct e; [by destruct (Hne code)|..]; simpl; rewrite Herr1;
        (eexists; split; [reflexivity|]); by repeat constructor.
  - intros cv cg v Hcv Hcg Hv. split; [|split].
    + intros H1. apply (run_check_failed X w cv cg _ v Hcv Hcg Hv).
      unfold missing_input. by rewrite H1.
    + intros H1 H2. apply (run_check_failed X w cv cg _ v Hcv Hcg Hv).
      unfold missing_input. by rewrite H1, H2.
    + intros H1 H2 H3. apply (run_check_failed X w cv cg _ v Hcv Hcg Hv).
      unfold missing_input. by rewrite H1, H2, H3.
  - intros Hcase.
    destruct (which X "convert") as [cv|] eqn:Hcv.
    2:{ rewrite (run_import_convert _ _ Hcv). simpl. repeat split. by eexists. }
    destruct (which X "cargo") as [cg|] eqn:Hcg.
    2:{ rewrite (run_import_cargo _ _ _ Hcv Hcg). simpl. repeat split. by eexists. }
    destruct Hcase as [?|[?|(_ & [v Hv] & Hmiss)]]; [done|done|].
    destruct (Hsome cv cg v eq_refl eq_refl Hv Hmiss) as [msg Hm].
    rewrite (run_check_failed X w cv cg msg v Hcv Hcg Hv Hm). simpl.
    repeat split. by eexists.
Qed.

Lemma failed_check_stops_the_run_witness :
  run (sample net_up (λ _, false)) (sample_world sample_env_version (delete ["repo"; "assets"; "icon.png"] sample_fs))
  = (1, add_stderr (Printed ("Icon not found: " +:+
                             path_str (icon_src_of (sample net_up (λ _, false)) sample_env_version)))
          (set_env (child_env (sample net_up (λ _, false)) sample_env_version)
             (sample_world sample_env_version (delete ["repo"; "assets"; "icon.png"] sample_fs)))).
Proof.
  destruct (failed_check_stops_the_run (sample net_up (λ _, false))
              (sample_world sample_env_version (delete ["repo"; "assets"; "icon.png"] sample_fs)))
    as (_ & _ & _ & H & _).
  destruct (H "/usr/bin/convert" "/usr/bin/cargo" (Str "1.2.3")) as (_ & H2 & _).
  - reflexivity.
  - reflexivity.
  - apply resolve_version_override; [vm_compute; reflexivity|discriminate].
  - apply H2; vm_compute; reflexivity.
Defined.

(** A machine without ImageMagick: the run ends with the traceback of the
    import, and the error stream does not hold the message of line 127. *)
Lemma missing_convert_ends_with_traceback :
  run sample_X_no_convert (sample_world sample_env_version sample_fs)
  = (1, add_stderr (Traceback (ImportError "convert"))
          (sample_world sample_env_version sample_fs))
  ∧ stderr (run sample_X_no_convert (sample_world sample_env_version sample_fs)).2
    ≠ [Printed "ImageMagick 'convert' is required to generate icons"].
Proof.
  rewrite (run_import_convert sample_X_no_convert _ eq_refl). split; [reflexivity|].
  discriminate.
Qed.

(** C7.  The version is the override [VERSION] when that is set to a string
    that is not empty.  When it is not set, or set to the empty string, the
    version is the [version] entry of the [package] table of the manifest,
    if the manifest is a file that holds such an entry and the entry is not
    an empty one; with no manifest, no [package] table, no [version] entry
    or an empty one, the script prints its message and ends with exit status
    1.  [main] goes on with the version found; when none is found the run
    has exit code 1, one more line on the error stream, and the file system
    and the log of its start. *)
Theorem version_from_override_or_manifest (X : Externals) (w : World) :
  (∀ s, env w !! "VERSION" = Some s → s ≠ "" → resolve_version X w = (Ok (Str s), w)) ∧
  (env w !! "VERSION" = None ∨ env w !! "VERSION" = Some "" →
   (∀ mode data items package v,
      stat (fs w) (here X (root_dir X // "Cargo.toml")) = Some (File mode data) →
      toml_loads X (universal_newlines data) = Some items →
      dict_get "package" items = Some (Table package) →
      dict_get "version" package = Some v → truthy (Some v) = true →
      resolve_version X w = (Ok v, w)) ∧
   (is_file (fs w) (here X (root_dir X // "Cargo.toml")) = false
    ∨ (∃ mode data items,
         stat (fs w) (here X (root_dir X // "Cargo.toml")) = Some (File mode data) ∧
         toml_loads X (universal_newlines data) = Some items ∧
         (dict_get "package" items = None
          ∨ ∃ package, dict_get "package" items = Some (Table package) ∧
                       truthy (dict_get "version" package) = false)) →
    resolve_version X w =
      (Raise (SystemExit 1),
       add_stderr (Printed "Failed to read version from Cargo.toml") w))) ∧
  (∀ cargo v, resolve_version X w = (Ok v, w) →
              main X cargo w = main_with_version X cargo (env w) v w) ∧
  (∀ cv cg e w1,
     which X "convert" = Some cv → which X "cargo" = Some cg →
     resolve_version X w = (Raise e, w1) →
     (run X w).1 = 1 ∧ fs (run X w).2 = fs w ∧ log (run X w).2 = log w ∧
     stdout (run X w).2 = stdout w ∧ ∃ line, stderr (run X w).2 = stderr w ++ [line]).
Proof.
  split; [apply resolve_version_override|]. split; [|split].
  - intros Hunset. rewrite (resolve_version_manifest X w Hunset). split.
    + intros mode data items package v Hs Ht Hp Hv Htr.
      rewrite (read_version_manifest X _ w mode data Hs), Ht, Hp, Hv. by rewrite Htr.
    + intros [Hnf|(mode & data & items & Hs & Ht & Hcase)].
      * by rewrite (read_version_no_manifest X _ w Hnf).
      * rewrite (read_version_manifest X _ w mode data Hs), Ht.
        destruct Hcase as [->|(package & -> & Htr)]; [done|]. by rewrite Htr.
  - intros cargo v Hv. by apply main_unfold.
  - intros cv cg e w1. apply run_no_version.
Qed.

Lemma version_from_override_or_manifest_witness :
  resolve_version sample_X (sample_world sample_env_version sample_fs)
  = (Ok (Str "1.2.3"), sample_world sample_env_version sample_fs).
Proof.
  destruct (version_from_override_or_manifest sample_X
              (sample_world sample_env_version sample_fs)) as [H _].
  apply (H "1.2.3"); [vm_compute; reflexivity|discriminate].
Defined.

Lemma empty_override_is_not_the_version :
  env (sample_world {[ "VERSION" := "" ]} sample_fs) !! "VERSION" = Some "" ∧
  (resolve_version sample_X (sample_world {[ "VERSION" := "" ]} sample_fs)).1
    = Ok (Str "1.2.3").
Proof. split; vm_compute; reflexivity. Qed.

(** C8.  A run with exit code 0 found [convert] and [cargo] and a version,
    and what it started is, in this order: the build, if the binary was not
    there; [convert] once for each of the six sizes 16, 32, 48, 64, 128 and
    256, asked to resize the icon to that size squared into
    [usr/share/icons/hicolor/<size>x<size>/apps/diskfmt.png] of the staging
    tree, the directory of that size being there when [convert] starts; the
    first helper tool; the second helper tool, once, with the output path,
    at which nothing exists when it starts; the two helper tools are the
    programs at the paths configured for them.  When the first helper tool
    starts, the icon of size 256 is a file and the icon at the root of the
    staging tree is a copy of it.  The files themselves are written by the
    programs, and the script does not look at what they wrote: when the run
    ends the output is a file if the second helper tool, returning 0, has
    written it, and the six icons are files if moreover [convert],
    returning 0, has written its last argument and neither [convert] nor
    the helper tools have taken a file away. *)
Theorem successful_run_icons_and_output (X : Externals) (w w' : World) :
  run X w = (0, w') →
  ∃ cv cg version,
    which X "convert" = Some cv ∧ which X "cargo" = Some cg ∧
    resolve_version X w = (Ok version, w) ∧
    SIZES = [16; 32; 48; 64; 128; 256] ∧
    Forall (λ size,
              here X (icon_dir X size) =
              here X (appdir X) ++
                ["usr"; "share"; "icons"; "hicolor";
                 decimal size +:+ "x" +:+ decimal size; "apps"]) SIZES ∧
    ∃ fetch_evs seen_build icon_evs tool1 tool2 seen1 seen2,
      log w' = log w ++ fetch_evs ++ build_events X cg seen_build ++ icon_evs ++
        [Spawn tool1 (deploy_args X) seen1;
         Spawn tool2 [path_str (appdir X);
                      path_str (output_path X (env w) version (arch_of X (env w)))] seen2] ∧
      spawns fetch_evs = [] ∧
      local_get X (path_str (linuxdeploy_of X (env w))) w = (Ok tool1, w) ∧
      local_get X (path_str (appimagetool_of X (env w))) w = (Ok tool2, w) ∧
      Forall2 (λ size ev,
                 ∃ seen,
                   ev = Spawn cv [path_str (icon_src_of X (env w)); "-resize";
                                  decimal size +:+ "x" +:+ decimal size;
                                  path_str (icon_dir X size // "diskfmt.png")] seen ∧
                   is_dir seen (here X (icon_dir X size)) = true)
        SIZES icon_evs ∧
      (∃ mode data,
         stat seen1 (here X (appdir X) ++
                     ["usr"; "share"; "icons"; "hicolor"; "256x256"; "apps"; "diskfmt.png"])
           = Some (File mode data) ∧
         (stat seen1 (here X (appdir X) ++ ["diskfmt.png"]) = Some (File mode data)
          ∨ stat seen1 (here X (appdir X) ++ ["diskfmt.png"; "diskfmt.png"])
            = Some (File mode data))) ∧
      exists_ seen2 (here X (output_path X (env w) version (arch_of X (env w)))) = false ∧
      (packager_writes X tool2 (output_path X (env w) version (arch_of X (env w))) →
       is_file (fs w') (here X (output_path X (env w) version (arch_of X (env w)))) = true) ∧
      (convert_obeys X cv (icon_src_of X (env w)) →
       helpers_keep X tool1 tool2 (output_path X (env w) version (arch_of X (env w))) →
       packager_writes X tool2 (output_path X (env w) version (arch_of X (env w))) →
       Forall (λ size,
                 is_file (fs w')
                   (here X (appdir X) ++
                      ["usr"; "share"; "icons"; "hicolor";
                       decimal size +:+ "x" +:+ decimal size; "apps"; "diskfmt.png"]) = true)
         SIZES).
Proof.
  intros Hrun.
  destruct (run_ok_inv X w w' Hrun)
    as (cv & cg & v & Hcv & Hcg & Hv & _ & _ & _ & _ & _ & fetch_evs & seen_build & icon_evs
        & tool1 & tool2 & seen1 & seen2 & Hlog & Hsp & Hicons & Ht1 & Ht2 & Hcopy & Hgone).
  destruct (run_ok_staging X w w' Hrun) as (cv' & cg' & v' & w5 & Hcv' & _ & Hv' & E5 & Hst).
  rewrite Hcv in Hcv'. injection Hcv' as <-. rewrite Hv in Hv'. injection Hv' as <-.
  destruct (staging_ok_files X (env w) v cv tool1 tool2 w5 w'
              (local_get_any X _ _ w w5 Ht1) (local_get_any X _ _ w w5 Ht2) Hst)
    as [Hout Hfiles].
  rewrite E5, output_path_child_env in Hout, Hfiles.
  exists cv, cg, v. split; [done|]. split; [done|]. split; [done|]. split; [done|].
  split. { apply Forall_forall. intros size Hin. apply here_icon_dir. by apply list_elem_of_In. }
  exists fetch_evs, seen_build, icon_evs, tool1, tool2, seen1, seen2.
  split; [exact Hlog|]. split; [exact Hsp|]. split; [exact Ht1|]. split; [exact Ht2|].
  split; [exact Hicons|].
  split; [|split; [exact Hgone|split; [exact Hout|]]].
  - destruct Hcopy as (mode & data & H256 & Hroot). exists mode, data.
    rewrite here_icon_256 in H256. rewrite here_root_icon, <- app_assoc in Hroot. done.
  - intros Hob Hk Hw. specialize (Hfiles Hob Hk Hw).
    apply Forall_forall. intros size Hin.
    rewrite Forall_forall in Hfiles. specialize (Hfiles size Hin). cbv beta in Hfiles.
    rewrite here_icon_file in Hfiles by (by apply list_elem_of_In). exact Hfiles.
Qed.

(** The sample programs obey. *)
Lemma sample_write_inv (f : FS) (l : loc) (mode : Z) (data report : string) (after : FS) :
  sample_write f l mode data = Exited 0 report after →
  l ≠ [] ∧ after = <[l := File mode data]> f.
Proof.
  unfold sample_write. destruct l as [|c l]; [done|]. rewrite node_at_cons.
  destruct (f !! (c :: l)) as [[]|]; intros [= <- <-]; done.
Qed.

Lemma sample_write_keeps (f : FS) (l : loc) (mode : Z) (data report : string) (after : FS) :
  sample_write f l mode data = Exited 0 report after → keeps f after ∧ regular after l.
Proof. intros [Hl ->]%sample_write_inv. by apply keeps_insert_file. Qed.

Lemma sample_spawn_keeps (program : string) (args : list string) (wd : loc)
    (e : gmap string string) (f : FS) (report : string) (after : FS) :
  sample_spawn program args wd e f = Exited 0 report after → keeps f after.
Proof.
  unfold sample_spawn. destruct (String.eqb program "/usr/bin/convert").
  { by intros [? _]%sample_write_keeps. }
  destruct (contains "appimagetool" program).
  { by intros [? _]%sample_write_keeps. }
  intros [= _ <-]. apply keeps_refl.
Qed.

Lemma sample_convert_obeys (icon : Path) : convert_obeys sample_X "/usr/bin/convert" icon.
Proof.
  intros size e f report after Hin Hsp. split; [by apply sample_spawn_keeps in Hsp|].
  change (spawn sample_X) with sample_spawn in Hsp. unfold sample_spawn in Hsp.
  change (String.eqb "/usr/bin/convert" "/usr/bin/convert") with true in Hsp. cbv iota in Hsp.
  apply sample_write_keeps in Hsp as [_ Hreg].
  replace (here sample_X (icon_dir sample_X size // "diskfmt.png"))
    with (locate (cwd sample_X) (Path_of (List.last (resize_args sample_X icon size) "")));
    [exact Hreg|].
  unfold SIZES in Hin. simpl in Hin.
  destruct Hin as [<-|[<-|[<-|[<-|[<-|[<-|[]]]]]]]; vm_compute; reflexivity.
Qed.

Lemma successful_run_icons_and_output_witness :
  (run sample_X (sample_world sample_env_version sample_fs)).1 = 0 ∧
  is_file (fs (run sample_X (sample_world sample_env_version sample_fs)).2)
    ["repo"; "target"; "appimage"; "diskfmt-1.2.3-x86_64.AppImage"] = true ∧
  Forall (λ size,
            is_file (fs (run sample_X (sample_world sample_env_version sample_fs)).2)
              (sample_appdir ++
                 ["usr"; "share"; "icons"; "hicolor";
                  decimal size +:+ "x" +:+ decimal size; "apps"; "diskfmt.png"]) = true)
    SIZES ∧
  ∃ evs seen1 seen2,
    log (run sample_X (sample_world sample_env_version sample_fs)).2 =
      evs ++
      [Spawn "/repo/target/appimage/linuxdeploy-x86_64.AppImage" (deploy_args sample_X) seen1;
       Spawn "/repo/target/appimage/appimagetool-x86_64.AppImage"
         ["/repo/target/appimage/AppDir";
          "/repo/target/appimage/diskfmt-1.2.3-x86_64.AppImage"] seen2] ∧
    exists_ seen2 ["repo"; "target"; "appimage"; "diskfmt-1.2.3-x86_64.AppImage"] = false.
Proof.
  assert (run sample_X (sample_world sample_env_version sample_fs)
          = (0, (run sample_X (sample_world sample_env_version sample_fs)).2)) as H
    by (apply pair_of_fst; vm_compute; reflexivity).
  split; [by rewrite H|].
  destruct (successful_run_icons_and_output sample_X
              (sample_world sample_env_version sample_fs) _ H)
    as (cv & cg & v & Hcv & _ & Hv & _ & _ & fetch_evs & seen_build & icon_evs & tool1
        & tool2 & seen1 & seen2 & Hlog & _ & Ht1 & Ht2 & _ & _ & Hgone & Hout & Hfiles).
  injection Hcv as <-.
  rewrite (resolve_version_override sample_X _ "1.2.3") in Hv;
    [|vm_compute; reflexivity|discriminate].
  injection Hv as <-.
  apply local_get_pure in Ht1 as [_ Ht1]. apply local_get_pure in Ht2 as [_ Ht2].
  vm_compute in Ht1, Ht2. subst tool1 tool2.
  set (output := output_path sample_X (env (sample_world sample_env_version sample_fs))
                   (Str "1.2.3")
                   (arch_of sample_X (env (sample_world sample_env_version sample_fs)))) in *.
  assert (here sample_X output = ["repo"; "target"; "appimage"; "diskfmt-1.2.3-x86_64.AppImage"])
    as Ehere by (vm_compute; reflexivity).
  assert (path_str output = "/repo/target/appimage/diskfmt-1.2.3-x86_64.AppImage") as Estr
    by (vm_compute; reflexivity).
  assert (packager_writes sample_X "/repo/target/appimage/appimagetool-x86_64.AppImage" output)
    as Hw.
  { intros e f report after Hsp. rewrite Ehere. apply regular_is_file.
    change (spawn sample_X) with sample_spawn in Hsp. unfold sample_spawn in Hsp.
    replace (String.eqb "/repo/target/appimage/appimagetool-x86_64.AppImage" "/usr/bin/convert")
      with false in Hsp by (vm_compute; reflexivity).
    replace (contains "appimagetool" "/repo/target/appimage/appimagetool-x86_64.AppImage")
      with true in Hsp by (vm_compute; reflexivity).
    cbv iota in Hsp. apply sample_write_keeps in Hsp as [_ Hreg].
    replace (locate (cwd sample_X)
               (Path_of (List.last [path_str (appdir sample_X); path_str output] "")))
      with ["repo"; "target"; "appimage"; "diskfmt-1.2.3-x86_64.AppImage"] in Hreg
      by (vm_compute; reflexivity).
    exact Hreg. }
  assert (helpers_keep sample_X "/repo/target/appimage/linuxdeploy-x86_64.AppImage"
            "/repo/target/appimage/appimagetool-x86_64.AppImage" output) as Hk.
  { intros e f report after [Hsp|Hsp]; exact (sample_spawn_keeps _ _ _ _ _ _ _ Hsp). }
  split; [rewrite <- Ehere; exact (Hout Hw)|].
  split; [exact (Hfiles (sample_convert_obeys _) Hk Hw)|].
  exists (log (sample_world sample_env_version sample_fs) ++ fetch_evs
          ++ build_events sample_X cg seen_build ++ icon_evs), seen1, seen2.
  split.
  - rewrite Hlog, Estr, <- !app_assoc. reflexivity.
  - rewrite <- Ehere. exact Hgone.
Defined.

(** Programs that return 0 without doing their work: the run has exit code
    0 and prints the output path, and neither the output nor the icon of
    size 16 exists. *)
Lemma idle_tools_leave_no_output :
  (run sample_X_idle (sample_world sample_env_version sample_fs)).1 = 0 ∧
  last (stdout (run sample_X_idle (sample_world sample_env_version sample_fs)).2)
    = Some "Created /repo/target/appimage/diskfmt-1.2.3-x86_64.AppImage" ∧
  exists_ (fs (run sample_X_idle (sample_world sample_env_version sample_fs)).2)
    ["repo"; "target"; "appimage"; "diskfmt-1.2.3-x86_64.AppImage"] = false ∧
  exists_ (fs (run sample_X_idle (sample_world sample_env_version sample_fs)).2)
    (sample_appdir ++ ["usr"; "share"; "icons"; "hicolor"; "16x16"; "apps"; "diskfmt.png"])
    = false.
Proof. repeat split; vm_compute; reflexivity. Qed.

(** C5.  Without the override [OUTPUT], for a version and an architecture
    that hold no slash, the output lies in the directory of the helper
    tools and its file name is [diskfmt-<version>-<arch>.AppImage]: for
    version 1.2.3 and architecture x86_64 it is
    [diskfmt-1.2.3-x86_64.AppImage].  A slash in the version or in the
    architecture is a separator to [pathlib]: the file name is then another
    one.  With the override the output is the path given.  The last block of [main] either fails before it starts
    anything, or starts the second helper tool with exactly two arguments,
    the staging directory and the output path, at a moment when nothing
    exists at the output path; when the block returns it has printed the
    output path.  A run with exit code 0 ends with this start of the second
    helper tool and this line. *)
Theorem output_name_and_second_tool (X : Externals) :
  (∀ e version arch,
     e !! "OUTPUT" = None →
     contains "/" (format_obj X version) = false → contains "/" arch = false →
     name (output_path X e version arch)
       = "diskfmt-" +:+ format_obj X version +:+ "-" +:+ arch +:+ ".AppImage" ∧
     parent (output_path X e version arch) = appimage_dir X) ∧
  (∀ e version arch,
     e !! "OUTPUT" = None →
     name (output_path X e version arch)
       = "diskfmt-" +:+ format_obj X version +:+ "-" +:+ arch +:+ ".AppImage" →
     contains "/" (format_obj X version) = false ∧ contains "/" arch = false) ∧
  (∀ e, e !! "OUTPUT" = None →
        name (output_path X e (Str "1.2.3") "x86_64") = "diskfmt-1.2.3-x86_64.AppImage") ∧
  (∀ e s version arch, e !! "OUTPUT" = Some s → output_path X e version arch = Path_of s) ∧
  (∀ version arch appimagetool w r w',
     package X version arch appimagetool w = (r, w') →
     (log w' = log w ∧ ∃ e, r = Raise e)
     ∨ ∃ tool seen,
         local_get X (path_str appimagetool) w = (Ok tool, w) ∧
         log w' = log w ++
           [Spawn tool [path_str (appdir X); path_str (output_path X (env w) version arch)]
              seen] ∧
         exists_ seen (here X (output_path X (env w) version arch)) = false ∧
         (r = Ok tt →
          stdout w' = stdout w ++
            ["Created " +:+ path_str (output_path X (env w) version arch)])) ∧
  (∀ w w',
     run X w = (0, w') →
     ∃ version tool seen,
       resolve_version X w = (Ok version, w) ∧
       local_get X (path_str (appimagetool_of X (env w))) w = (Ok tool, w) ∧
       last (log w') =
         Some (Spawn tool
                 [path_str (appdir X);
                  path_str (output_path X (env w) version (arch_of X (env w)))] seen) ∧
       exists_ seen (here X (output_path X (env w) version (arch_of X (env w)))) = false ∧
       last (stdout w') =
         Some ("Created " +:+
               path_str (output_path X (env w) version (arch_of X (env w))))).
Proof.
  split; [apply output_path_default|]. split; [|split; [|split; [|split]]].
  - intros e version arch He Hname.
    pose proof (output_name_no_slash X e version arch He) as Hno.
    rewrite Hname, !contains_slash_app in Hno.
    apply orb_false_elim in Hno as [_ Hno]. apply orb_false_elim in Hno as [Hv Hno].
    apply orb_false_elim in Hno as [_ Hno]. by apply orb_false_elim in Hno as [Ha _].
  - intros e He. by destruct (output_path_default X e (Str "1.2.3") "x86_64" He eq_refl eq_refl).
  - intros e s version arch He. unfold output_path. by rewrite He.
  - intros version arch appimagetool w r w'. apply package_inv.
  - intros w w' Hrun.
    destruct (run_ok_inv X w w' Hrun)
      as (cv & cg & v & _ & _ & Hv & _ & _ & _ & _ & [outs Hout] & fetch_evs & seen_build
          & icon_evs & tool1 & tool2 & seen1 & seen2 & Hlog & _ & _ & _ & Htool2 & _ & Hgone).
    exists v, tool2, seen2. split; [exact Hv|]. split; [exact Htool2|].
    split; [|split; [exact Hgone|]].
    + rewrite Hlog.
      change [Spawn tool1 (deploy_args X) seen1;
              Spawn tool2 [path_str (appdir X);
                           path_str (output_path X (env w) v (arch_of X (env w)))] seen2]
        with ([Spawn tool1 (deploy_args X) seen1] ++
              [Spawn tool2 [path_str (appdir X);
                            path_str (output_path X (env w) v (arch_of X (env w)))] seen2]).
      rewrite !app_assoc. apply last_snoc.
    + rewrite Hout. apply last_snoc.
Qed.

Lemma output_name_and_second_tool_witness :
  name (output_path sample_X ∅ (Str "1.2.3") "x86_64") = "diskfmt-1.2.3-x86_64.AppImage".
Proof.
  destruct (output_name_and_second_tool sample_X) as (_ & _ & H & _).
  apply H. reflexivity.
Defined.

(** A version with a slash: the file name is what follows the slash, and
    the output lies one directory further down. *)
Lemma slash_in_version_splits_the_name :
  name (output_path sample_X ∅ (Str "1/2") "x86_64") = "2-x86_64.AppImage" ∧
  name (output_path sample_X ∅ (Str "1/2") "x86_64") ≠ "diskfmt-1/2-x86_64.AppImage" ∧
  path_str (parent (output_path sample_X ∅ (Str "1/2") "x86_64"))
    = "/repo/target/appimage/diskfmt-1".
Proof.
  split; [vm_compute; reflexivity|]. split; [vm_compute; discriminate|].
  vm_compute. reflexivity.
Qed.

(** C6.  The exit code of a run is 0 or 1.  It is 0 exactly when [convert]
    and [cargo] were found and [main] returned; such a run wrote nothing to
    the error stream and the last line of its output is [Created] with the
    output path.  A run with exit code 1 wrote exactly one more line to the
    error stream.  A program that ends with a return code other than 0
    makes its call raise the error of plumbum with that code; when [main]
    ends with this error the run has exit code 1 and its error line is
    [Command failed (<code>): <report>], the code and the report being
    those of the program the run started last, and that code is not 0. *)
Theorem exit_code_zero_or_one (X : Externals) (w : World) :
  ((run X w).1 = 0 ∨ (run X w).1 = 1) ∧
  ((run X w).1 = 0 ↔
   ∃ cv cg w', which X "convert" = Some cv ∧ which X "cargo" = Some cg ∧
               main X cg w = (Ok tt, w')) ∧
  ((run X w).1 = 0 →
   stderr (run X w).2 = stderr w ∧
   ∃ version,
     resolve_version X w = (Ok version, w) ∧
     last (stdout (run X w).2) =
       Some ("Created " +:+
             path_str (output_path X (env w) version (arch_of X (env w))))) ∧
  ((run X w).1 = 1 → ∃ line, stderr (run X w).2 = stderr w ++ [line]) ∧
  (∀ program args wd w0 retcode report after,
     spawn X program args wd (env w0) (fs w0) = Exited retcode report after →
     retcode ≠ 0 →
     call X program args wd w0 =
       (Raise (ProcessExecutionError retcode report),
        set_fs after (add_log (Spawn program args (fs w0)) w0))) ∧
  (∀ cv cg retcode report w1,
     which X "convert" = Some cv → which X "cargo" = Some cg →
     main X cg w = (Raise (ProcessExecutionError retcode report), w1) →
     run X w =
       (1, add_stderr
             (Printed ("Command failed (" +:+ decimal retcode +:+ "): " +:+ report)) w1) ∧
     retcode ≠ 0 ∧
     ∃ program args wd seen,
       last (log w1) = Some (Spawn program args seen) ∧
       spawn X program args wd (env w1) seen = Exited retcode report (fs w1)).
Proof.
  split; [|split; [|split; [|split; [|split]]]].
  - destruct (run_exit_cases X w) as [[? _]|[? _]]; auto.
  - split.
    + intros H0.
      destruct (run_ok_inv X w (run X w).2 (pair_of_fst _ _ H0))
        as (cv & cg & v & Hcv & Hcg & _ & _ & Hmain & _).
      by exists cv, cg, (run X w).2.
    + intros (cv & cg & w' & Hcv & Hcg & Hmain).
      by rewrite (run_of_main _ _ _ _ Hcv Hcg), Hmain.
  - intros H0. split.
    + destruct (run_exit_cases X w) as [[_ ?]|[H1 _]]; [done|]. rewrite H0 in H1. done.
    + destruct (run_ok_inv X w (run X w).2 (pair_of_fst _ _ H0))
        as (cv & cg & v & _ & _ & Hv & _ & _ & _ & _ & [outs Hout] & _).
      exists v. split; [exact Hv|]. rewrite Hout. apply last_snoc.
  - intros H1. destruct (run_exit_cases X w) as [[H0 _]|[_ ?]]; [|done].
    rewrite H1 in H0. done.
  - intros program args wd w0 retcode report after. apply call_failed.
  - intros cv cg retcode report w1 Hcv Hcg Hmain.
    split; [by rewrite (run_of_main _ _ _ _ Hcv Hcg), Hmain|].
    apply (ces_main X cg w w1 retcode report Hmain).
Qed.

(** C3.  When the staging directory is a directory, or nothing is there,
    and the system refuses no removal below it: the block that cleans it
    goes on from a file system that holds nothing at or below the staging
    directory and is as before everywhere else; when the block returns,
    the staging tree consists of directories on the way to
    [usr/share/applications] and of nothing else; and the rest of [main]
    from this block on, the two helper tools included, ends in the same
    way and in the same world whatever the staging directory held before:
    it does not tell two file systems apart that differ only at or below
    the staging directory. *)
Theorem staging_starts_from_nothing (X : Externals) (w : World) :
  removable X (fs w) →
  clean_appdir X w =
    mkdir X (appdir X // "usr/share/applications")
      (set_fs (outside (here X (appdir X)) (fs w)) w) ∧
  (∀ q, here X (appdir X) `prefix_of` q → outside (here X (appdir X)) (fs w) !! q = None) ∧
  (∀ q, ¬ here X (appdir X) `prefix_of` q →
        outside (here X (appdir X)) (fs w) !! q = fs w !! q) ∧
  (∀ w', clean_appdir X w = (Ok tt, w') →
         is_dir (fs w') (here X (appdir X // "usr/share/applications")) = true ∧
         ∀ q, here X (appdir X) `prefix_of` q →
              fs w' !! q = None
              ∨ (fs w' !! q = Some Dir ∧
                 q `prefix_of` here X (appdir X // "usr/share/applications"))) ∧
  (∀ f2 e version im,
     removable X f2 →
     (∀ q, ¬ here X (appdir X) `prefix_of` q → f2 !! q = fs w !! q) →
     staging X e version im (set_fs f2 w) = staging X e version im w).
Proof.
  intros Hrem.
  split; [by apply clean_appdir_removable|].
  split; [intros q; apply outside_lookup_below|].
  split; [intros q; apply outside_lookup_other|].
  split.
  - intros w' H. rewrite (clean_appdir_removable X w Hrem) in H.
    apply mkdir_ok_inv in H as (_ & Hd & Hq). cbn [fs set_fs] in Hq.
    split; [exact Hd|]. intros q Hp.
    destruct (Hq q) as [E|(Hpre & _ & E)].
    + left. by rewrite E, outside_lookup_below.
    + right. by split.
  - intros f2 e version im Hrem2 Hagree. unfold staging.
    rewrite !(bind_unfold (clean_appdir X)).
    by rewrite (clean_appdir_agree X w f2 Hrem Hrem2 Hagree).
Qed.

Lemma staging_starts_from_nothing_witness :
  clean_appdir sample_X (sample_world ∅ sample_stale_fs) =
    mkdir sample_X (appdir sample_X // "usr/share/applications")
      (set_fs (outside (here sample_X (appdir sample_X)) sample_stale_fs)
         (sample_world ∅ sample_stale_fs)).
Proof.
  assert (removable sample_X (fs (sample_world ∅ sample_stale_fs))) as Hrem.
  { split; [left; vm_compute; reflexivity|]. intros r _ _. reflexivity. }
  destruct (staging_starts_from_nothing sample_X (sample_world ∅ sample_stale_fs) Hrem)
    as [H _].
  exact H.
Defined.

Lemma refused_removal_leaves_stale_content :
  (run (sample net_up (λ l, bool_decide (l = sample_stale)))
     (sample_world ∅ sample_stale_fs)).1 = 0 ∧
  sample_stale_fs !! sample_stale = Some (File 420 "old") ∧
  sample_stale =
    here (sample net_up (λ l, bool_decide (l = sample_stale)))
      (appdir (sample net_up (λ l, bool_decide (l = sample_stale))))
    ++ ["usr"; "lib"; "libold.so"] ∧
  (λ seen : FS, seen !! sample_stale) <$>
    seen_by "linuxdeploy"
      (log (run (sample net_up (λ l, bool_decide (l = sample_stale)))
              (sample_world ∅ sample_stale_fs)).2)
  = [Some (File 420 "old")].
Proof.
  split; [vm_compute; reflexivity|]. split; [vm_compute; reflexivity|].
  split; vm_compute; reflexivity.
Qed.

Lemma exit_code_zero_or_one_witness :
  run sample_X_failing (sample_world ∅ sample_fs)
  = (1, add_stderr
          (Printed ("Command failed (" +:+ decimal 3 +:+ "): "
                    +:+ "linuxdeploy: no such library"))
          (main sample_X_failing "/usr/bin/cargo" (sample_world ∅ sample_fs)).2).
Proof.
  assert (main sample_X_failing "/usr/bin/cargo" (sample_world ∅ sample_fs)
          = (Raise (ProcessExecutionError 3 "linuxdeploy: no such library"),
             (main sample_X_failing "/usr/bin/cargo" (sample_world ∅ sample_fs)).2)) as Hm
    by (apply pair_of_fst; vm_compute; reflexivity).
  destruct (exit_code_zero_or_one sample_X_failing (sample_world ∅ sample_fs))
    as (_ & _ & _ & _ & _ & H).
  destruct (H "/usr/bin/convert" "/usr/bin/cargo" 3 "linuxdeploy: no such library" _
              eq_refl eq_refl Hm) as [Hrun _].
  exact Hrun.
Defined.
(** * Further properties of the script *)

(** ** [ensure_executable], lines 39-41 *)

Lemma lor_execute_bits (mode : Z) : Z.land (Z.lor mode S_IXALL) S_IXALL = S_IXALL.
Proof.
  apply Z.bits_inj'. intros n _. rewrite Z.land_spec, Z.lor_spec.
  destruct (Z.testbit S_IXALL n); [by rewrite orb_true_r|by rewrite andb_false_r].
Qed.

Lemma chmod_or_file (f : FS) (l r : loc) (mode bits : Z) (data : string) :
  follow MAXSYMLINKS f l = Some r → r ≠ [] → f !! r = Some (File mode data) →
  chmod_or f l bits = inr (<[r := File (Z.lor mode bits) data]> f).
Proof.
  intros Hf Hr Hn. unfold chmod_or. rewrite Hf. destruct r; [done|].
  by rewrite node_at_cons, Hn.
Qed.

(** X1.  On a path that leads to a file, [ensure_executable] succeeds and
    changes one thing: the mode of that file gets the execute bits of
    owner, group and others added; the bytes of the file, every other bit
    of its mode and every other entry stay.  The file then passes
    [os.access(path, X_OK)], and a second call changes nothing more. *)
Theorem ensure_executable_adds_execute_bits (X : Externals) (path : Path) (w : World)
    (mode : Z) (data : string) :
  stat (fs w) (here X path) = Some (File mode data) →
  ∃ r w',
    follow MAXSYMLINKS (fs w) (here X path) = Some r ∧
    ensure_executable X path w = (Ok tt, w') ∧
    w' = set_fs (<[r := File (Z.lor mode S_IXALL) data]> (fs w)) w ∧
    stat (fs w') (here X path) = Some (File (Z.lor mode S_IXALL) data) ∧
    (∀ n, Z.testbit (Z.lor mode S_IXALL) n = Z.testbit mode n || Z.testbit 73 n) ∧
    access_x (fs w') (here X path) = true ∧
    (∀ q, q ≠ r → fs w' !! q = fs w !! q) ∧
    ensure_executable X path w' = (Ok tt, w').
Proof.
  intros Hs. destruct (stat_file_inv _ _ _ _ Hs) as (r & Hf & Hr & Hn).
  exists r, (set_fs (<[r := File (Z.lor mode S_IXALL) data]> (fs w)) w).
  destruct (stat_insert (fs w) _ r (File (Z.lor mode S_IXALL) data) Hf Hr eq_refl)
    as [Hf' Hs'].
  split; [exact Hf|].
  assert (ensure_executable X path w
          = (Ok tt, set_fs (<[r := File (Z.lor mode S_IXALL) data]> (fs w)) w)) as E.
  { unfold ensure_executable, fs_op. fold (here X path).
    by rewrite (chmod_or_file _ _ r mode S_IXALL data Hf Hr Hn). }
  split; [exact E|]. split; [reflexivity|]. cbn [fs set_fs].
  split; [exact Hs'|]. split; [intros n; apply Z.lor_spec|].
  split.
  { unfold access_x. clear Hf'. rewrite Hs', lor_execute_bits. reflexivity. }
  split; [intros q Hq; by rewrite lookup_insert_ne|].
  unfold ensure_executable, fs_op. fold (here X path). cbn [fs set_fs].
  rewrite (chmod_or_file _ _ r (Z.lor mode S_IXALL) S_IXALL data Hf' Hr)
    by apply lookup_insert_eq.
  rewrite insert_insert_eq.
  assert (Z.lor (Z.lor mode S_IXALL) S_IXALL = Z.lor mode S_IXALL) as ->
    by (by rewrite <- Z.lor_assoc, Z.lor_diag).
  reflexivity.
Qed.

Lemma ensure_executable_adds_execute_bits_witness :
  ∃ r w',
    follow MAXSYMLINKS (fs (sample_world ∅ sample_fs))
      (here sample_X (root_dir sample_X // "Cargo.toml")) = Some r ∧
    ensure_executable sample_X (root_dir sample_X // "Cargo.toml") (sample_world ∅ sample_fs)
      = (Ok tt, w') ∧
    stat (fs w') (here sample_X (root_dir sample_X // "Cargo.toml"))
      = Some (File (Z.lor 420 S_IXALL) sample_manifest).
Proof.
  destruct (ensure_executable_adds_execute_bits sample_X (root_dir sample_X // "Cargo.toml")
              (sample_world ∅ sample_fs) 420 sample_manifest)
    as (r & w' & Hf & He & _ & Hs & _).
  - vm_compute. reflexivity.
  - exists r, w'. split; [exact Hf|]. split; [exact He|exact Hs].
Defined.

(** ** [download_tool], lines 44-70: what a successful download leaves *)

(** X2.  After a call of [download_tool] that returned for a target that
    was not there, the target is a file that holds a body the network
    delivered in full and that passes [os.access(path, X_OK)]; nothing else
    in the file system changed; and the tool is then taken as present: any
    further call for this target, with any address, returns at once in the
    same world. *)
Theorem downloaded_tool_is_executable_and_kept (X : Externals) (url : string) (target : Path)
    (w w' : World) :
  is_file (fs w) (here X target) = false →
  download_tool X url target w = (Ok tt, w') →
  is_file (fs w') (here X target) = true ∧
  access_x (fs w') (here X target) = true ∧
  (∃ data k, delivered X k url = Some data ∧ read_bytes (fs w') (here X target) = inr data) ∧
  (∀ q, fs w' !! q = fs w !! q ∨ follow MAXSYMLINKS (fs w) (here X target) = Some q) ∧
  ∀ url', download_tool X url' target w' = (Ok tt, w').
Proof.
  intros Hnf E.
  destruct (download_tool_absent X url target w Hnf)
    as (k & r & w1 & E1 & _ & _ & _ & _ & _ & Hr).
  rewrite E in E1. injection E1 as <- <-.
  destruct Hr as (_ & _ & data & r0 & Hd & Hf & Hr0 & Hnone & Hfs).
  destruct (stat_insert (fs w) (here X target) r0
              (File (Z.lor (new_file_mode X) S_IXALL) data) Hf Hr0 eq_refl) as [_ Hs].
  rewrite <- Hfs in Hs.
  assert (is_file (fs w') (here X target) = true) as Hfile
    by (unfold is_file; by rewrite Hs).
  split; [exact Hfile|]. split.
  { unfold access_x. rewrite Hs, lor_execute_bits. reflexivity. }
  split.
  { exists data, (fetches (log w) + (k - 1))%nat. split; [exact Hd|].
    unfold read_bytes. by rewrite Hs. }
  split.
  { intros q. destruct (decide (q = r0)) as [->|Hq]; [by right|left].
    by rewrite Hfs, lookup_insert_ne. }
  intros url'. by apply download_tool_present.
Qed.

Lemma downloaded_tool_is_executable_and_kept_witness :
  is_file (fs (download_tool sample_X "https://example.org/tool"
                 (linuxdeploy_of sample_X ∅) (sample_world ∅ sample_ready_fs)).2)
    (here sample_X (linuxdeploy_of sample_X ∅)) = true
  ∧ access_x (fs (download_tool sample_X "https://example.org/tool"
                    (linuxdeploy_of sample_X ∅) (sample_world ∅ sample_ready_fs)).2)
      (here sample_X (linuxdeploy_of sample_X ∅)) = true.
Proof.
  destruct (downloaded_tool_is_executable_and_kept sample_X "https://example.org/tool"
              (linuxdeploy_of sample_X ∅) (sample_world ∅ sample_ready_fs)
              (download_tool sample_X "https://example.org/tool"
                 (linuxdeploy_of sample_X ∅) (sample_world ∅ sample_ready_fs)).2)
    as (H1 & H2 & _).
  - vm_compute. reflexivity.
  - apply pair_of_fst. vm_compute. reflexivity.
  - split; [exact H1|exact H2].
Defined.

(** ** [ensure_newline_at_end], lines 73-78 *)

(** X3.  [ensure_newline_at_end] returns without a change when the path is
    not a file.  On a file that the script may not read it raises the
    permission error and changes nothing.  On a file it may read: an empty
    file and a file that ends with a line feed are left as they are; any
    other file gets one line feed appended, with its mode kept and nothing
    else changed, if the script may write it, and is left as it was, with
    the permission error, if not.  Whenever the call returns, the file is
    empty or ends with a line feed, and a second call changes nothing. *)
Theorem ensure_newline_at_end_contract (X : Externals) (path : Path) (w : World) :
  (is_file (fs w) (here X path) = false → ensure_newline_at_end X path w = (Ok tt, w)) ∧
  (∀ mode data,
     stat (fs w) (here X path) = Some (File mode data) →
     (grants X S_IRUSR mode = false →
      ensure_newline_at_end X path w = (Raise (OSError EACCES (path_str path)), w)) ∧
     (grants X S_IRUSR mode = true → data = "" ∨ endswith_newline data = true →
      ensure_newline_at_end X path w = (Ok tt, w)) ∧
     (grants X S_IRUSR mode = true → data ≠ "" → endswith_newline data = false →
      grants X S_IWUSR mode = false →
      ensure_newline_at_end X path w = (Raise (OSError EACCES (path_str path)), w)) ∧
     (grants X S_IRUSR mode = true → data ≠ "" → endswith_newline data = false →
      grants X S_IWUSR mode = true →
      ∃ w', ensure_newline_at_end X path w = (Ok tt, w') ∧
            stat (fs w') (here X path) = Some (File mode (data +:+ newline)) ∧
            (∀ q, follow MAXSYMLINKS (fs w) (here X path) ≠ Some q →
                  fs w' !! q = fs w !! q) ∧
            env w' = env w ∧ stdout w' = stdout w ∧ stderr w' = stderr w ∧
            log w' = log w) ∧
     (∀ w', ensure_newline_at_end X path w = (Ok tt, w') →
            ∃ data',
              stat (fs w') (here X path) = Some (File mode data') ∧
              data' = with_final_newline data ∧
              (data' = "" ∨ endswith_newline data' = true) ∧
              ensure_newline_at_end X path w' = (Ok tt, w'))).
Proof.
  split.
  - intros H. unfold ensure_newline_at_end. rewrite bind_unfold. unfold ask at 1.
    by rewrite H.
  - intros mode data Hs. destruct (stat_file_inv _ _ _ _ Hs) as (r & Hf & Hnil & Hr).
    pose proof (ensure_newline_file X path w mode data r Hf Hnil Hr) as Heq.
    split; [|split; [|split; [|split]]].
    + intros Hrd. by rewrite Heq, Hrd.
    + intros Hrd Hcase. rewrite Heq, Hrd.
      destruct Hcase as [-> | ->]; [reflexivity|]. by rewrite andb_false_r.
    + intros Hrd Hne Hnl Hwr. rewrite Heq, Hrd, Hnl, Hwr.
      by destruct (String.eqb_spec data "").
    + intros Hrd Hne Hnl Hwr.
      exists (set_fs (<[r := File mode (data +:+ newline)]> (fs w)) w).
      split. { rewrite Heq, Hrd, Hnl, Hwr. by destruct (String.eqb_spec data ""). }
      destruct (stat_insert (fs w) _ r (File mode (data +:+ newline)) Hf Hnil eq_refl)
        as [_ Hs'].
      split; [exact Hs'|]. split; [|done].
      intros q Hq. cbn [fs set_fs]. rewrite lookup_insert_ne; [reflexivity|].
      intros ->. apply Hq. exact Hf.
    + intros w' Hok. exists (with_final_newline data).
      assert (w' = set_fs (<[r := File mode (with_final_newline data)]> (fs w)) w
              ∧ grants X S_IRUSR mode = true) as [-> Hrd].
      { rewrite Heq in Hok. unfold with_final_newline.
        destruct (grants X S_IRUSR mode); [|done].
        destruct (negb (String.eqb data "") && negb (endswith_newline data)).
        - destruct (grants X S_IWUSR mode); [|done]. by injection Hok as <-.
        - injection Hok as <-. by rewrite insert_id, set_fs_same. }
      destruct (stat_insert (fs w) _ r (File mode (with_final_newline data)) Hf Hnil eq_refl)
        as [Hf' Hs'].
      split; [exact Hs'|]. split; [reflexivity|].
      split; [apply with_final_newline_ends|].
      rewrite (ensure_newline_file X path
                 (set_fs (<[r := File mode (with_final_newline data)]> (fs w)) w)
                 mode (with_final_newline data) r Hf' Hnil)
        by apply lookup_insert_eq.
      rewrite Hrd.
      assert (negb (String.eqb (with_final_newline data) "")
              && negb (endswith_newline (with_final_newline data)) = false) as ->; [|done].
      destruct (with_final_newline_ends data) as [E|E]; rewrite E; [reflexivity|].
      by rewrite andb_false_r.
Qed.

(** A staged entry that is read-only (mode 0o444) and does not end with a
    line feed: the call raises the permission error and the file is as it
    was. *)
Lemma read_only_file_gets_no_newline :
  (ensure_newline_at_end sample_X (desktop_target sample_X)
     (sample_world ∅ sample_readonly_fs)).1
    = Raise (OSError EACCES
               "/repo/target/appimage/AppDir/usr/share/applications/diskfmt.desktop") ∧
  stat (fs (ensure_newline_at_end sample_X (desktop_target sample_X)
              (sample_world ∅ sample_readonly_fs)).2) sample_staged_desktop
    = Some (File 292 "[Desktop Entry]").
Proof. split; vm_compute; reflexivity. Qed.

(** ** The loop over the icon sizes, lines 176-179 *)

Lemma fs_op_raise_err (X : Externals) (p : Path) op (w w' : World) (e : exn) :
  fs_op X p op w = (Raise e, w') → w' = w ∧ ∃ err, e = OSError err (path_str p).
Proof.
  unfold fs_op. destruct (op (fs w) (locate (cwd X) p)) as [err|f']; [|done].
  intros [= <- <-]. split; [done|]. by exists err.
Qed.

Lemma call_raise_inv (X : Externals) program args wd (w w' : World) (e : exn) :
  call X program args wd w = (Raise e, w') →
  log w' = log w ++ [Spawn program args (fs w)] ∧ env w' = env w ∧
  stdout w' = stdout w ∧ stderr w' = stderr w ∧
  ((∃ retcode report, retcode ≠ 0 ∧
      spawn X program args wd (env w) (fs w) = Exited retcode report (fs w') ∧
      e = ProcessExecutionError retcode report)
   ∨ (∃ err, spawn X program args wd (env w) (fs w) = NotStarted err ∧
             e = OSError err program ∧ fs w' = fs w)).
Proof.
  unfold call. destruct (spawn X program args wd (env w) (fs w)) as [rc report after|err].
  - destruct (Z.eqb_spec rc 0) as [->|Hrc]; [done|]. intros [= <- <-].
    repeat split. left. by exists rc, report.
  - intros [= <- <-]. repeat split. right. by exists err.
Qed.

(** X4.  The loop starts [convert] for an initial stretch of the sizes, in
    their order, and starts nothing else.  It returns exactly when it went
    through all the sizes and every [convert] returned 0.  It raises at the
    first step that fails, and tries no later size: either the directory of
    the next size could not be made, after programs that all returned 0,
    or the program started last is the one that failed, by a return code
    other than 0 or by not starting at all, after programs that all
    returned 0; the file system is then the one this last step left. *)
Theorem icon_loop_stops_at_first_failure (X : Externals) (im : string) (icon : Path)
    (sizes : list Z) (w : World) :
  ∃ n evs,
    (n ≤ length sizes)%nat ∧
    log (make_icons X im icon sizes w).2 = log w ++ evs ∧
    length evs = n ∧
    spawns evs = map (λ size, (im, resize_args X icon size)) (take n sizes) ∧
    ((make_icons X im icon sizes w).1 = Ok tt ↔
     n = length sizes ∧ Forall (returned_zero X (cwd X) (env w)) evs) ∧
    (∀ e, (make_icons X im icon sizes w).1 = Raise e →
       (Forall (returned_zero X (cwd X) (env w)) evs ∧
        ∃ size err, sizes !! n = Some size ∧ e = OSError err (path_str (icon_dir X size)))
       ∨ (∃ evs0 size seen,
            evs = evs0 ++ [Spawn im (resize_args X icon size) seen] ∧
            sizes !! length evs0 = Some size ∧
            Forall (returned_zero X (cwd X) (env w)) evs0 ∧
            ((∃ retcode report,
                retcode ≠ 0 ∧
                spawn X im (resize_args X icon size) (cwd X) (env w) seen
                  = Exited retcode report (fs (make_icons X im icon sizes w).2) ∧
                e = ProcessExecutionError retcode report)
             ∨ (∃ err,
                  spawn X im (resize_args X icon size) (cwd X) (env w) seen
                    = NotStarted err ∧
                  e = OSError err im ∧ fs (make_icons X im icon sizes w).2 = seen)))) ∧
    env (make_icons X im icon sizes w).2 = env w ∧
    stderr (make_icons X im icon sizes w).2 = stderr w ∧
    stdout (make_icons X im icon sizes w).2 = stdout w.
Proof.
  revert w. induction sizes as [|size rest IH]; intros w.
  - exists 0%nat, []. cbn. rewrite app_nil_r. repeat split; try done.
  - cbn [make_icons]. rewrite bind_unfold.
    destruct (mkdir X (icon_dir X size) w) as [[[]|e] w1] eqn:Hm.
    2:{ apply fs_op_raise_err in Hm as [-> [err ->]]. exists 0%nat, []. cbn.
        rewrite app_nil_r. split; [lia|]. split; [done|]. split; [done|]. split; [done|].
        split; [split; [done|intros [? _]; simplify_eq/=]|]. split; [|by repeat split].
        intros e [= <-]. left. split; [constructor|]. by exists size, err. }
    apply mkdir_ok_inv in Hm as (E1 & _ & _). rewrite bind_unfold.
    destruct (call X im (resize_args X icon size) (cwd X) w1) as [[[]|e] w2] eqn:Hc.
    2:{ apply call_raise_inv in Hc as (Hl & He & Ho & Hr & Hcase).
        rewrite E1 in Hl, He, Ho, Hr, Hcase. cbn in Hl, He, Ho, Hr, Hcase.
        exists 1%nat, [Spawn im (resize_args X icon size) (fs w1)]. cbn.
        split; [lia|]. split; [exact Hl|]. split; [done|]. split; [done|].
        split.
        { split; [done|]. intros [_ Hall]. exfalso.
          inversion Hall as [|? ? (p & a & s & rep & aft & Hev & Hs0) _].
          injection Hev as Hp Ha Hsn. subst p a s.
          destruct Hcase as [(rc & rp & Hrc & Hs1 & _)|(err & Hs1 & _)];
            rewrite Hs0 in Hs1; by simplify_eq. }
        split; [|by repeat split].
        intros e' [= <-]. right. exists [], size, (fs w1). split; [done|].
        split; [done|]. split; [constructor|]. exact Hcase. }
    pose proof (call_ok_inv _ _ _ _ _ _ Hc) as (Hl & He & Ho & Hr & report & Hsp).
    rewrite E1 in Hl, He, Ho, Hr, Hsp. cbn in Hl, He, Ho, Hr, Hsp.
    assert (returned_zero X (cwd X) (env w) (Spawn im (resize_args X icon size) (fs w1)))
      as Hz by (by exists im, (resize_args X icon size), (fs w1), report, (fs w2)).
    destruct (IH w2) as (n & evs & Hn & Hlog & Hlen & Hspw & Hok & Hraise & Henv & Herr & Hout).
    rewrite He in Hok, Hraise.
    exists (S n), (Spawn im (resize_args X icon size) (fs w1) :: evs).
    split; [cbn; lia|]. split; [by rewrite Hlog, Hl, <- app_assoc|].
    split; [by cbn; rewrite Hlen|].
    split.
    { change (spawns (Spawn im (resize_args X icon size) (fs w1) :: evs))
        with ((im, resize_args X icon size) :: spawns evs).
      by rewrite Hspw. }
    split; [|split; [|by rewrite Henv, Herr, Hout, He, Hr, Ho]].
    + rewrite Hok. cbn [length]. split.
      * intros [-> Hall]. split; [done|]. by constructor.
      * intros [Hlen' Hall]. split; [lia|]. by inversion Hall.
    + intros e Hres. destruct (Hraise e Hres) as [[Hall Hdir]|Hlast].
      * left. split; [by constructor|]. exact Hdir.
      * right. destruct Hlast as (evs0 & size' & seen & -> & Hsz & Hall & Hcase).
        exists (Spawn im (resize_args X icon size) (fs w1) :: evs0), size', seen.
        split; [done|]. split; [exact Hsz|]. split; [by constructor|]. exact Hcase.
Qed.

(** A [convert] that fails: it is started once, for the first size, and the
    loop ends with its error. *)
Lemma failing_convert_is_started_once :
  (make_icons sample_X_no_icons "/usr/bin/convert" (icon_src_of sample_X_no_icons ∅) SIZES
     (sample_world ∅ sample_skeleton_fs)).1
    = Raise (ProcessExecutionError 1 "convert: no decode delegate") ∧
  spawns (log (make_icons sample_X_no_icons "/usr/bin/convert"
                 (icon_src_of sample_X_no_icons ∅) SIZES
                 (sample_world ∅ sample_skeleton_fs)).2)
    = [("/usr/bin/convert",
        ["/repo/assets/icon.png"; "-resize"; "16x16";
         "/repo/target/appimage/AppDir/usr/share/icons/hicolor/16x16/apps/diskfmt.png"])].
Proof. split; vm_compute; reflexivity. Qed.

(** ** The link at the root of the staging tree, lines 164-168 *)

Lemma climb_no_dotdot (acc ps : list string) :
  Forall (λ c, c ≠ "..") acc → Forall (λ c, c ≠ "..") (climb acc ps).
Proof.
  revert acc. induction ps as [|p ps IH]; intros acc Hacc; cbn [climb].
  - by apply Forall_rev.
  - destruct (String.eqb_spec p "..") as [->|Hp].
    + apply IH. destruct acc; [done|]. by apply Forall_cons in Hacc as [_ ?].
    + apply IH. by constructor.
Qed.

Lemma climb_plain (ps : list string) : Forall (λ c, c ≠ "..") ps → climb [] ps = ps.
Proof.
  intros H. rewrite <- (app_nil_l ps) at 1. by rewrite climb_app_plain.
Qed.

Lemma here_no_dotdot (X : Externals) (p : Path) : Forall (λ c, c ≠ "..") (here X p).
Proof. unfold here, locate. by apply climb_no_dotdot. Qed.

Lemma here_root_link (X : Externals) :
  here X (appdir X // "diskfmt.desktop") = here X (appdir X) ++ ["diskfmt.desktop"].
Proof. apply (here_below_appdir X "diskfmt.desktop"); [done|]. repeat constructor; done. Qed.

Lemma here_desktop_target (X : Externals) :
  here X (desktop_target X) =
  here X (appdir X) ++ ["usr"; "share"; "applications"; "diskfmt.desktop"].
Proof.
  unfold desktop_target.
  rewrite (here_below_appdir X "usr/share/applications/diskfmt.desktop").
  - f_equal.
  - vm_compute. reflexivity.
  - replace (parts (Path_of "usr/share/applications/diskfmt.desktop"))
      with ["usr"; "share"; "applications"; "diskfmt.desktop"] by (vm_compute; reflexivity).
    repeat constructor; done.
Qed.

Lemma root_link_leads_to_desktop_target (X : Externals) :
  locate (removelast (here X (appdir X // "diskfmt.desktop")))
    (Path_of "usr/share/applications/diskfmt.desktop")
  = here X (desktop_target X).
Proof.
  rewrite here_root_link, removelast_last, here_desktop_target.
  unfold locate.
  replace (anchored (Path_of "usr/share/applications/diskfmt.desktop")) with false
    by (vm_compute; reflexivity).
  replace (parts (Path_of "usr/share/applications/diskfmt.desktop"))
    with ["usr"; "share"; "applications"; "diskfmt.desktop"] by (vm_compute; reflexivity).
  apply climb_plain. apply Forall_app. split; [apply here_no_dotdot|].
  repeat constructor; done.
Qed.

Lemma symlink_to_inv (f f' : FS) (l : loc) (target : string) :
  symlink_to f l target = inr f' → node_at f l = None ∧ f' = <[l := Link target]> f.
Proof.
  unfold symlink_to. destruct (node_at f l); [done|].
  destruct (node_at f (removelast l)) as [[]|]; try done. by intros [= <-].
Qed.

Lemma unlink_inv (refused : loc → bool) (f f' : FS) (l : loc) :
  unlink refused f l = inr f' → f' = delete l f.
Proof.
  unfold unlink. destruct (node_at f l) as [[]|]; try done;
    (destruct (refused l); [done|]); by intros [= <-].
Qed.

(** X5.  When the block returns, the entry [diskfmt.desktop] at the root of
    the staging tree is a symbolic link with the relative target
    [usr/share/applications/diskfmt.desktop], every other entry is as
    before, and the link leads to the staged desktop entry: what is there
    (a file, after the block before) is what the link shows.  A link that
    is there already but leads nowhere is not replaced: [exists()] is false
    for it, nothing is unlinked, and making the link fails with
    [FileExistsError], nothing changed. *)
Theorem root_link_points_to_staged_entry (X : Externals) (w : World) :
  (∀ w',
     stage_symlink X w = (Ok tt, w') →
     fs w' !! here X (appdir X // "diskfmt.desktop")
       = Some (Link "usr/share/applications/diskfmt.desktop") ∧
     (∀ q, q ≠ here X (appdir X // "diskfmt.desktop") → fs w' !! q = fs w !! q) ∧
     w' = set_fs (fs w') w ∧
     ∀ n, fs w' !! here X (desktop_target X) = Some n → link_of (Some n) = None →
          stat (fs w') (here X (appdir X // "diskfmt.desktop")) = Some n) ∧
  (∀ t, fs w !! here X (appdir X // "diskfmt.desktop") = Some (Link t) →
        exists_ (fs w) (here X (appdir X // "diskfmt.desktop")) = false →
        stage_symlink X w =
          (Raise (OSError EEXIST (path_str (appdir X // "diskfmt.desktop"))), w)).
Proof.
  assert (∀ f : FS, node_at f (here X (appdir X // "diskfmt.desktop"))
                    = f !! here X (appdir X // "diskfmt.desktop")) as Hnode.
  { intros f. rewrite here_root_link. by destruct (here X (appdir X)). }
  split.
  - intros w' H. unfold stage_symlink in H.
    apply bind_Ok_inv in H as (there & w1 & [= <- <-] & H).
    apply bind_Ok_inv in H as ([] & w2 & Hu & H).
    apply fs_op_ok_inv in H as (f' & Hs & ->).
    apply symlink_to_inv in Hs as [Hnone ->]. cbn [fs set_fs].
    set (l := here X (appdir X // "diskfmt.desktop")) in *.
    assert (w2 = set_fs (fs w2) w ∧ ∀ q, q ≠ l → fs w2 !! q = fs w !! q) as [E2 Hq2].
    { destruct (exists_ (fs w) l).
      - apply fs_op_ok_inv in Hu as (f2 & Hu & ->). apply unlink_inv in Hu as ->.
        cbn [fs set_fs]. split; [done|]. intros q Hq. by rewrite lookup_delete_ne.
      - injection Hu as <-. split; [by rewrite set_fs_same|done]. }
    split; [apply lookup_insert_eq|].
    split; [intros q Hq; rewrite lookup_insert_ne by done; by apply Hq2|].
    split; [by rewrite E2|].
    intros n Hn Hlink. subst l. unfold stat. rewrite MAXSYMLINKS_eq. cbn [follow].
    rewrite Hnode, lookup_insert_eq.
    rewrite root_link_leads_to_desktop_target.
    assert (node_at (<[here X (appdir X // "diskfmt.desktop")
                       := Link "usr/share/applications/diskfmt.desktop"]> (fs w2))
              (here X (desktop_target X)) = Some n) as Hn'.
    { rewrite here_desktop_target in *. by destruct (here X (appdir X)). }
    rewrite Hn'. by destruct n.
  - intros t Hl Hex. unfold stage_symlink. rewrite bind_unfold. unfold ask at 1.
    rewrite Hex. rewrite bind_unfold. unfold pass at 1. cbn.
    unfold fs_op, symlink_to. fold (here X (appdir X // "diskfmt.desktop")).
    by rewrite Hnode, Hl.
Qed.

Lemma root_link_points_to_staged_entry_witness :
  stage_symlink sample_X
    (sample_world ∅ (<[sample_appdir ++ ["diskfmt.desktop"] := Link "gone"]> sample_staged_fs))
  = (Raise (OSError EEXIST (path_str (appdir sample_X // "diskfmt.desktop"))),
     sample_world ∅ (<[sample_appdir ++ ["diskfmt.desktop"] := Link "gone"]> sample_staged_fs)).
Proof.
  destruct (root_link_points_to_staged_entry sample_X
              (sample_world ∅
                 (<[sample_appdir ++ ["diskfmt.desktop"] := Link "gone"]> sample_staged_fs)))
    as [_ H].
  apply (H "gone"); vm_compute; reflexivity.
Defined.

(** ** The copies into the staging tree, lines 154-162 and 170-173 *)

Lemma copy2_file_inv (nm : Z) (f f' : FS) (src dst : loc) :
  copy2 nm f src dst = inr f' → is_dir f dst = false →
  ∃ mode data rs r,
    follow MAXSYMLINKS f src = Some rs ∧ rs ≠ [] ∧ f !! rs = Some (File mode data) ∧
    follow MAXSYMLINKS f dst = Some r ∧ r ≠ [] ∧ rs ≠ r ∧
    link_of (f !! r) = None ∧
    f' = <[r := File mode data]> f.
Proof.
  unfold copy2. intros H Hd. rewrite Hd in H.
  destruct (follow MAXSYMLINKS f src) as [rs|] eqn:Hs.
  2:{ destruct (stat f src) as [[]|]; done. }
  destruct (stat f src) as [[mode data| |]|] eqn:Hst; try done.
  case_bool_decide as Hsame; [done|].
  destruct (open_wb nm f dst) as [e|[r f1]] eqn:Ho; [done|].
  injection H as <-. apply open_wb_inv in Ho as (Hfd & Hr & mode0 & -> & Hold).
  unfold stat in Hst. rewrite Hs in Hst.
  destruct (follow_nonroot_lookup _ _ _ Hst) as [Hrs Hnode]; [done|].
  exists mode, data, rs, r. rewrite insert_insert_eq.
  split; [reflexivity|]. split; [exact Hrs|]. split; [exact Hnode|].
  split; [exact Hfd|]. split; [exact Hr|].
  split; [intros ->; by rewrite Hfd in Hsame|].
  split; [|reflexivity].
  apply follow_not_link in Hfd. by destruct r.
Qed.

Lemma stat_insert_other (f : FS) (l rl r : loc) (n n' : node) :
  follow MAXSYMLINKS f l = Some rl → rl ≠ [] → f !! rl = Some n' → rl ≠ r →
  link_of (f !! r) = None → link_of (Some n) = None →
  follow MAXSYMLINKS (<[r := n]> f) l = Some rl ∧ stat (<[r := n]> f) l = Some n'.
Proof.
  intros Hf Hrl Hn Hne Hl1 Hl2.
  assert (follow MAXSYMLINKS (<[r := n]> f) l = Some rl) as E.
  { rewrite <- Hf. symmetry. by apply follow_same_links, same_links_insert. }
  split; [exact E|]. unfold stat. rewrite E. destruct rl; [done|].
  by rewrite node_at_cons, lookup_insert_ne.
Qed.

(** X6.  When the block "Desktop file" returns, and the place of the staged
    entry was not a directory before: the source next to the script is a
    file, the staged entry is a file with the mode of the source and with
    the bytes of the source, stamped with the version, and the source is
    as it was. *)
Theorem staged_desktop_entry_from_source (X : Externals) (version : obj) (w w' : World) :
  is_dir (fs w) (here X (desktop_target X)) = false →
  stage_desktop X version w = (Ok tt, w') →
  ∃ mode data,
    stat (fs w) (here X (desktop_file X)) = Some (File mode data) ∧
    stat (fs w') (here X (desktop_target X)) = Some (File mode (stamped X version data)) ∧
    contains "X-AppImage-Version=" (universal_newlines (stamped X version data)) = true ∧
    stat (fs w') (here X (desktop_file X)) = Some (File mode data).
Proof.
  intros Hd H. unfold stage_desktop in H.
  apply bind_Ok_inv in H as ([] & w1 & Hc & Hs).
  unfold shutil_copy2 in Hc. apply fs_op_ok_inv in Hc as (f1 & Hc & ->).
  cbn [fs] in Hc.
  destruct (copy2_file_inv _ _ _ _ _ Hc Hd)
    as (mode & data & rs & r & Hfs & Hrs & Hns & Hfd & Hr & Hne & Hlr & Ef1).
  subst f1. exists mode, data.
  assert (stat (fs w) (here X (desktop_file X)) = Some (File mode data)) as Hsrc.
  { unfold stat. rewrite Hfs. by destruct rs. }
  split; [exact Hsrc|].
  destruct (stat_insert (fs w) _ r (File mode data) Hfd Hr eq_refl) as [Hfd1 _].
  destruct (stamp_version_ok_inv X version (set_fs (<[r := File mode data]> (fs w)) w) w'
              mode data r Hfd1 Hr (lookup_insert_eq _ _ _) Hs) as [-> _].
  cbn [fs set_fs]. rewrite insert_insert_eq.
  destruct (stat_insert (fs w) _ r (File mode (stamped X version data)) Hfd Hr eq_refl)
    as [_ Hdst].
  split; [exact Hdst|]. split; [apply stamped_has_key|].
  clear Hfd1 Hdst Hc.
  by destruct (stat_insert_other (fs w) _ rs r (File mode (stamped X version data))
                 (File mode data) Hfs Hrs Hns Hne Hlr eq_refl) as [_ ?].
Qed.


Lemma staged_desktop_entry_from_source_witness :
  is_dir (fs (sample_world ∅ sample_skeleton_fs)) (here sample_X (desktop_target sample_X))
    = false
  ∧ ∃ mode data,
      stat (fs (sample_world ∅ sample_skeleton_fs)) (here sample_X (desktop_file sample_X))
        = Some (File mode data) ∧
      stat (fs (stage_desktop sample_X (Str "1.2.3") (sample_world ∅ sample_skeleton_fs)).2)
        (here sample_X (desktop_target sample_X))
        = Some (File mode (stamped sample_X (Str "1.2.3") data)).
Proof.
  assert (is_dir (fs (sample_world ∅ sample_skeleton_fs))
            (here sample_X (desktop_target sample_X)) = false) as Hd
    by (vm_compute; reflexivity).
  split; [exact Hd|].
  destruct (staged_desktop_entry_from_source sample_X (Str "1.2.3")
              (sample_world ∅ sample_skeleton_fs)
              (stage_desktop sample_X (Str "1.2.3") (sample_world ∅ sample_skeleton_fs)).2 Hd)
    as (mode & data & H1 & H2 & _).
  - apply pair_of_fst. vm_compute. reflexivity.
  - exists mode, data. split; [exact H1|exact H2].
Defined.


Lemma stat_insert_frame (f : FS) (l rl r : loc) (n : node) :
  follow MAXSYMLINKS f l = Some rl → rl ≠ r →
  link_of (f !! r) = None → link_of (Some n) = None →
  stat (<[r := n]> f) l = stat f l.
Proof.
  intros Hf Hne Hl1 Hl2. unfold stat.
  rewrite <- (follow_same_links _ f (<[r := n]> f) l) by (by apply same_links_insert).
  rewrite Hf. destruct rl; [done|]. by rewrite !node_at_cons, lookup_insert_ne.
Qed.

Lemma follow_nothing (f : FS) (l : loc) : node_at f l = None → follow MAXSYMLINKS f l = Some l.
Proof. intros H. rewrite MAXSYMLINKS_eq. cbn [follow]. by rewrite H. Qed.

(** X7.  When the block "Metadata" returns, and nothing was at the place
    of the staged metadata before: the source is a file, the staged
    metadata is a new file with the bytes and the mode of the source, its
    directory is there, and every entry that is neither this file nor on
    the way to its directory is as before. *)
Theorem staged_metadata_is_a_copy (X : Externals) (w w' : World) :
  fs w !! here X (appdir X // "usr/share/metainfo" // "diskfmt.metainfo.xml") = None →
  stage_metadata X w = (Ok tt, w') →
  ∃ mode data,
    stat (fs w) (here X (metadata_file X)) = Some (File mode data) ∧
    fs w' !! here X (appdir X // "usr/share/metainfo" // "diskfmt.metainfo.xml")
      = Some (File mode data) ∧
    is_dir (fs w') (here X (appdir X // "usr/share/metainfo")) = true ∧
    ∀ q, q ≠ here X (appdir X // "usr/share/metainfo" // "diskfmt.metainfo.xml") →
         ¬ q `prefix_of` here X (appdir X // "usr/share/metainfo") →
         fs w' !! q = fs w !! q.
Proof.
  intros Hnone H. unfold stage_metadata in H. cbv zeta in H.
  set (dir := here X (appdir X // "usr/share/metainfo")) in *.
  set (dst := here X (appdir X // "usr/share/metainfo" // "diskfmt.metainfo.xml")) in *.
  assert (dst = dir ++ ["diskfmt.metainfo.xml"]) as Edst.
  { unfold dst, dir. apply (here_join X _ "diskfmt.metainfo.xml"); [done|].
    repeat constructor; done. }
  apply bind_Ok_inv in H as ([] & w1 & Hm & Hc).
  unfold mkdir in Hm. apply fs_op_ok_inv in Hm as (f1 & Hm & ->). fold dir in Hm.
  pose proof (mkdir_p_same_links _ _ _ Hm) as Hlinks.
  apply mkdir_p_inv in Hm as [Hdir Hframe].
  unfold shutil_copy2 in Hc. apply fs_op_ok_inv in Hc as (f2 & Hc & ->).
  cbn [fs set_fs] in *. fold dst in Hc.
  assert (f1 !! dst = None) as Hnone1.
  { destruct (Hframe dst) as [->|([k Hk] & _)]; [exact Hnone|].
    rewrite Edst in Hk. apply (f_equal length) in Hk. rewrite !length_app in Hk.
    simpl in Hk. lia. }
  assert (node_at f1 dst = None) as Hnode.
  { rewrite Edst in *. by destruct dir. }
  assert (is_dir f1 dst = false) as Hnd.
  { unfold is_dir, stat. by rewrite (follow_nothing _ _ Hnode), Hnode. }
  destruct (copy2_file_inv _ _ _ _ _ Hc Hnd)
    as (mode & data & rs & r & Hfs & Hrs & Hns & Hfd & Hr & Hne & Hlr & ->).
  rewrite (follow_nothing _ _ Hnode) in Hfd. injection Hfd as <-.
  exists mode, data. split; [|split; [|split]].
  - unfold stat. rewrite (follow_same_links _ _ _ _ Hlinks), Hfs.
    destruct rs; [done|]. rewrite node_at_cons.
    destruct (Hframe (s :: rs)) as [E|(_ & _ & E)]; [by rewrite <- E|congruence].
  - apply lookup_insert_eq.
  - unfold is_dir in *.
    destruct (follow MAXSYMLINKS f1 dir) as [rd|] eqn:Hfd.
    2:{ unfold stat in Hdir. by rewrite Hfd in Hdir. }
    rewrite (stat_insert_frame f1 dir rd dst (File mode data) Hfd); [exact Hdir| |done|done].
    intros ->. unfold stat in Hdir. rewrite Hfd, Hnode in Hdir. done.
  - intros q Hq Hpre. rewrite lookup_insert_ne by done.
    destruct (Hframe q) as [E|(Hp & _)]; [exact E|by destruct Hpre].
Qed.

Lemma staged_metadata_is_a_copy_witness :
  fs (sample_world ∅ sample_skeleton_fs)
    !! here sample_X (appdir sample_X // "usr/share/metainfo" // "diskfmt.metainfo.xml") = None
  ∧ ∃ mode data,
      stat (fs (sample_world ∅ sample_skeleton_fs)) (here sample_X (metadata_file sample_X))
        = Some (File mode data) ∧
      fs (stage_metadata sample_X (sample_world ∅ sample_skeleton_fs)).2
        !! here sample_X (appdir sample_X // "usr/share/metainfo" // "diskfmt.metainfo.xml")
        = Some (File mode data).
Proof.
  assert (fs (sample_world ∅ sample_skeleton_fs)
            !! here sample_X (appdir sample_X // "usr/share/metainfo" // "diskfmt.metainfo.xml")
          = None) as Hn by (vm_compute; reflexivity).
  split; [exact Hn|].
  destruct (staged_metadata_is_a_copy sample_X (sample_world ∅ sample_skeleton_fs)
              (stage_metadata sample_X (sample_world ∅ sample_skeleton_fs)).2 Hn)
    as (mode & data & H1 & H2 & _).
  - apply pair_of_fst. vm_compute. reflexivity.
  - exists mode, data. split; [exact H1|exact H2].
Defined.

(** ** The build, lines 142-146 *)

(** X8.  In a run that passed the checks, with the directory of the helper
    tools there and both tools present, and with no executable release
    binary: [cargo build --release] is started in the root directory of
    the project; when the build, whatever environment it is handed, ends
    with a return code other than 0, the run ends with exit code 1 and the
    line [Command failed (<code>): <report>], having printed that it
    builds; the file system is the one the build left, nothing was staged,
    and nothing else was started.  The environment of the script itself
    then holds what lines 120-121 have set. *)
Theorem failed_build_ends_the_run (X : Externals) (w : World) (cv cg : string) (v : obj)
    (retcode : Z) (report : string) (after : FS) :
  which X "convert" = Some cv → which X "cargo" = Some cg →
  resolve_version X w = (Ok v, w) →
  missing_input X (fs w) (icon_src_of X (env w)) = None →
  is_dir (fs w) (here X (appimage_dir X)) = true →
  is_file (fs w) (here X (linuxdeploy_of X (env w))) = true →
  is_file (fs w) (here X (appimagetool_of X (env w))) = true →
  is_file (fs w) (here X (bin_path X)) && access_x (fs w) (here X (bin_path X)) = false →
  (∀ e, spawn X cg ["build"; "--release"] (here X (root_dir X)) e (fs w)
        = Exited retcode report after) →
  retcode ≠ 0 →
  run X w =
    (1, mkWorld (child_env X (env w)) after
          (stdout w ++ ["Building release binary (missing at " +:+ path_str (bin_path X)
                        +:+ ")"])
          (stderr w ++ [Printed ("Command failed (" +:+ decimal retcode +:+ "): " +:+ report)])
          (log w ++ [Spawn cg ["build"; "--release"] (fs w)])).
Proof.
  intros Hcv Hcg Hv Hm Hd Hld Hat Hbin Hsp Hrc.
  rewrite (run_of_main _ _ _ _ Hcv Hcg), (main_reaches_acquire _ _ _ _ _ Hcv Hv Hm).
  set (w0 := set_env (child_env X (env w)) w).
  unfold acquire. rewrite bind_unfold.
  unfold mkdir at 1, fs_op at 1. fold (here X (appimage_dir X)).
  change (fs w0) with (fs w). rewrite (mkdir_p_exists _ _ Hd).
  assert (set_fs (fs w) w0 = w0) as -> by (by destruct w).
  rewrite (bind_Ok _ _ w0 w0 tt) by (by apply download_tool_present).
  rewrite (bind_Ok _ _ w0 w0 tt) by (by apply download_tool_present).
  rewrite bind_unfold. unfold build_if_missing. rewrite bind_unfold. unfold ask at 1.
  change (fs w0) with (fs w). rewrite Hbin. cbn [negb].
  rewrite bind_unfold. unfold print at 1.
  rewrite (call_failed X cg _ _ _ retcode report after); [|apply Hsp|exact Hrc].
  reflexivity.
Qed.

Lemma failed_build_ends_the_run_witness :
  (run sample_X_no_build
     (sample_world sample_env_version
        (delete ["repo"; "target"; "release"; "diskfmt"] sample_tools_fs))).1 = 1
  ∧ stderr (run sample_X_no_build
              (sample_world sample_env_version
                 (delete ["repo"; "target"; "release"; "diskfmt"] sample_tools_fs))).2
    = [Printed ("Command failed (" +:+ decimal 101 +:+ "): " +:+ "error: could not compile")].
Proof.
  rewrite (failed_build_ends_the_run sample_X_no_build
             (sample_world sample_env_version
                (delete ["repo"; "target"; "release"; "diskfmt"] sample_tools_fs))
             "/usr/bin/convert" "/usr/bin/cargo" (Str "1.2.3") 101 "error: could not compile"
             (delete ["repo"; "target"; "release"; "diskfmt"] sample_tools_fs)).
  - split; reflexivity.
  - reflexivity.
  - reflexivity.
  - apply resolve_version_override; [vm_compute; reflexivity|discriminate].
  - vm_compute. reflexivity.
  - vm_compute. reflexivity.
  - vm_compute. reflexivity.
  - vm_compute. reflexivity.
  - vm_compute. reflexivity.
  - intros e. reflexivity.
  - discriminate.
Defined.

(** ** The environment, lines 95 and 120-121 *)

Lemma touches_acquire (X : Externals) cargo e version im :
  touches (mkFootprint false true true true true) (acquire X cargo e version im).
Proof.
  unfold acquire.
  apply touches_bind; [by apply touches_mkdir|intros _].
  apply touches_bind; [apply touches_download_tool|intros _].
  apply touches_bind; [apply touches_download_tool|intros _].
  eapply touches_weaken; [apply after_downloads_calm|reflexivity].
Qed.

Lemma env_after_main (X : Externals) (cargo : string) (w : World) (v : obj) :
  resolve_version X w = (Ok v, w) → env (main X cargo w).2 = child_env X (env w).
Proof.
  intros Hv.
  rewrite (main_unfold _ _ _ _ Hv), main_with_version_unfold, bind_unfold.
  pose proof (touches_tool_checks X (icon_src_of X (env w)) (set_env (child_env X (env w)) w))
    as (He1 & _).
  destruct (tool_checks X (icon_src_of X (env w)) (set_env (child_env X (env w)) w))
    as [[im|e] w1]; cbn [snd] in *; [|by rewrite He1].
  pose proof (touches_acquire X cargo (env w) v im w1) as (He2 & _).
  rewrite He2, He1; done.
Qed.

(** X9.  Once the version is known, [main] ends, however it ends, in an
    environment that differs from the one it started with in two variables
    at most: [ARCH] is set to the architecture in use (the value it had, or
    the machine's), and [APPIMAGE_EXTRACT_AND_RUN] keeps the value it had
    and is set to 1 only when it had none.  When the version cannot be
    found the environment is not changed at all. *)
Theorem environment_exported (X : Externals) (cargo : string) (w : World) :
  (∀ v,
     resolve_version X w = (Ok v, w) →
     env (main X cargo w).2 !! "ARCH" = Some (default (uname_machine X) (env w !! "ARCH")) ∧
     env (main X cargo w).2 !! "APPIMAGE_EXTRACT_AND_RUN"
       = Some (default "1" (env w !! "APPIMAGE_EXTRACT_AND_RUN")) ∧
     ∀ key, key ≠ "ARCH" → key ≠ "APPIMAGE_EXTRACT_AND_RUN" →
            env (main X cargo w).2 !! key = env w !! key) ∧
  (∀ e w1, resolve_version X w = (Raise e, w1) → env (main X cargo w).2 = env w).
Proof.
  split.
  - intros v Hv. rewrite (env_after_main X cargo w v Hv). unfold child_env.
    destruct (env w !! "APPIMAGE_EXTRACT_AND_RUN") as [x|] eqn:E;
      rewrite (lookup_insert_ne (env w) "ARCH" "APPIMAGE_EXTRACT_AND_RUN") by done;
      rewrite E; cbn [default].
    + split; [apply lookup_insert_eq|]. split; [by rewrite lookup_insert_ne|].
      intros key H1 H2. by rewrite lookup_insert_ne.
    + split; [by rewrite lookup_insert_ne, lookup_insert_eq|].
      split; [apply lookup_insert_eq|].
      intros key H1 H2. by rewrite !lookup_insert_ne.
  - intros e w1 Hv. rewrite (main_no_version _ _ _ _ _ Hv). cbn [snd].
    pose proof (touches_resolve_version X w) as (He & _). rewrite Hv in He. by apply He.
Qed.

(** ** A manifest that cannot be used, lines 31-36 and 97-102 *)

(** X10.  With no version given by [VERSION], and a manifest that is a
    file: when the manifest does not parse, or its [package] entry is not
    a table, the script does not print its own message about the version;
    the error of the parser, or the error of calling [get] on what is not
    a table, reaches the interpreter, and the run ends with exit code 1
    and that traceback, nothing else changed. *)
Theorem unusable_manifest_ends_with_traceback (X : Externals) (w : World) (cv cg : string)
    (mode : Z) (data : string) :
  which X "convert" = Some cv → which X "cargo" = Some cg →
  env w !! "VERSION" = None ∨ env w !! "VERSION" = Some "" →
  stat (fs w) (here X (root_dir X // "Cargo.toml")) = Some (File mode data) →
  (toml_loads X (universal_newlines data) = None →
   run X w = (1, add_stderr (Traceback TomlDecodeError) w)) ∧
  (∀ items n,
     toml_loads X (universal_newlines data) = Some items →
     dict_get "package" items = Some n → (∀ t, n ≠ Table t) →
     run X w = (1, add_stderr (Traceback (AttributeError "get")) w)).
Proof.
  intros Hcv Hcg Hunset Hs.
  pose proof (resolve_version_manifest X w Hunset) as Hv.
  rewrite (read_version_manifest X _ w mode data Hs) in Hv.
  split.
  - intros Ht. rewrite Ht in Hv.
    by rewrite (run_of_main _ _ _ _ Hcv Hcg), (main_no_version _ _ _ _ _ Hv).
  - intros items n Ht Hp Hn. rewrite Ht, Hp in Hv.
    assert (resolve_version X w = (Raise (AttributeError "get"), w)) as Hv'.
    { destruct n; try exact Hv. by destruct (Hn items0). }
    by rewrite (run_of_main _ _ _ _ Hcv Hcg), (main_no_version _ _ _ _ _ Hv').
Qed.

Lemma unusable_manifest_ends_with_traceback_witness :
  run sample_X (sample_world ∅ sample_odd_fs)
  = (1, add_stderr (Traceback (AttributeError "get")) (sample_world ∅ sample_odd_fs)).
Proof.
  destruct (unusable_manifest_ends_with_traceback sample_X
              (sample_world ∅ sample_odd_fs) "/usr/bin/convert" "/usr/bin/cargo" 420
              sample_odd_manifest)
    as [_ H].
  - reflexivity.
  - reflexivity.
  - left. reflexivity.
  - vm_compute. reflexivity.
  - apply (H [("package", Str "diskfmt")] (Str "diskfmt"));
      [vm_compute; reflexivity|reflexivity|].
    intros t. discriminate.
Defined.

(** ** The use of the network by a run, lines 111-118 and 139-140 *)

Lemma fetched_app (a b : list event) : fetched (a ++ b) = fetched a ++ fetched b.
Proof. unfold fetched. apply flat_map_app. Qed.

Lemma fetched_retry_trace (url : string) (k : nat) : fetched (retry_trace url k) = repeat url k.
Proof.
  assert (∀ l : list nat,
            fetched (flat_map (λ _, [Sleep 2; Urlopen url]) l) = repeat url (length l)) as H.
  { induction l as [|x l IH]; [done|].
    change (flat_map (λ _, [Sleep 2; Urlopen url]) (x :: l))
      with ([Sleep 2; Urlopen url] ++ flat_map (λ _ : nat, [Sleep 2; Urlopen url]) l).
    rewrite fetched_app, IH. done. }
  destruct k as [|k]; [done|]. unfold retry_trace.
  change (Urlopen url :: flat_map (λ _, [Sleep 2; Urlopen url]) (seq 0 k))
    with ([Urlopen url] ++ flat_map (λ _ : nat, [Sleep 2; Urlopen url]) (seq 0 k)).
  rewrite fetched_app, H, length_seq. done.
Qed.

Lemma fetchless_bind {A B} (m : M A) (f : A → M B) :
  fetchless m → (∀ a, fetchless (f a)) → fetchless (m ≫= f).
Proof.
  intros Hm Hf w. rewrite bind_unfold. destruct (Hm w) as (e1 & H1 & S1).
  destruct (m w) as [[a|e] w1]; [|by exists e1].
  destruct (Hf a w1) as (e2 & H2 & S2). exists (e1 ++ e2). simpl in *.
  split; [by rewrite H2, H1, app_assoc|]. by rewrite fetched_app, S1, S2.
Qed.

Lemma touches_fetchless {A} (c : footprint) (m : M A) :
  on_log c = false → touches c m → fetchless m.
Proof.
  intros Hc Hm w. exists []. split; [|done]. rewrite app_nil_r. by apply (Hm w).
Qed.

Lemma fetchless_call (X : Externals) program args wd : fetchless (call X program args wd).
Proof.
  intros w. exists [Spawn program args (fs w)]. split; [|done].
  destruct (call X program args wd w) as [r w'] eqn:E. by apply call_log in E as [? _].
Qed.

Lemma fetchless_fs_only {A} (m : M A) : touches fp_fs m → fetchless m.
Proof. by apply touches_fetchless. Qed.

Lemma fetchless_print (msg : string) : fetchless (print msg).
Proof.
  apply (touches_fetchless (mkFootprint false false true false false)); [done|].
  by apply touches_print.
Qed.

Lemma fetchless_make_icons (X : Externals) im icon sizes :
  fetchless (make_icons X im icon sizes).
Proof.
  induction sizes as [|size rest IH]; cbn [make_icons].
  - apply (touches_fetchless fp_fs); [done|apply touches_pass].
  - apply fetchless_bind; [apply fetchless_fs_only; by apply touches_mkdir|intros _].
    apply fetchless_bind; [apply fetchless_call|intros _]. exact IH.
Qed.

Lemma fetchless_after_downloads (X : Externals) cargo e version im :
  fetchless (build_if_missing X cargo;; staging X e version im).
Proof.
  apply fetchless_bind; [|intros _].
  { unfold build_if_missing.
    apply fetchless_bind; [apply fetchless_fs_only, touches_ask|intros built].
    destruct (negb built); [|apply fetchless_fs_only, touches_pass].
    apply fetchless_bind; [apply fetchless_print|intros _; apply fetchless_call]. }
  unfold staging.
  apply fetchless_bind; [apply fetchless_fs_only, touches_clean_appdir|intros _].
  apply fetchless_bind; [apply fetchless_fs_only, touches_stage_desktop|intros _].
  apply fetchless_bind; [apply fetchless_fs_only, touches_stage_symlink|intros _].
  apply fetchless_bind; [apply fetchless_fs_only, touches_stage_metadata|intros _].
  apply fetchless_bind; [|intros _].
  { unfold stage_icons.
    apply fetchless_bind; [apply fetchless_make_icons|intros _].
    apply fetchless_fs_only. by apply touches_shutil_copy2. }
  apply fetchless_bind; [|intros _].
  { unfold run_linuxdeploy.
    apply fetchless_bind; [apply fetchless_fs_only, touches_local_get|intros tool].
    apply fetchless_call. }
  unfold package.
  apply fetchless_bind; [apply fetchless_fs_only; prim_touch|intros env0].
  apply fetchless_bind; [apply fetchless_fs_only; by apply touches_mkdir|intros _].
  apply fetchless_bind; [apply fetchless_fs_only, touches_ask|intros there].
  apply fetchless_bind; [|intros _].
  { destruct there; apply fetchless_fs_only; [by apply touches_fs_op|apply touches_pass]. }
  apply fetchless_bind; [apply fetchless_fs_only, touches_local_get|intros tool].
  apply fetchless_bind; [apply fetchless_call|intros _; apply fetchless_print].
Qed.

Lemma download_tool_fetches (X : Externals) url target w :
  ∃ k evs,
    (k ≤ 3)%nat ∧ log (download_tool X url target w).2 = log w ++ evs ∧
    spawns evs = [] ∧ fetched evs = repeat url k.
Proof.
  destruct (is_file (fs w) (here X target)) eqn:Hf.
  - rewrite (download_tool_present X url target w Hf). exists 0%nat, [].
    split; [lia|]. by rewrite app_nil_r.
  - destruct (download_tool_absent X url target w Hf)
      as (k & r & w' & E & Hk & _ & Hlog & _).
    rewrite E. exists k, (retry_trace url k). split; [lia|]. split; [exact Hlog|].
    split; [apply spawns_retry_trace|apply fetched_retry_trace].
Qed.

Lemma acquire_fetches (X : Externals) cargo e version im w :
  ∃ k1 k2 net rest,
    (k1 ≤ 3)%nat ∧ (k2 ≤ 3)%nat ∧
    log (acquire X cargo e version im w).2 = log w ++ net ++ rest ∧
    spawns net = [] ∧ fetched rest = [] ∧
    fetched net = repeat (linuxdeploy_url_of X e) k1 ++ repeat (appimagetool_url_of X e) k2.
Proof.
  unfold acquire. rewrite bind_unfold.
  pose proof (touches_mkdir fp_fs X (appimage_dir X) eq_refl w) as (_ & _ & _ & _ & Hl1).
  destruct (mkdir X (appimage_dir X) w) as [[[]|e1] w1]; cbn [snd] in *.
  2:{ exists 0%nat, 0%nat, [], []. rewrite Hl1 by done. rewrite !app_nil_r.
      repeat split; try done; lia. }
  specialize (Hl1 eq_refl). rewrite bind_unfold.
  destruct (download_tool_fetches X (linuxdeploy_url_of X e) (linuxdeploy_of X e) w1)
    as (k1 & ev1 & Hk1 & Hl2 & Hs1 & Hf1).
  destruct (download_tool X (linuxdeploy_url_of X e) (linuxdeploy_of X e) w1)
    as [[[]|e2] w2]; cbn [snd] in *.
  2:{ exists k1, 0%nat, ev1, []. rewrite Hl2, Hl1, !app_nil_r.
      repeat split; try done; lia. }
  rewrite bind_unfold.
  destruct (download_tool_fetches X (appimagetool_url_of X e) (appimagetool_of X e) w2)
    as (k2 & ev2 & Hk2 & Hl3 & Hs2 & Hf2).
  destruct (download_tool X (appimagetool_url_of X e) (appimagetool_of X e) w2)
    as [[[]|e3] w3]; cbn [snd] in *.
  2:{ exists k1, k2, (ev1 ++ ev2), []. rewrite Hl3, Hl2, Hl1, !app_nil_r, <- app_assoc.
      rewrite spawns_app, fetched_app, Hs1, Hs2, Hf1, Hf2. repeat split; try done; lia. }
  destruct (fetchless_after_downloads X cargo e version im w3) as (rest & Hl4 & Hf4).
  exists k1, k2, (ev1 ++ ev2), rest.
  split; [lia|]. split; [lia|].
  split; [by rewrite Hl4, Hl3, Hl2, Hl1, <- !app_assoc|].
  split; [by rewrite spawns_app, Hs1, Hs2|]. split; [exact Hf4|].
  by rewrite fetched_app, Hf1, Hf2.
Qed.

Lemma exit_of_log (r : res unit * World) : log (exit_of r).2 = log r.2.
Proof. destruct r as [[[]|e] w']; [done|]. by destruct e. Qed.

(** X11.  Whatever a run does, the log it adds splits in two: first the
    fetches, at most three of the address of the first helper tool and then
    at most three of the address of the second, with no program started in
    between; then the rest, which fetches nothing.  A run thus opens at
    most six connections, to these two addresses only, and all of them
    before it starts its first program. *)
Theorem network_use_is_bounded (X : Externals) (w : World) :
  ∃ k1 k2 net rest,
    (k1 ≤ 3)%nat ∧ (k2 ≤ 3)%nat ∧
    log (run X w).2 = log w ++ net ++ rest ∧
    spawns net = [] ∧ fetched rest = [] ∧
    fetched net = repeat (linuxdeploy_url_of X (env w)) k1
                  ++ repeat (appimagetool_url_of X (env w)) k2 ∧
    fetches (log (run X w).2) = (fetches (log w) + k1 + k2)%nat.
Proof.
  assert (∀ l, fetches l = length (fetched l)) as Hcount.
  { intros l. unfold fetches, fetched. induction l as [|[] l IH]; cbn; by rewrite ?IH. }
  assert (∃ k1 k2 net rest,
            (k1 ≤ 3)%nat ∧ (k2 ≤ 3)%nat ∧
            log (run X w).2 = log w ++ net ++ rest ∧
            spawns net = [] ∧ fetched rest = [] ∧
            fetched net = repeat (linuxdeploy_url_of X (env w)) k1
                          ++ repeat (appimagetool_url_of X (env w)) k2)
    as (k1 & k2 & net & rest & Hk1 & Hk2 & Hlog & Hsp & Hrest & Hnet).
  { assert (∀ w', log w' = log w →
              ∃ k1 k2 net rest,
                (k1 ≤ 3)%nat ∧ (k2 ≤ 3)%nat ∧ log w' = log w ++ net ++ rest ∧
                spawns net = [] ∧ fetched rest = [] ∧
                fetched net = repeat (linuxdeploy_url_of X (env w)) k1
                              ++ repeat (appimagetool_url_of X (env w)) k2) as Hsame.
    { intros w' E. exists 0%nat, 0%nat, [], []. rewrite E, !app_nil_r.
      repeat split; try done; lia. }
    destruct (which X "convert") as [cv|] eqn:Hcv.
    2:{ rewrite (run_import_convert _ _ Hcv). by apply Hsame. }
    destruct (which X "cargo") as [cg|] eqn:Hcg.
    2:{ rewrite (run_import_cargo _ _ _ Hcv Hcg). by apply Hsame. }
    rewrite (run_of_main _ _ _ _ Hcv Hcg), exit_of_log.
    destruct (resolve_version_cases X w) as [(v & Hv & _)|[Hv|(e & Hv & He)]].
    2:{ rewrite (main_no_version _ _ _ _ _ Hv). by apply Hsame. }
    2:{ rewrite (main_no_version _ _ _ _ _ Hv). by apply Hsame. }
    rewrite (main_unfold _ _ _ _ Hv), main_with_version_unfold, bind_unfold,
      tool_checks_unfold, Hcv.
    change (fs (set_env (child_env X (env w)) w)) with (fs w).
    destruct (missing_input X (fs w) (icon_src_of X (env w))) as [msg|]; [by apply Hsame|].
    apply (acquire_fetches X cg (env w) v cv (set_env (child_env X (env w)) w)). }
  exists k1, k2, net, rest. repeat (split; [done|]).
  rewrite !Hcount, Hlog, !fetched_app, Hrest, Hnet, app_nil_r, !length_app, !repeat_length.
  lia.
Qed.

(** ** The paths of the project, lines 82-92 *)

Lemma climb_app (acc l1 l2 : list string) :
  climb acc (l1 ++ l2) = climb (rev (climb acc l1)) l2.
Proof.
  revert acc. induction l1 as [|p l1 IH]; intros acc; cbn [climb app].
  - by rewrite rev_involutive.
  - destruct (String.eqb p ".."); apply IH.
Qed.

Lemma climb_snoc_dotdot (l : list string) :
  climb [] (l ++ [".."]) = removelast (climb [] l).
Proof.
  rewrite climb_app. cbn.
  induction (climb [] l) as [|x l' _] using rev_ind; [done|].
  by rewrite rev_app_distr, removelast_last; cbn; rewrite rev_involutive.
Qed.

(** X12.  For a script that lies three directories below a root, and whose
    resolved path holds no [..]: the project root is that root, wherever
    the script is started from; the desktop entry is looked for next to
    the script, and the manifest, the metadata, the release binary and the
    staging directory at their fixed places below the root. *)
Theorem project_paths_from_script_location (X : Externals) (root : loc)
    (d1 d2 d3 script_name : string) :
  script_file X = root ++ [d1; d2; d3; script_name] →
  Forall (λ c, c ≠ "..") (root ++ [d1; d2; d3]) →
  here X (root_dir X) = root ∧
  here X (desktop_file X) = root ++ [d1; d2; d3; "diskfmt.desktop"] ∧
  here X (root_dir X // "Cargo.toml") = root ++ ["Cargo.toml"] ∧
  here X (metadata_file X) = root ++ ["packaging"; "linux"; "diskfmt.metainfo.xml"] ∧
  here X (bin_path X) = root ++ ["target"; "release"; "diskfmt"] ∧
  here X (appimage_dir X) = root ++ ["target"; "appimage"] ∧
  here X (appdir X) = root ++ ["target"; "appimage"; "AppDir"].
Proof.
  intros Hsf Hplain.
  assert (Forall (λ c, c ≠ "..") root) as Hroot by (by apply Forall_app in Hplain as [? _]).
  assert (script_dir X = mkPath true false (root ++ [d1; d2; d3])) as Hsd.
  { unfold script_dir, parent, at_loc. cbn [anchored doubled parts]. rewrite Hsf.
    change (root ++ [d1; d2; d3; script_name]) with (root ++ [d1; d2; d3] ++ [script_name]).
    by rewrite app_assoc, removelast_last. }
  assert (root_dir X = at_loc root) as Hrd.
  { unfold root_dir. f_equal. rewrite Hsd. unfold locate, joinpath. cbn.
    rewrite !climb_snoc_dotdot, (climb_plain _ Hplain).
    change (root ++ [d1; d2; d3]) with (root ++ [d1; d2] ++ [d3]).
    rewrite app_assoc, removelast_last.
    change (root ++ [d1; d2]) with (root ++ [d1] ++ [d2]).
    rewrite app_assoc, removelast_last. apply removelast_last. }
  assert (∀ l, Forall (λ c, c ≠ "..") l → climb [] (root ++ l) = root ++ l) as Hgo.
  { intros l Hl. apply climb_plain. by apply Forall_app. }
  split; [rewrite Hrd; unfold here, locate; cbn; by apply climb_plain|].
  split.
  { unfold desktop_file. rewrite Hsd. unfold here, locate, joinpath. cbn.
    rewrite <- app_assoc. cbn. apply climb_plain.
    apply Forall_app. split; [done|]. apply Forall_app in Hplain as [_ Hd].
    apply Forall_cons in Hd as [? Hd]. apply Forall_cons in Hd as [? Hd].
    apply Forall_cons in Hd as [? _]. repeat constructor; done. }
  unfold metadata_file, bin_path, appdir, appimage_dir, build_dir. rewrite Hrd.
  unfold here, locate, joinpath, at_loc. cbn. rewrite <- !app_assoc. cbn.
  repeat split; apply Hgo; repeat constructor; done.
Qed.

Lemma project_paths_from_script_location_witness :
  here sample_X (root_dir sample_X) = ["repo"] ∧
  here sample_X (metadata_file sample_X)
    = ["repo"] ++ ["packaging"; "linux"; "diskfmt.metainfo.xml"].
Proof.
  destruct (project_paths_from_script_location sample_X ["repo"]
              "packaging" "linux" "appimage" "create_appimage.py")
    as (H1 & _ & _ & H2 & _).
  - reflexivity.
  - repeat constructor; discriminate.
  - split; [exact H1|exact H2].
Defined.

(** ** The directory of the helper tools, line 136 *)

(** X13.  In a run that passed the checks, when the directory of the
    helper tools cannot be made the run ends with exit code 1 and the
    traceback of that error: nothing was fetched, nothing started, the
    file system is untouched.  This is what happens when the build
    directory [target] of the project is a file and there is nothing at
    [target/appimage]: the error is [NotADirectoryError]. *)
Theorem no_tool_directory_no_download (X : Externals) (w : World) (cv cg : string) (v : obj) :
  which X "convert" = Some cv → which X "cargo" = Some cg →
  resolve_version X w = (Ok v, w) →
  missing_input X (fs w) (icon_src_of X (env w)) = None →
  (∀ e, mkdir_p (fs w) (here X (appimage_dir X)) = inl e →
        run X w = (1, add_stderr (Traceback (OSError e (path_str (appimage_dir X))))
                        (set_env (child_env X (env w)) w))) ∧
  (∀ mode data,
     fs w !! here X (build_dir X) = Some (File mode data) →
     fs w !! here X (appimage_dir X) = None →
     mkdir_p (fs w) (here X (appimage_dir X)) = inl ENOTDIR).
Proof.
  intros Hcv Hcg Hv Hm. split.
  - intros e He.
    rewrite (run_of_main _ _ _ _ Hcv Hcg), (main_reaches_acquire _ _ _ _ _ Hcv Hv Hm).
    unfold acquire. rewrite bind_unfold. unfold mkdir at 1, fs_op at 1.
    fold (here X (appimage_dir X)).
    change (fs (set_env (child_env X (env w)) w)) with (fs w). by rewrite He.
  - intros mode data Hb Hn.
    assert (here X (appimage_dir X) = here X (build_dir X) ++ ["appimage"]) as E.
    { unfold appimage_dir. apply (here_join X _ "appimage"); [done|]. repeat constructor; done. }
    assert (here X (build_dir X) ≠ []) as Hne.
    { unfold build_dir. rewrite (here_join X _ "target"); [|done|repeat constructor; done].
      by destruct (here X (root_dir X)). }
    assert (os_mkdir (fs w) (here X (appimage_dir X)) = inl ENOTDIR) as Hos.
    { unfold os_mkdir. rewrite E in *. rewrite removelast_last.
      destruct (here X (build_dir X)) as [|c l] eqn:Eb; [done|].
      assert (node_at (fs w) ((c :: l) ++ ["appimage"]) = None) as -> by exact Hn.
      by rewrite node_at_cons, Hb. }
    assert (is_dir (fs w) (here X (appimage_dir X)) = false) as Hd.
    { unfold is_dir, stat.
      assert (node_at (fs w) (here X (appimage_dir X)) = None) as Hnode.
      { rewrite E in *. by destruct (here X (build_dir X)). }
      by rewrite (follow_nothing _ _ Hnode), Hnode. }
    unfold mkdir_p. destruct (length (here X (appimage_dir X))); cbn [mkdir_parents];
      by rewrite Hos, Hd.
Qed.

Lemma no_tool_directory_no_download_witness :
  run sample_X (sample_world sample_env_version sample_blocked_fs)
  = (1, add_stderr (Traceback (OSError ENOTDIR (path_str (appimage_dir sample_X))))
          (set_env (child_env sample_X sample_env_version)
             (sample_world sample_env_version sample_blocked_fs))).
Proof.
  destruct (no_tool_directory_no_download sample_X
              (sample_world sample_env_version sample_blocked_fs)
              "/usr/bin/convert" "/usr/bin/cargo" (Str "1.2.3")) as [H1 H2].
  - reflexivity.
  - reflexivity.
  - apply resolve_version_override; [vm_compute; reflexivity|discriminate].
  - vm_compute. reflexivity.
  - apply H1. apply (H2 420 ""); vm_compute; reflexivity.
Defined.

(** ** The first helper tool, lines 186-192 *)

(** X14.  The path of the first helper tool, when it holds a slash, is
    taken as the program itself, made absolute; a bare name is looked up
    on the execution path.  The program is started in the working
    directory of the script with eight arguments: the four options and
    their values.  When it ends with a return code other than 0, the error
    of plumbum is raised with that code, and the second helper tool is
    never started: the log ends with the start of the first, and no
    [Created] line is printed. *)
Theorem failed_first_tool_stops_before_second (X : Externals) (linuxdeploy appimagetool : Path)
    (version : obj) (arch : string) (w : World) :
  (contains "/" (path_str linuxdeploy) = true →
   local_get X (path_str linuxdeploy) w
     = (Ok (path_str (at_loc (here X (Path_of (path_str linuxdeploy))))), w)) ∧
  (contains "/" (path_str linuxdeploy) = false → contains "\" (path_str linuxdeploy) = false →
   local_get X (path_str linuxdeploy) w
     = match which X (path_str linuxdeploy) with
       | Some program => (Ok program, w)
       | None => (Raise (CommandNotFound (path_str linuxdeploy)), w)
       end) ∧
  (∀ tool retcode report after,
     local_get X (path_str linuxdeploy) w = (Ok tool, w) →
     spawn X tool
       ["--appdir"; path_str (appdir X); "--executable"; path_str (bin_path X);
        "--desktop-file"; path_str (desktop_target X);
        "--icon-file"; path_str (appdir X // "diskfmt.png")]
       (cwd X) (env w) (fs w) = Exited retcode report after →
     retcode ≠ 0 →
     (run_linuxdeploy X linuxdeploy;; package X version arch appimagetool) w
     = (Raise (ProcessExecutionError retcode report),
        mkWorld (env w) after (stdout w) (stderr w)
          (log w ++ [Spawn tool
                       ["--appdir"; path_str (appdir X); "--executable"; path_str (bin_path X);
                        "--desktop-file"; path_str (desktop_target X);
                        "--icon-file"; path_str (appdir X // "diskfmt.png")] (fs w)]))).
Proof.
  split; [|split].
  - intros H. unfold local_get. by rewrite H.
  - intros H1 H2. unfold local_get. rewrite H1, H2. cbn [orb].
    by destruct (which X (path_str linuxdeploy)).
  - intros tool retcode report after Hg Hsp Hrc.
    rewrite bind_unfold. unfold run_linuxdeploy. rewrite (bind_Ok _ _ _ _ _ Hg).
    by rewrite (call_failed X tool (deploy_args X) (cwd X) w retcode report after Hsp Hrc).
Qed.

(** ** After the downloads, lines 142-206 *)

(** X15.  From the build on, [main] never ends the process by itself and
    writes nothing to the error stream: however this part ends, the error
    stream and the environment are as they were when it started, and when
    it fails it fails with an exception, never with [SystemExit].  The one
    error line of such a run is written by the [__main__] block or by the
    interpreter. *)
Theorem no_exit_after_downloads (X : Externals) (cargo : string) (e : gmap string string)
    (version : obj) (im : string) (w : World) :
  stderr ((build_if_missing X cargo;; staging X e version im) w).2 = stderr w ∧
  env ((build_if_missing X cargo;; staging X e version im) w).2 = env w ∧
  ∀ code, ((build_if_missing X cargo;; staging X e version im) w).1 ≠ Raise (SystemExit code).
Proof.
  destruct (after_downloads_calm X cargo e version im) as [Ht Hne].
  destruct (Ht w) as (He & _ & _ & Herr & _).
  split; [by apply Herr|]. split; [by apply He|]. intros code. apply Hne.
Qed.
